(** * your-body-speaks: daily nutrition totals from a menu and a nutrition table

    A shallow embedding of [nutrition.py], [menu.py] and [main.py], and the
    properties of the quantity parser, the nutrition table and the daily
    aggregator.

    Conventions of the embedding.
    - Text is a [string] of code points below 256; [isspace], [lower] and the
      regular-expression classes are Python's on that range.
    - Python numbers (int and float) are an abstract type [num] with the
      operations the program uses (class [PyNum]); theorems hold for every
      implementation.  [pynum] is one implementation, with exact rational
      arithmetic for the floats, used to run the program on concrete inputs.
    - Arithmetic is total here.  Python raises [OverflowError] when an int
      beyond the float range meets a float or is formatted with [.0f]; that
      exception is outside the embedding.  The table holds floats only, so
      it can come only from the ints of the menu ([extra], a required
      count): the properties of [calculate], [format_row] and [main] that
      say which exceptions can occur are stated for numbers [in_range].
    - Exceptions and the [logging] calls are an error monad with a log. *)

From Stdlib Require Import List String Ascii Bool Arith ZArith NArith QArith Lia.
From Stdlib Require Import Permutation DecimalString Qreduction.
Import ListNotations.

Local Close Scope Q_scope.
Local Open Scope list_scope.
Local Open Scope string_scope.

(* ================================================================== *)
(** ** Characters and the [str] methods the program uses *)

Module Str.

Definition code (c : ascii) : N := N_of_ascii c.

(** [str.isspace] on one character: TAB..CR, FS..US, space, NEL and NBSP. *)
Definition isspace (c : ascii) : bool :=
  let n := code c in
  ((9 <=? n) && (n <=? 13) || (28 <=? n) && (n <=? 32)
   || (n =? 133) || (n =? 160))%N.

(** [\d]: the decimal digits (the only ones below 256). *)
Definition isdigit (c : ascii) : bool :=
  let n := code c in ((48 <=? n) && (n <=? 57))%N.

(** One character of [str.lower]: A-Z, and the Latin-1 capitals except the
    multiplication sign. *)
Definition lower_char (c : ascii) : ascii :=
  let n := code c in
  if ((65 <=? n) && (n <=? 90)
      || (192 <=? n) && (n <=? 222) && negb (n =? 215))%N
  then ascii_of_N (n + 32) else c.

Definition upper_char (c : ascii) : ascii :=
  let n := code c in
  if ((97 <=? n) && (n <=? 122))%N then ascii_of_N (n - 32) else c.

Fixpoint lower (s : string) : string :=
  match s with
  | EmptyString => EmptyString
  | String c s' => String (lower_char c) (lower s')
  end.

Fixpoint lstrip (s : string) : string :=
  match s with
  | EmptyString => EmptyString
  | String c s' => if isspace c then lstrip s' else s
  end.

Fixpoint rstrip (s : string) : string :=
  match s with
  | EmptyString => EmptyString
  | String c s' =>
      match rstrip s' with
      | EmptyString => if isspace c then EmptyString else String c EmptyString
      | r => String c r
      end
  end.

(** [s.strip()] *)
Definition strip (s : string) : string := rstrip (lstrip s).

(** [s.startswith(p)] *)
Fixpoint startswith (s p : string) {struct p} : bool :=
  match p, s with
  | EmptyString, _ => true
  | String a p', String b s' => Ascii.eqb a b && startswith s' p'
  | String _ _, EmptyString => false
  end.

(** [s[n:]] *)
Fixpoint drop (n : nat) (s : string) : string :=
  match n, s with
  | O, _ => s
  | S n', String _ s' => drop n' s'
  | S _, EmptyString => EmptyString
  end.

(** [s[:n]] *)
Fixpoint take (n : nat) (s : string) : string :=
  match n, s with
  | S n', String c s' => String c (take n' s')
  | _, _ => EmptyString
  end.

(** [s.split()]: the maximal runs of characters that are not whitespace.
    [cur] is the run being read. *)
Fixpoint split_from (cur : string) (s : string) : list string :=
  match s with
  | EmptyString => match cur with EmptyString => [] | _ => [cur] end
  | String c s' =>
      if isspace c then
        match cur with
        | EmptyString => split_from EmptyString s'
        | _ => cur :: split_from EmptyString s'
        end
      else split_from (cur ++ String c EmptyString) s'
  end.

Definition split (s : string) : list string := split_from EmptyString s.

(** [s.split(sep)] for a one-character separator: always at least one
    field. *)
Fixpoint split_on (sep : ascii) (s : string) : list string :=
  match s with
  | EmptyString => [EmptyString]
  | String c s' =>
      if Ascii.eqb c sep then EmptyString :: split_on sep s'
      else match split_on sep s' with
           | f :: fs => String c f :: fs
           | [] => [String c EmptyString]
           end
  end.

(** [c in s] *)
Fixpoint contains (c : ascii) (s : string) : bool :=
  match s with
  | EmptyString => false
  | String d s' => Ascii.eqb c d || contains c s'
  end.

(** [sep.join(l)] *)
Fixpoint join (sep : string) (l : list string) : string :=
  match l with
  | [] => EmptyString
  | [x] => x
  | x :: rest => x ++ sep ++ join sep rest
  end.

(** [s.capitalize()] on ASCII text. *)
Definition capitalize (s : string) : string :=
  match s with
  | EmptyString => EmptyString
  | String c s' => String (upper_char c) (lower s')
  end.

(** [str(n)] for a non-negative int. *)
Definition of_nat (n : nat) : string := NilEmpty.string_of_uint (Nat.to_uint n).

(** One hexadecimal digit, in lower case. *)
Definition hex_digit (n : N) : ascii :=
  if (n <? 10)%N then ascii_of_N (48 + n) else ascii_of_N (87 + n).

(** [str.isprintable] on one character: the ASCII graphic characters and
    the space, and the Latin-1 ones from the inverted exclamation mark on,
    except the soft hyphen. *)
Definition isprintable (c : ascii) : bool :=
  let n := code c in
  ((32 <=? n) && (n <? 127) || (161 <=? n) && negb (n =? 173))%N.

(** One character of [repr(s)], between quotes [q]. *)
Definition repr_char (q c : ascii) : string :=
  let n := code c in
  if Ascii.eqb c q || (n =? 92)%N then String "092" (String c EmptyString)
  else if (n =? 9)%N then String "092" "t"
  else if (n =? 10)%N then String "092" "n"
  else if (n =? 13)%N then String "092" "r"
  else if isprintable c then String c EmptyString
  else String "092"
         (String "x" (String (hex_digit (n / 16))
                             (String (hex_digit (n mod 16)) EmptyString))).

(** [repr(s)]: between single quotes, or between double quotes when [s]
    holds a single quote and no double quote. *)
Definition repr (s : string) : string :=
  let q := if contains "'" s && negb (contains "034" s)
           then "034"%char else "'"%char in
  String q
    ((fix go (s : string) : string :=
        match s with
        | EmptyString => String q EmptyString
        | String c s' => repr_char q c ++ go s'
        end) s).

(** Text that [lower] leaves alone. *)
Definition is_lower (s : string) : Prop := lower s = s.

End Str.

(* ================================================================== *)
(** ** The fragment of [re] that [parse_quantity] uses

    A backtracking matcher in continuation-passing style: alternatives are
    tried in Python's order (greedy repetition first, the left branch of an
    alternation first) and the first complete match wins. *)

Module Re.

Inductive regex : Type :=
| Eps
| Lit (s : string)                  (* a literal *)
| Cls (p : ascii -> bool)           (* one character of a class *)
| Cat (r1 r2 : regex)
| Alt (r1 r2 : regex)               (* r1|r2 *)
| Opt (r : regex)                   (* r? , greedy *)
| Star (p : ascii -> bool)          (* [p]* , greedy *)
| Plus (p : ascii -> bool)          (* [p]+ , greedy *)
| Group (i : nat) (r : regex)       (* capturing group number i *)
| Eol.                              (* $ without MULTILINE *)

(** The groups that took part in the match, latest first. *)
Definition captures := list (nat * string).

Fixpoint group (i : nat) (m : captures) : option string :=
  match m with
  | [] => None
  | (j, s) :: m' => if Nat.eqb i j then Some s else group i m'
  end.

Section Exec.
Context {R : Type}.

(** Greedy [p*] before continuation [k]: take one more character when the
    class allows it, and give it back when the rest fails. *)
Fixpoint star (p : ascii -> bool) (s : string) (k : string -> option R)
  : option R :=
  match s with
  | String c s' =>
      if p c then
        match star p s' k with
        | Some r => Some r
        | None => k s
        end
      else k s
  | EmptyString => k s
  end.

Fixpoint exec (r : regex) (s : string) (m : captures)
         (k : string -> captures -> option R) : option R :=
  match r with
  | Eps => k s m
  | Lit l => if Str.startswith s l then k (Str.drop (String.length l) s) m
             else None
  | Cls p => match s with
             | String c s' => if p c then k s' m else None
             | EmptyString => None
             end
  | Cat r1 r2 => exec r1 s m (fun s' m' => exec r2 s' m' k)
  | Alt r1 r2 => match exec r1 s m k with
                 | Some x => Some x
                 | None => exec r2 s m k
                 end
  | Opt r1 => match exec r1 s m k with
              | Some x => Some x
              | None => k s m
              end
  | Star p => star p s (fun s' => k s' m)
  | Plus p => match s with
              | String c s' => if p c then star p s' (fun s'' => k s'' m)
                               else None
              | EmptyString => None
              end
  | Group i r1 =>
      exec r1 s m (fun s' m' =>
        k s' ((i, Str.take (String.length s - String.length s') s) :: m'))
  | Eol => match s with
           | EmptyString => k s m
           | String c EmptyString =>
               if Ascii.eqb c "010"%char then k s m else None
           | _ => None
           end
  end.
End Exec.

(** [re.match(r, s)]: anchored at the start of [s]. *)
Definition re_match (r : regex) (s : string) : option captures :=
  exec r s [] (fun _ m => Some m).

Definition dot (c : ascii) : bool := negb (Ascii.eqb c "010"%char).

End Re.

(* ================================================================== *)
(** ** Exceptions and logging

    A computation yields its log records and either a value or the exception
    it raised.  Nothing in the program reads the log back. *)

Inductive exn : Type :=
| ValueError (msg : string)
| ZeroDivisionError
| KeyError (key : string).

Inductive event : Type :=
| LogWarning (msg : string)          (* logging.warning *)
| LogInfo (msg : string)             (* logging.info *)
| LogError (msg : string)            (* logging.error *)
| FileWrite (path content : string). (* open(path, "w").write(content) *)

Inductive result (A : Type) : Type :=
| Ok (a : A)
| Raise (e : exn).
Arguments Ok {A} a.
Arguments Raise {A} e.

Definition M (A : Type) : Type := (list event * result A)%type.

Definition ret {A} (a : A) : M A := ([], Ok a).
Definition raise {A} (e : exn) : M A := ([], Raise e).
Definition emit (ev : event) : M unit := ([ev], Ok tt).

Definition bind {A B} (m : M A) (k : A -> M B) : M B :=
  match m with
  | (w, Ok a) => let (w', r) := k a in ((w ++ w')%list, r)
  | (w, Raise e) => (w, Raise e)
  end.

Declare Scope monad_scope.
Delimit Scope monad_scope with monad.
Notation "x <- m ;; k" := (bind m (fun x => k))
  (at level 61, m at next level, right associativity) : monad_scope.
Notation "m ;;; k" := (bind m (fun _ => k))
  (at level 61, right associativity) : monad_scope.
Local Open Scope monad_scope.

(** [[f(x) for x in l]] when [f] may raise: left to right, stopping at the
    first exception. *)
Fixpoint mapM {A B} (f : A -> M B) (l : list A) : M (list B) :=
  match l with
  | [] => ret []
  | x :: l' => y <- f x ;; ys <- mapM f l' ;; ret (y :: ys)
  end.

Definition log_of {A} (m : M A) : list event := fst m.
Definition result_of {A} (m : M A) : result A := snd m.

(** The exception class, without its message. *)
Inductive exn_kind : Type :=
  KValueError | KZeroDivisionError | KKeyError.

Definition kind_of (e : exn) : exn_kind :=
  match e with
  | ValueError _ => KValueError
  | ZeroDivisionError => KZeroDivisionError
  | KeyError _ => KKeyError
  end.

(* ================================================================== *)
(** ** Python numbers *)

Class PyNum (num : Type) : Type := {
  of_int : Z -> num;               (* an int *)
  half : num;                      (* the literal 0.5 *)
  float_digits : string -> num;    (* float(s), s matching \d+(\.\d+)? *)
  pyfloat : string -> option num;  (* float(s); None: ValueError *)
  nadd : num -> num -> num;        (* x + y *)
  nmul : num -> num -> num;        (* x * y *)
  nquot : num -> num -> num;       (* x / y where y != 0 *)
  is_zero : num -> bool;           (* x == 0 *)
  num_str : num -> string;         (* format(x, "") *)
  num_fix0 : num -> string;        (* format(x, ".0f") *)
  is_zero_of_int : forall z, is_zero (of_int z) = (z =? 0)%Z
}.

(** [x / y] *)
Definition ndiv {num} `{PyNum num} (x y : num) : M num :=
  if is_zero y then raise ZeroDivisionError else ret (nquot x y).

(** [KCAL_PER_G = {"c": 4, "p": 4, "f": 9}] *)
Definition KCAL_PER_G (k : string) : Z :=
  if String.eqb k "c" then 4
  else if String.eqb k "p" then 4
  else if String.eqb k "f" then 9
  else 0.

(* ================================================================== *)
(** ** [class Nutrients] *)

Module Nutrients.
Section WithNum.
Context {num : Type} `{PyNum num}.

Record t : Type := mk { c : num; p : num; f : num; cal : num }.

(** [Nutrients()] *)
Definition zero : t := mk (of_int 0) (of_int 0) (of_int 0) (of_int 0).

(** [__add__] *)
Definition add (x y : t) : t :=
  mk (nadd (c x) (c y)) (nadd (p x) (p y))
     (nadd (f x) (f y)) (nadd (cal x) (cal y)).

(** [__mul__] *)
Definition mul (x : t) (n : num) : t :=
  mk (nmul (c x) n) (nmul (p x) n)
     (nmul (f x) n) (nmul (cal x) n).

(** [__truediv__]: the four quotients are evaluated in field order. *)
Definition truediv (x : t) (n : num) : M t :=
  c' <- ndiv (c x) n ;;
  p' <- ndiv (p x) n ;;
  f' <- ndiv (f x) n ;;
  cal' <- ndiv (cal x) n ;;
  ret (mk c' p' f' cal').

(** The loop of [avg]: [total = total + item] for each item. *)
Definition total (items : list t) : t := fold_left add items zero.

(** [avg(items)] *)
Definition avg (items : list t) : M t :=
  truediv (total items) (of_int (Z.of_nat (List.length items))).
End WithNum.
Arguments t num : clear implicits.
End Nutrients.

(* ================================================================== *)
(** ** [parse_quantity] *)

(** [^(\d+(?:\.\d+)?)\s*(g|cup)?\s*(.+)$]; [re.match] anchors the pattern at
    the start, so [^] needs no node. *)
Definition quantity_re : Re.regex :=
  Re.Cat (Re.Group 1
            (Re.Cat (Re.Plus Str.isdigit)
                    (Re.Opt (Re.Cat (Re.Lit ".") (Re.Plus Str.isdigit)))))
 (Re.Cat (Re.Star Str.isspace)
 (Re.Cat (Re.Opt (Re.Group 2 (Re.Alt (Re.Lit "g") (Re.Lit "cup"))))
 (Re.Cat (Re.Star Str.isspace)
 (Re.Cat (Re.Group 3 (Re.Plus Re.dot))
         Re.Eol)))).

(** [m.group(i)] of a group that always takes part in a match. *)
Definition group_text (i : nat) (m : Re.captures) : string :=
  match Re.group i m with Some s => s | None => EmptyString end.

Section ParseQuantity.
Context {num : Type} `{PyNum num}.

Definition parse_quantity (text : string) : num * option string * string :=
  let text := Str.lower (Str.strip text) in
  if Str.startswith text "half " then (half, None, Str.drop 5 text)
  else
    match Re.re_match quantity_re text with
    | Some m => (float_digits (group_text 1 m), Re.group 2 m, group_text 3 m)
    | None => (of_int 1, None, text)
    end.
End ParseQuantity.

(* ================================================================== *)
(** ** Python dicts: insertion-ordered, one entry per key *)

Module Dict.
Section WithTypes.
Context {K V : Type} (eqb : K -> K -> bool).

Definition t : Type := list (K * V).

(** [d.get(k)] *)
Fixpoint lookup (k : K) (d : t) : option V :=
  match d with
  | [] => None
  | (k', v) :: d' => if eqb k k' then Some v else lookup k d'
  end.

(** [k in d] *)
Definition mem (k : K) (d : t) : bool :=
  match lookup k d with Some _ => true | None => false end.

(** [d[k] = v]: a key already present keeps its place. *)
Fixpoint set (k : K) (v : V) (d : t) : t :=
  match d with
  | [] => [(k, v)]
  | (k', v') :: d' => if eqb k k' then (k', v) :: d'
                      else (k', v') :: set k v d'
  end.

(** Iteration order of [for k in d]. *)
Definition keys (d : t) : list K := map fst d.
End WithTypes.
End Dict.

(* ================================================================== *)
(** ** [class NutritionDB] *)

(** The dict stored for one food. *)
Record FoodRecord (num : Type) : Type := mkFood {
  item_c : num;
  item_p : num;
  item_f : num;
  serving_amt : num;
  serving_unit : string;
  item_cal : num
}.
Arguments mkFood {num}.
Arguments item_c {num}.
Arguments item_p {num}.
Arguments item_f {num}.
Arguments serving_amt {num}.
Arguments serving_unit {num}.
Arguments item_cal {num}.

(** [a > b] on scores.  A score is a quotient of two word counts; the
    comparisons of [match] are taken on the exact quotients. *)
Definition Qgtb (a b : Q) : bool := negb (Qle_bool a b).

Definition str_mem (w : string) (l : list string) : bool :=
  existsb (String.eqb w) l.

(** [set(s.split())] *)
Definition word_set (s : string) : list string :=
  nodup string_dec (Str.split s).

(** [len(text_words & name_words)] *)
Definition overlap (text_words name_words : list string) : nat :=
  List.length (filter (fun w => str_mem w name_words) text_words).

(** [overlap / len(name_words) if name_words else 0] *)
Definition score (text_words name_words : list string) : Q :=
  match name_words with
  | [] => 0%Q
  | _ => (Z.of_nat (overlap text_words name_words)
          # Pos.of_nat (List.length name_words))%Q
  end.

Module NutritionDB.
Section WithNum.
Context {num : Type} `{PyNum num}.

(** [self.items] *)
Definition t : Type := Dict.t (K := string) (V := FoodRecord num).

(** [float(s)] *)
Definition to_float (s : string) : M num :=
  match pyfloat s with
  | Some x => ret x
  | None =>
      raise (ValueError ("could not convert string to float: " ++ Str.repr s))
  end.

(** [l[1:-1]] *)
Definition inner {A} (l : list A) : list A := removelast (tl l).

(** [cols] of one line. *)
Definition columns (line : string) : list string :=
  map Str.strip (inner (Str.split_on "|" line)).

(** Whether the loop body skips [line]. *)
Definition skipped (line : string) : bool :=
  match Str.strip line with
  | EmptyString => true
  | _ => negb (Str.contains "|" line)
  end.

Definition col (i : nat) (cols : list string) : string :=
  nth i cols EmptyString.

(** The dict stored for a row: the [float] calls run in the order of the
    dict display. *)
Definition record_of (cols : list string) : M (FoodRecord num) :=
  c <- to_float (col 2 cols) ;;
  p <- to_float (col 3 cols) ;;
  f <- to_float (col 4 cols) ;;
  amt <- to_float (col 5 cols) ;;
  let unit := Str.lower (col 6 cols) in
  cal <- to_float (col 7 cols) ;;
  ret (mkFood c p f amt unit cal).

(** One iteration of the loop of [_load]. *)
Definition load_line (items : t) (line : string) : M t :=
  if skipped line then ret items
  else
    let cols := columns line in
    if (8 <=? List.length cols)%nat then
      let name := Str.lower (col 1 cols) in
      item <- record_of cols ;;
      ret (Dict.set String.eqb name item items)
    else ret items.

Fixpoint load_lines (items : t) (lines : list string) : M t :=
  match lines with
  | [] => ret items
  | line :: rest => items' <- load_line items line ;; load_lines items' rest
  end.

(** [_load], from the lines [f.readlines()] gave, into the empty
    [self.items]. *)
Definition _load (lines : list string) : M t :=
  load_lines [] (skipn 2 lines).

(** One iteration of the loop of [match]; the state is
    [(best, best_score)]. *)
Definition match_step (text_words : list string)
           (st : option string * Q) (name : string) : option string * Q :=
  let sc := score text_words (word_set name) in
  if Qgtb sc (snd st) then (Some name, sc) else st.

Definition best_match (items : t) (text : string) : option string * Q :=
  fold_left (match_step (word_set text)) (Dict.keys items) (None, 0%Q).

(** [match] *)
Definition match_ (items : t) (text : string) : option string :=
  let text := Str.strip (Str.lower text) in
  if Dict.mem String.eqb text items then Some text
  else
    let (best, best_score) := best_match items text in
    if Qgtb best_score (1 # 2)%Q then best else None.

(** Truth value of [name] in [if not name]. *)
Definition truthy (name : option string) : bool :=
  match name with
  | None => false
  | Some EmptyString => false
  | Some _ => true
  end.

Definition unit_str (unit : option string) : string :=
  match unit with Some u => u | None => "None" end.

Definition unit_is (unit : option string) (u : string) : bool :=
  match unit with Some v => String.eqb v u | None => false end.

Definition is_none {A} (o : option A) : bool :=
  match o with None => true | Some _ => false end.

(** The ratio of [get]. *)
Definition ratio_of (menu_text : string) (qty : num) (unit : option string)
           (item : FoodRecord num) : M num :=
  if unit_is unit "g" && String.eqb (serving_unit item) "g" then
    ndiv qty (serving_amt item)
  else if unit_is unit (serving_unit item) then
    ndiv qty (serving_amt item)
  else if is_none unit then
    ndiv qty (serving_amt item)
  else
    emit (LogWarning ("Unit mismatch for '" ++ menu_text ++ "': expected '"
                      ++ serving_unit item ++ "', got '" ++ unit_str unit
                      ++ "'")) ;;;
    ret qty.

(** [item] scaled by [ratio] *)
Definition scaled (item : FoodRecord num) (ratio : num) : Nutrients.t num :=
  Nutrients.mk (nmul (item_c item) ratio) (nmul (item_p item) ratio)
               (nmul (item_f item) ratio) (nmul (item_cal item) ratio).

(** [get] *)
Definition get (items : t) (menu_text : string) : M (Nutrients.t num) :=
  let '(qty, unit, item_text) := parse_quantity menu_text in
  let name := match_ items item_text in
  if negb (truthy name) then
    raise (ValueError ("Item not found: " ++ menu_text))
  else
    match name with
    | None => raise (ValueError ("Item not found: " ++ menu_text))
    | Some name =>
        match Dict.lookup String.eqb name items with
        | None => raise (KeyError name)
        | Some item =>
            ratio <- ratio_of menu_text qty unit item ;;
            ret (scaled item ratio)
        end
    end.

(** [exists] *)
Definition exists_ (items : t) (menu_text : string) : bool :=
  let '(_, _, item_text) := parse_quantity (num := num) menu_text in
  negb (is_none (match_ items item_text)).
End WithNum.
Arguments t num : clear implicits.
End NutritionDB.

(* ================================================================== *)
(** ** [class Menu], as [Menu.__init__] leaves it *)

Record Menu (num : Type) : Type := mkMenu {
  extra : Nutrients.t num;
  carbs_per_day : Dict.t (K := string) (V := num);
  carbs_item : option string;
  fixed : list (list string);
  options : list (list string * nat * nat);      (* (items, n, group_id) *)
  choose_groups : Dict.t (K := nat) (V := nat)   (* {group_id: n} *)
}.
Arguments mkMenu {num}.
Arguments extra {num}.
Arguments carbs_per_day {num}.
Arguments carbs_item {num}.
Arguments fixed {num}.
Arguments options {num}.
Arguments choose_groups {num}.

(** [all_items] *)
Definition all_items {num} (menu : Menu num) : list string :=
  (List.concat (fixed menu)
   ++ List.concat (map (fun o => fst (fst o)) (options menu))
   ++ match carbs_item menu with
      | Some (String a s) => [String a s]
      | _ => []
      end)%list.

(* ================================================================== *)
(** ** [Menu._load], from the document [yaml.safe_load] returned

    The document is taken as typed: the values on which the code would stop
    with a [TypeError], an [AttributeError] or an [IndexError] (an item
    that is neither a string nor a mapping, a key that is not a string, a
    nested value that is not a list of strings, a field of [extra] that is
    not a number) have no representation here. *)

(** What the loop [for opt in opts or []] meets. *)
Inductive option_node : Type :=
| OptText (s : string)               (* a str *)
| OptNested (nested : list string)   (* a dict; [list(opt.values())[0]] *)
| OptOther.                          (* neither: passed over *)

(** An element of a food section. *)
Inductive item_node : Type :=
| ItemText (s : string)
| ItemMap (entries : list (string * list option_node)).
                                     (* a dict: each key with [opts or []] *)

(** The value of a top-level key. *)
Inductive section_node : Type :=
| SecList (items : list item_node)
| SecOther.                          (* not a list *)

(** [RESERVED_KEYS] *)
Definition RESERVED_KEYS : list string := ["carbs"; "extra"].

(** [choose\s+(\d+)] *)
Definition choose_re : Re.regex :=
  Re.Cat (Re.Lit "choose")
 (Re.Cat (Re.Plus Str.isspace)
         (Re.Group 1 (Re.Plus Str.isdigit))).

(** [int(s)] for a string of digits. *)
Definition int_of_digits (s : string) : nat :=
  (fix go (acc : nat) (s : string) : nat :=
     match s with
     | EmptyString => acc
     | String c s' => go (10 * acc + N.to_nat (Str.code c - 48)) s'
     end) 0%nat s.

(** The fields [_parse_sections] fills, and its counter. *)
Record sections_state : Type := mkSections {
  choose_id : nat;
  ps_fixed : list (list string);
  ps_options : list (list string * nat * nat);
  ps_groups : Dict.t (K := nat) (V := nat)
}.

(** The body of [for opt in opts or []]. *)
Definition parse_option (n id : nat) (st : sections_state)
           (opt : option_node) : sections_state :=
  match opt with
  | OptText s =>
      mkSections (choose_id st) (ps_fixed st)
                 (ps_options st ++ [([s], n, id)])%list (ps_groups st)
  | OptNested nested =>
      mkSections (choose_id st) (ps_fixed st)
                 (ps_options st ++ [(nested, n, id)])%list (ps_groups st)
  | OptOther => st
  end.

(** The body of [for key, opts in item.items()]. *)
Definition parse_entry (st : sections_state)
           (entry : string * list option_node) : sections_state :=
  let (key, opts) := entry in
  match Re.re_match choose_re key with
  | Some m =>
      let id := S (choose_id st) in
      let n := int_of_digits (group_text 1 m) in
      fold_left (parse_option n id) opts
                (mkSections id (ps_fixed st) (ps_options st)
                            (Dict.set Nat.eqb id n (ps_groups st)))
  | None => st
  end.

(** The body of [for item in items]. *)
Definition parse_item (st : sections_state) (item : item_node)
  : sections_state :=
  match item with
  | ItemText s =>
      mkSections (choose_id st) (ps_fixed st ++ [[s]])%list
                 (ps_options st) (ps_groups st)
  | ItemMap entries => fold_left parse_entry entries st
  end.

(** The body of [for section, items in data.items()]. *)
Definition parse_section (st : sections_state)
           (sec : string * section_node) : sections_state :=
  let (section, items) := sec in
  if str_mem section RESERVED_KEYS then st
  else match items with
       | SecList l => fold_left parse_item l st
       | SecOther => st
       end.

(** [_parse_sections], on a new [Menu]. *)
Definition _parse_sections (data : list (string * section_node))
  : sections_state :=
  fold_left parse_section data (mkSections 0 [] [] []).

Section MenuLoad.
Context {num : Type} `{PyNum num}.

(** A per-day value of the [carbs] section. *)
Inductive scalar : Type :=
| ScText (s : string)
| ScNum (x : num).

(** [str(val)] *)
Definition scalar_str (v : scalar) : string :=
  match v with
  | ScText s => s
  | ScNum x => num_str x
  end.

(** [{day: parse_quantity(str(val))[0] for day, val in amounts.items()}] *)
Definition day_amounts (amounts : list (string * scalar))
  : Dict.t (K := string) (V := num) :=
  fold_left (fun d (e : string * scalar) =>
               Dict.set String.eqb (fst e)
                        (fst (fst (parse_quantity (scalar_str (snd e))))) d)
            amounts [].

(** [_parse_carbs], on a new [Menu]: [(carbs_item, carbs_per_day)]. *)
Definition _parse_carbs (carbs : list (string * list (string * scalar)))
  : option string * Dict.t (K := string) (V := num) :=
  fold_left (fun _ (e : string * list (string * scalar)) =>
               (Some (fst e), day_amounts (snd e)))
            carbs (None, []).

(** [extra.get(key, 0)] *)
Definition extra_get (extra : list (string * num)) (key : string) : num :=
  match Dict.lookup String.eqb key extra with
  | Some x => x
  | None => of_int 0
  end.

(** [_parse_extra], on a new [Menu]; a missing section and an empty mapping
    are both [[]]. *)
Definition _parse_extra (extra : list (string * num)) : Nutrients.t num :=
  match extra with
  | [] => Nutrients.zero
  | _ => Nutrients.mk (extra_get extra "carbs") (extra_get extra "protein")
                      (extra_get extra "fat") (extra_get extra "calories")
  end.

(** The three parts of the document [Menu._load] reads. *)
Record document : Type := mkDocument {
  doc_extra : list (string * num);
  doc_carbs : list (string * list (string * scalar));
  doc_data : list (string * section_node)
}.

(** [Menu(filepath)] *)
Definition Menu_load (doc : document) : Menu num :=
  let st := _parse_sections (doc_data doc) in
  mkMenu (_parse_extra (doc_extra doc))
         (snd (_parse_carbs (doc_carbs doc)))
         (fst (_parse_carbs (doc_carbs doc)))
         (ps_fixed st) (ps_options st) (ps_groups st).
End MenuLoad.
Arguments scalar num : clear implicits.
Arguments document num : clear implicits.

(* ================================================================== *)
(** ** [main.py] *)

Definition DAYS : list string := ["upper"; "lower"; "rest"].

Section Main.
Context {num : Type} `{PyNum num}.
Abbreviation db_t := (NutritionDB.t num).
Abbreviation nut := (Nutrients.t num).

Definition missing_items (db : db_t) (menu : Menu num) : list string :=
  filter (fun item => negb (NutritionDB.exists_ db item)) (all_items menu).

Definition missing_message (missing : list string) : string :=
  "Not found in nutrition_facts.md:" ++ String "010" EmptyString
  ++ Str.join (String "010" EmptyString)
              (map (fun m => ("   - " ++ m)%string) missing).

(** [[g for g, _, i in menu.options if i == id]] *)
Definition opts_of (menu : Menu num) (id : nat) : list (list string) :=
  map (fun o => fst (fst o))
      (filter (fun o => Nat.eqb (snd o) id) (options menu)).

(** The second loop of [check_menu]. *)
Fixpoint check_groups (menu : Menu num) (groups : list (nat * nat))
  : M unit :=
  match groups with
  | [] => ret tt
  | (id, n) :: rest =>
      let opts := opts_of menu id in
      if (List.length opts <? n)%nat then
        raise (ValueError ("[choose " ++ Str.of_nat n ++ "] has only "
                           ++ Str.of_nat (List.length opts)
                           ++ " option(s)"))
      else check_groups menu rest
  end.

(** [check_menu] *)
Definition check_menu (db : db_t) (menu : Menu num) : M unit :=
  let missing := missing_items db menu in
  match missing with
  | _ :: _ => raise (ValueError (missing_message missing))
  | [] => check_groups menu (choose_groups menu)
  end.

(** [get_nutrients] *)
Definition get_nutrients (db : db_t) (items : list string) : M nut :=
  vs <- mapM (NutritionDB.get db) items ;;
  Nutrients.avg vs.

(** [calculate], first loop: the fixed items. *)
Fixpoint add_fixed (db : db_t) (groups : list (list string)) (totals : nut)
  : M nut :=
  match groups with
  | [] => ret totals
  | group :: rest =>
      v <- get_nutrients db group ;;
      add_fixed db rest (Nutrients.add totals v)
  end.

(** The dict [grouped]: [{id: (n, [values])}]. *)
Definition grouped_t : Type := Dict.t (K := nat) (V := nat * list nut).

(** [grouped.setdefault(id, (n, []))[1].append(v)] *)
Definition grouped_add (grouped : grouped_t) (n id : nat) (v : nut)
  : grouped_t :=
  match Dict.lookup Nat.eqb id grouped with
  | Some (n0, choices) => Dict.set Nat.eqb id (n0, (choices ++ [v])%list) grouped
  | None => Dict.set Nat.eqb id (n, [v]) grouped
  end.

(** [calculate], second loop: fill [grouped].  An exception of
    [get_nutrients] leaves the function, so the entry [setdefault] made
    just before it is never seen. *)
Fixpoint group_options (db : db_t) (opts : list (list string * nat * nat))
         (grouped : grouped_t) : M grouped_t :=
  match opts with
  | [] => ret grouped
  | (group, n, id) :: rest =>
      v <- get_nutrients db group ;;
      group_options db rest (grouped_add grouped n id v)
  end.

(** [calculate], third loop: [totals + avg(choices) * n] per group. *)
Fixpoint add_grouped (grouped : grouped_t) (totals : nut) : M nut :=
  match grouped with
  | [] => ret totals
  | (_, (n, choices)) :: rest =>
      a <- Nutrients.avg choices ;;
      add_grouped rest
        (Nutrients.add totals (Nutrients.mul a (of_int (Z.of_nat n))))
  end.

Definition str_truthy (s : option string) : bool :=
  match s with Some (String _ _) => true | _ => false end.

(** [f"{grams}g {menu.carbs_item}"] *)
Definition carbs_text (grams : num) (item : option string) : string :=
  num_str grams ++ "g " ++ NutritionDB.unit_str item.

(** [calculate], the per-day carbs: the guard is the truth value of
    [menu.carbs_item and (grams := menu.carbs_per_day.get(day))]. *)
Definition add_carbs (db : db_t) (menu : Menu num) (day : string)
           (totals : nut) : M nut :=
  if str_truthy (carbs_item menu) then
    match Dict.lookup String.eqb day (carbs_per_day menu) with
    | Some grams =>
        if is_zero grams then ret totals
        else
          v <- NutritionDB.get db (carbs_text grams (carbs_item menu)) ;;
          ret (Nutrients.add totals v)
    | None => ret totals
    end
  else ret totals.

Definition kcal (k : string) : num := of_int (KCAL_PER_G k).

(** [extra_cal] *)
Definition extra_cal (e : nut) : num :=
  nadd (nadd (nmul (Nutrients.c e) (kcal "c"))
             (nmul (Nutrients.p e) (kcal "p")))
       (nmul (Nutrients.f e) (kcal "f")).

(** The value added for [extra]. *)
Definition extra_term (e : nut) : nut :=
  Nutrients.mk (Nutrients.c e) (Nutrients.p e) (Nutrients.f e)
               (nadd (Nutrients.cal e) (extra_cal e)).

(** [calculate] *)
Definition calculate (db : db_t) (menu : Menu num) (day : string) : M nut :=
  totals <- add_fixed db (fixed menu) Nutrients.zero ;;
  grouped <- group_options db (options menu) [] ;;
  totals <- add_grouped grouped totals ;;
  totals <- add_carbs db menu day totals ;;
  ret (Nutrients.add totals (extra_term (extra menu))).

(** [format_row] *)
Definition format_row (day : string) (totals : nut) : M string :=
  let c_cal := nmul (Nutrients.c totals) (kcal "c") in
  let p_cal := nmul (Nutrients.p totals) (kcal "p") in
  let f_cal := nmul (Nutrients.f totals) (kcal "f") in
  let total_cal := nadd (nadd p_cal c_cal) f_cal in
  let pct (x : num) : M string :=
    q <- ndiv x total_cal ;; ret (num_fix0 (nmul q (of_int 100))) in
  c_pct <- pct c_cal ;;
  p_pct <- pct p_cal ;;
  f_pct <- pct f_cal ;;
  ret ("| " ++ Str.capitalize day ++ " | "
       ++ num_fix0 (Nutrients.cal totals) ++ " kcal | "
       ++ num_fix0 (Nutrients.c totals) ++ "g (" ++ c_pct ++ "%) | "
       ++ num_fix0 (Nutrients.p totals) ++ "g (" ++ p_pct ++ "%) | "
       ++ num_fix0 (Nutrients.f totals) ++ "g (" ++ f_pct ++ "%) |").

(** The loop of [main] over [DAYS]. *)
Fixpoint day_rows (db : db_t) (menu : Menu num) (days : list string)
  : M (list string) :=
  match days with
  | [] => ret []
  | day :: rest =>
      t <- calculate db menu day ;;
      row <- format_row day t ;;
      rows <- day_rows db menu rest ;;
      ret (row :: rows)
  end.

(** The [try] block of [main], from the lines of nutrition_facts.md and the
    menu that [Menu("menu.yaml")] built. *)
Definition main_try (lines : list string) (menu : Menu num) : M unit :=
  db <- NutritionDB._load lines ;;
  check_menu db menu ;;;
  rows <- day_rows db menu DAYS ;;
  let output :=
    Str.join (String "010" EmptyString)
      ("| Day | Calories | Carbs | Protein | Fat |"
       :: "|-----|----------|-------|---------|-----|" :: rows) in
  emit (LogInfo output) ;;;
  emit (FileWrite "out.md" (output ++ String "010" EmptyString)).

(** How the process ends. *)
Inductive ending : Type :=
| Finished                 (* main returned *)
| Exit (status : Z)        (* sys.exit(status) *)
| Uncaught (e : exn).      (* an exception left main *)

(** [main]: [except ValueError as e: logging.error(e); sys.exit(1)]. *)
Definition main (lines : list string) (menu : Menu num)
  : list event * ending :=
  match main_try lines menu with
  | (w, Ok _) => (w, Finished)
  | (w, Raise (ValueError msg)) => ((w ++ [LogError msg])%list, Exit 1)
  | (w, Raise e) => (w, Uncaught e)
  end.
End Main.

(* ================================================================== *)
(** ** An implementation of [PyNum]: ints, and floats as exact rationals

    A float is kept as a reduced fraction, so equal values are equal terms.
    This is arithmetic without rounding: it agrees with Python's doubles
    where the operands and the result are exactly representable, and is
    used only to run the program on such inputs.  There is no infinity, no
    NaN and no negative zero.  [pyfloat] reads the spellings
    [[+-]digits[.digits]] with surrounding whitespace, and no exponent;
    [num_str] prints a float as Python does when its magnitude is at least
    0.0001 and below 10^16 and its decimal expansion stops within 17
    digits. *)

Module Exact.
Local Open Scope Q_scope.

Inductive pynum : Type :=
| PyInt (z : Z)
| PyFloat (q : Q).

Definition to_Q (x : pynum) : Q :=
  match x with PyInt z => inject_Z z | PyFloat q => q end.

Definition fl (q : Q) : pynum := PyFloat (Qred q).

Definition padd (x y : pynum) : pynum :=
  match x, y with
  | PyInt a, PyInt b => PyInt (a + b)
  | _, _ => fl (to_Q x + to_Q y)
  end.

Definition pmul (x y : pynum) : pynum :=
  match x, y with
  | PyInt a, PyInt b => PyInt (a * b)
  | _, _ => fl (to_Q x * to_Q y)
  end.

Definition pquot (x y : pynum) : pynum := fl (to_Q x / to_Q y).

Definition pis_zero (x : pynum) : bool :=
  match x with
  | PyInt z => (z =? 0)%Z
  | PyFloat q => (Qnum q =? 0)%Z
  end.

(** The value of a string of digits, most significant first. *)
Fixpoint digits_val (acc : Z) (s : string) : option Z :=
  match s with
  | EmptyString => Some acc
  | String c s' =>
      if Str.isdigit c
      then digits_val (10 * acc + Z.of_N (Str.code c - 48)) s'
      else None
  end.

(** [digits] or [digits.digits] *)
Definition decimal (s : string) : option Q :=
  match Str.split_on "." s with
  | [i] =>
      match i, digits_val 0 i with
      | String _ _, Some n => Some (inject_Z n)
      | _, _ => None
      end
  | [i; d] =>
      match i, d, digits_val 0 (i ++ d) with
      | String _ _, String _ _, Some n =>
          Some (n # Pos.of_nat (10 ^ String.length d))
      | _, _, _ => None
      end
  | _ => None
  end.

Definition pfloat_digits (s : string) : pynum :=
  match decimal s with Some q => fl q | None => fl 0 end.

Definition ppyfloat (s : string) : option pynum :=
  match Str.strip s with
  | String "-" s' => option_map (fun q => fl (- q)) (decimal s')
  | String "+" s' => option_map fl (decimal s')
  | s' => option_map fl (decimal s')
  end.

Definition Z_str (z : Z) : string := NilEmpty.string_of_int (Z.to_int z).

(** The digits of [r / d] after the point, [r < d], at most [fuel] of
    them. *)
Fixpoint frac_digits (fuel : nat) (r d : Z) : string :=
  match fuel with
  | O => EmptyString
  | S fuel' =>
      if (r =? 0)%Z then EmptyString
      else Z_str (10 * r / d) ++ frac_digits fuel' (10 * r mod d) d
  end.

Definition float_str (q : Q) : string :=
  let n := Z.abs (Qnum q) in
  let d := Zpos (Qden q) in
  let sign := if (Qnum q <? 0)%Z then "-" else "" in
  let frac := frac_digits 17 (n mod d) d in
  sign ++ Z_str (n / d) ++ "."
  ++ match frac with EmptyString => "0" | _ => frac end.

Definition pnum_str (x : pynum) : string :=
  match x with
  | PyInt z => Z_str z
  | PyFloat q => float_str q
  end.

(** Rounding to an integer, ties to even. *)
Definition round_even (q : Q) : Z :=
  let n := Qnum q in
  let d := Zpos (Qden q) in
  let fl := (n / d)%Z in
  let r2 := (2 * (n mod d))%Z in
  if (r2 <? d)%Z then fl
  else if (d <? r2)%Z then (fl + 1)%Z
  else if Z.even fl then fl else (fl + 1)%Z.

(** [format(x, ".0f")]; a negative float that rounds to zero keeps its
    sign. *)
Definition pnum_fix0 (x : pynum) : string :=
  match x with
  | PyInt z => Z_str z
  | PyFloat q =>
      if ((round_even q =? 0) && (Qnum q <? 0))%Z then "-0"
      else Z_str (round_even q)
  end.

#[global] Instance pynum_PyNum : PyNum pynum := {|
  of_int := PyInt;
  half := PyFloat (1 # 2);
  float_digits := pfloat_digits;
  pyfloat := ppyfloat;
  nadd := padd;
  nmul := pmul;
  nquot := pquot;
  is_zero := pis_zero;
  num_str := pnum_str;
  num_fix0 := pnum_fix0;
  is_zero_of_int := fun z => eq_refl
|}.

End Exact.

(* ================================================================== *)
(** * Definitions used to state the properties *)

Module StrSpec.
Import Str.

(** No whitespace in front. *)
Definition no_lead (s : string) : Prop :=
  match s with
  | EmptyString => True
  | String c _ => isspace c = false
  end.

End StrSpec.

Module ReSpec.
Import Str Re.

(** Every character of [s] is in the class [p]. *)
Fixpoint all_in (p : ascii -> bool) (s : string) : Prop :=
  match s with
  | EmptyString => True
  | String c s' => p c = true /\ all_in p s'
  end.

(** [matches r u rest m m']: [r] can consume [u] in front of [rest], taking
    the captures from [m] to [m']. *)
Inductive matches : regex -> string -> string -> captures -> captures -> Prop :=
| M_Eps rest m : matches Eps "" rest m m
| M_Lit l rest m : matches (Lit l) l rest m m
| M_Cls p c rest m : p c = true -> matches (Cls p) (String c "") rest m m
| M_Cat r1 r2 u1 u2 rest m m1 m2 :
    matches r1 u1 (u2 ++ rest) m m1 -> matches r2 u2 rest m1 m2 ->
    matches (Cat r1 r2) (u1 ++ u2) rest m m2
| M_AltL r1 r2 u rest m m' :
    matches r1 u rest m m' -> matches (Alt r1 r2) u rest m m'
| M_AltR r1 r2 u rest m m' :
    matches r2 u rest m m' -> matches (Alt r1 r2) u rest m m'
| M_OptSome r u rest m m' :
    matches r u rest m m' -> matches (Opt r) u rest m m'
| M_OptNone r rest m : matches (Opt r) "" rest m m
| M_Star p u rest m : all_in p u -> matches (Star p) u rest m m
| M_Plus p c u rest m :
    p c = true -> all_in p u -> matches (Plus p) (String c u) rest m m
| M_Group i r u rest m m' :
    matches r u rest m m' -> matches (Group i r) u rest m ((i, u) :: m')
| M_EolEnd m : matches Eol "" "" m m
| M_EolNl m : matches Eol "" (String "010" "") m m.

(** [s] does not begin with a character of the class [p]. *)
Definition not_first (p : ascii -> bool) (s : string) : Prop :=
  match s with
  | EmptyString => True
  | String c _ => p c = false
  end.

(** A fraction part: nothing, or a point and digits. *)
Definition fraction (fr : string) : Prop :=
  fr = ""
  \/ exists c1 ds2, fr = String "." (String c1 ds2)
                    /\ isdigit c1 = true /\ all_in isdigit ds2.

Definition is_point (c : ascii) : bool := Ascii.eqb c ".".

End ReSpec.

Definition nl : string := String "010" EmptyString.

(** The value returned, or the class of the exception raised. *)
Definition outcome {A} (m : M A) : A + exn_kind :=
  match result_of m with
  | Ok a => inl a
  | Raise e => inr (kind_of e)
  end.

Section SpecDefs.
Context {num : Type} `{PyNum num}.
Import NutritionDB.
Abbreviation db_t := (NutritionDB.t num).
Abbreviation nut := (Nutrients.t num).

(** [sum(l)] on numbers: the left fold from [0]. *)
Definition nsum (l : list num) : num := fold_left nadd l (of_int 0).

(** The requested unit and the reference unit are both grams, or they are
    equal, or no unit was requested. *)
Definition units_agree (unit : option string) (item : FoodRecord num)
  : Prop :=
  (unit = Some "g" /\ serving_unit item = "g")
  \/ unit = Some (serving_unit item)
  \/ unit = None.

(** The three tests of [get] that lead to [qty / serving_amt]. *)
Definition agree_test (unit : option string) (item : FoodRecord num)
  : bool :=
  unit_is unit "g" && String.eqb (serving_unit item) "g"
  || unit_is unit (serving_unit item)
  || is_none unit.

(** Some stored name has a word-overlap score above 0.5 with [text], as
    [match] computes it. *)
Definition has_match (items : t num) (text : string) : Prop :=
  exists name,
    In name (Dict.keys items)
    /\ (1 # 2 < score (word_set (Str.strip (Str.lower text)))
                     (word_set name))%Q.

(** A line the loop neither skips nor finds too short. *)
Definition is_data_row (line : string) : Prop :=
  skipped line = false /\ (8 <=? List.length (columns line))%nat = true.

(** The key a data row is stored under. *)
Definition row_name (line : string) : string :=
  Str.lower (col 1 (columns line)).

(** Every data row of [lines] has numeric cells that [float] accepts. *)
Definition rows_parse (lines : list string) : Prop :=
  forall line, In line lines -> is_data_row line ->
               exists item, record_of (num := num) (columns line) = ret item.

(** The total before the per-day carbs: the fixed items and the options. *)
Definition before_carbs (db : db_t) (menu : Menu num) : M nut :=
  totals <- add_fixed db (fixed menu) Nutrients.zero ;;
  grouped <- group_options db (options menu) [] ;;
  add_grouped grouped totals.

(** The total before [extra]. *)
Definition before_extra (db : db_t) (menu : Menu num) (day : string) : M nut :=
  totals <- before_carbs db menu ;;
  add_carbs db menu day totals.

(** [menu] with another [extra]. *)
Definition with_extra (menu : Menu num) (e : nut) : Menu num :=
  mkMenu e (carbs_per_day menu) (carbs_item menu) (fixed menu)
         (options menu) (choose_groups menu).

(** An option-group with its value in place of its items: [(v, n, id)]. *)
Definition resolved : Type := (Nutrients.t num * nat * nat)%type.

Definition r_value (e : resolved) : Nutrients.t num := fst (fst e).

Definition r_count (e : resolved) : nat := snd (fst e).

Definition r_id (e : resolved) : nat := snd e.

(** The value of every option-group, in menu order: each is the average of
    the values of its member items. *)
Definition resolve_options (db : NutritionDB.t num)
           (opts : list (list string * nat * nat)) : M (list resolved) :=
  mapM (fun o : list string * nat * nat =>
          let '(group, n, id) := o in
          vs <- mapM (NutritionDB.get db) group ;;
          v <- Nutrients.avg vs ;;
          ret (v, n, id))
       opts.

(** The choice-group ids, each once, in order of first appearance. *)
Definition ids_in_order (es : list resolved) : list nat :=
  fold_left (fun acc e => if existsb (Nat.eqb (r_id e)) acc then acc
                          else (acc ++ [r_id e])%list)
            es [].

(** The values of all the option-groups tagged [id]. *)
Definition values_of (id : nat) (es : list resolved)
  : list (Nutrients.t num) :=
  map r_value (filter (fun e => Nat.eqb (r_id e) id) es).

(** The required count of group [id]: the one its first option carries. *)
Definition count_of (id : nat) (es : list resolved) : nat :=
  match filter (fun e => Nat.eqb (r_id e) id) es with
  | e :: _ => r_count e
  | [] => 0
  end.

(** The mean of a list of values: in each field, the sum of the field over
    the list divided by the number of values. *)
Definition mean (vs : list (Nutrients.t num)) : Nutrients.t num :=
  let n := of_int (Z.of_nat (List.length vs)) in
  Nutrients.mk (nquot (nsum (map Nutrients.c vs)) n)
               (nquot (nsum (map Nutrients.p vs)) n)
               (nquot (nsum (map Nutrients.f vs)) n)
               (nquot (nsum (map Nutrients.cal vs)) n).

(** A value with each of its fields multiplied by the count [n]. *)
Definition times (v : Nutrients.t num) (n : nat) : Nutrients.t num :=
  Nutrients.mk (nmul (Nutrients.c v) (of_int (Z.of_nat n)))
               (nmul (Nutrients.p v) (of_int (Z.of_nat n)))
               (nmul (Nutrients.f v) (of_int (Z.of_nat n)))
               (nmul (Nutrients.cal v) (of_int (Z.of_nat n))).

(** What the choice group [id] adds: the mean of the values of all the
    option-groups tagged [id], times the required count of the group. *)
Definition group_term (id : nat) (es : list resolved) : Nutrients.t num :=
  times (mean (values_of id es)) (count_of id es).

(** The options as the specification words them: for each id in turn, the
    term of its group is added to the total. *)
Definition add_choice_groups (ids : list nat) (es : list resolved)
           (totals : Nutrients.t num) : Nutrients.t num :=
  fold_left (fun t id => Nutrients.add t (group_term id es)) ids totals.

(** An option-group of the menu and its resolved entry: the value is what
    [get_nutrients] returns for the items, the count and the id are kept. *)
Definition resolves (db : NutritionDB.t num)
           (o : list string * nat * nat) (e : resolved) : Prop :=
  (exists w, get_nutrients db (fst (fst o)) = (w, Ok (r_value e)))
  /\ r_count e = snd (fst o)
  /\ r_id e = snd o.

(** [grouped] after the second loop ran over [es]. *)
Definition fill (es : list resolved) (grouped : grouped_t) : grouped_t :=
  fold_left (fun g e => grouped_add g (r_count e) (r_id e) (r_value e))
            es grouped.

(** The dict the specification describes. *)
Definition grouped_of (es : list resolved) : grouped_t :=
  map (fun id => (id, (count_of id es, values_of id es))) (ids_in_order es).

Definition tagged (i : nat) (es : list resolved) : list resolved :=
  filter (fun e => Nat.eqb (r_id e) i) es.
End SpecDefs.

Section MainSpecDefs.
Context {num : Type} `{PyNum num}.

(** Everything [main] does before it writes the report. *)
Definition main_rows (lines : list string) (menu : Menu num)
  : M (list string) :=
  bind (NutritionDB._load lines)
       (fun db => bind (check_menu db menu)
                       (fun _ => day_rows db menu DAYS)).

End MainSpecDefs.

Section CountSpecDefs.
Context {num : Type} `{PyNum num}.

(** [choose_groups[id]], the required count of the choice group [id]. *)
Definition required_count (groups : Dict.t (K := nat) (V := nat)) (id : nat)
  : nat :=
  match Dict.lookup Nat.eqb id groups with
  | Some n => n
  | None => 0
  end.

(** For each id in turn, add the mean of the values tagged [id], times the
    count that [groups] requires for [id]. *)
Definition add_required_groups (groups : Dict.t (K := nat) (V := nat))
           (ids : list nat) (es : list (@resolved num))
           (totals : Nutrients.t num) : Nutrients.t num :=
  fold_left (fun t id => Nutrients.add t (times (mean (values_of id es))
                                                (required_count groups id)))
            ids totals.

End CountSpecDefs.

Section RangeDefs.
Context {num : Type} `{PyNum num}.

(** A float: the value [float] returns for some text. *)
Definition is_float (x : num) : Prop := exists s, pyfloat s = Some x.

(** A number that meets floats, and is formatted, without [OverflowError]:
    a float, or an int of magnitude at most 2^1000. *)
Definition in_range (x : num) : Prop :=
  is_float x \/ exists z, (Z.abs z <= 2 ^ 1000)%Z /\ x = of_int z.

Definition nutrients_in_range (v : Nutrients.t num) : Prop :=
  in_range (Nutrients.c v) /\ in_range (Nutrients.p v)
  /\ in_range (Nutrients.f v) /\ in_range (Nutrients.cal v).

(** The numbers a menu holds are in range: the fields of [extra], the
    per-day amounts, and the required counts of the options. *)
Definition menu_in_range (menu : Menu num) : Prop :=
  nutrients_in_range (extra menu)
  /\ (forall day x, In (day, x) (carbs_per_day menu) -> in_range x)
  /\ (forall g n id, In (g, n, id) (options menu) ->
                     (Z.of_nat n <= 2 ^ 1000)%Z).

End RangeDefs.

(** What [_parse_sections] keeps true of its state: the group ids are
    1, 2, ... up to the counter, in that order; every option carries the
    count recorded for its group; every fixed group is one item. *)
Definition sections_inv (st : sections_state) : Prop :=
  Dict.keys (ps_groups st) = seq 1 (choose_id st)
  /\ (forall g n id, In (g, n, id) (ps_options st) ->
                     Dict.lookup Nat.eqb id (ps_groups st) = Some n)
  /\ (forall g, In g (ps_fixed st) -> exists s, g = [s]).

(** A log record made by [logging.warning]. *)
Definition is_warning (ev : event) : Prop :=
  match ev with LogWarning _ => True | _ => False end.

(** A computation that logs only warnings and does not raise [KeyError]. *)
Definition tame {A} (m : M A) : Prop :=
  Forall is_warning (log_of m)
  /\ forall key, result_of m <> Raise (KeyError key).

(** A computation whose only possible exception is [ZeroDivisionError]. *)
Definition only_zero_division {A} (m : M A) : Prop :=
  forall e, result_of m = Raise e -> e = ZeroDivisionError.

(** A computation that logs nothing and raises nothing but [ValueError]. *)
Definition quiet {A} (m : M A) : Prop :=
  log_of m = []
  /\ forall e, result_of m = Raise e -> exists msg, e = ValueError msg.

(* ================================================================== *)
(** * Properties *)

(** ** The monad *)

Lemma bind_ret_l {A B} (a : A) (k : A -> M B) : bind (ret a) k = k a.
Proof. unfold bind, ret. destruct (k a); reflexivity. Qed.

Lemma bind_raise_l {A B} (e : exn) (k : A -> M B) : bind (raise e) k = raise e.
Proof. reflexivity. Qed.

Lemma bind_ret_r {A} (m : M A) : bind m ret = m.
Proof.
  destruct m as [w [a | e]]; simpl; [rewrite app_nil_r|]; reflexivity.
Qed.

Lemma bind_assoc {A B C} (m : M A) (k : A -> M B) (h : B -> M C) :
  bind (bind m k) h = bind m (fun a => bind (k a) h).
Proof.
  destruct m as [w [a | e]]; simpl; [|reflexivity].
  destruct (k a) as [w' [b | e']]; simpl; [|reflexivity].
  destruct (h b) as [w'' r]. now rewrite app_assoc.
Qed.

Lemma bind_ext {A B} (m : M A) (k k' : A -> M B) :
  (forall a, k a = k' a) -> bind m k = bind m k'.
Proof.
  intros E. destruct m as [w [a | e]]; simpl; [rewrite E|]; reflexivity.
Qed.

Lemma bind_ext_ok {A B} (m : M A) (k k' : A -> M B) :
  (forall w a, m = (w, Ok a) -> k a = k' a) -> bind m k = bind m k'.
Proof.
  intros E. destruct m as [w [a | e]]; simpl; [|reflexivity].
  now rewrite (E w a eq_refl).
Qed.

Lemma bind_ok_inv {A B} (m : M A) (k : A -> M B) (w : list event) (b : B) :
  bind m k = (w, Ok b) ->
  exists w1 a w2, m = (w1, Ok a) /\ k a = (w2, Ok b) /\ w = (w1 ++ w2)%list.
Proof.
  destruct m as [w1 [a | e]]; simpl; [|discriminate].
  destruct (k a) as [w2 r] eqn:Ek. intros E. injection E as <- ->.
  now exists w1, a, w2.
Qed.

Lemma mapM_ok_inv {A B} (f : A -> M B) (l : list A) :
  forall w ys,
    mapM f l = (w, Ok ys) ->
    Forall2 (fun x y => exists w', f x = (w', Ok y)) l ys.
Proof.
  induction l as [|x l IH]; intros w ys; cbn [mapM].
  - intros E. injection E as _ <-. constructor.
  - intros E. apply bind_ok_inv in E as (w1 & y & w2 & Ex & E & _).
    apply bind_ok_inv in E as (w3 & ys' & w4 & El & E & _).
    injection E as _ <-. constructor; [now exists w1 | now apply (IH w3)].
Qed.

(** ** [Nutrients] *)

Section NutrientsFacts.
Context {num : Type} `{PyNum num}.

Lemma ndiv_nonzero (x y : num) :
  is_zero y = false -> ndiv x y = ret (nquot x y).
Proof. intros E. unfold ndiv. now rewrite E. Qed.

Lemma ndiv_zero (x y : num) :
  is_zero y = true -> ndiv x y = raise ZeroDivisionError.
Proof. intros E. unfold ndiv. now rewrite E. Qed.

Lemma truediv_nonzero (x : Nutrients.t num) (n : num) :
  is_zero n = false ->
  Nutrients.truediv x n =
  ret (Nutrients.mk (nquot (Nutrients.c x) n) (nquot (Nutrients.p x) n)
                    (nquot (Nutrients.f x) n) (nquot (Nutrients.cal x) n)).
Proof.
  intros E. unfold Nutrients.truediv.
  now rewrite !(ndiv_nonzero _ _ E), !bind_ret_l.
Qed.

Lemma truediv_zero (x : Nutrients.t num) (n : num) :
  is_zero n = true -> Nutrients.truediv x n = raise ZeroDivisionError.
Proof.
  intros E. unfold Nutrients.truediv. now rewrite (ndiv_zero _ _ E).
Qed.

Lemma is_zero_length {A} (l : list A) :
  l <> [] -> is_zero (of_int (Z.of_nat (List.length l))) = false.
Proof.
  intros Hl. rewrite is_zero_of_int. apply Z.eqb_neq.
  destruct l; [contradiction | simpl; lia].
Qed.

(** The accumulator of the loop of [avg], field by field. *)
Lemma fold_add_fields (items : list (Nutrients.t num)) (acc : Nutrients.t num) :
  fold_left Nutrients.add items acc =
  Nutrients.mk
    (fold_left nadd (map Nutrients.c items) (Nutrients.c acc))
    (fold_left nadd (map Nutrients.p items) (Nutrients.p acc))
    (fold_left nadd (map Nutrients.f items) (Nutrients.f acc))
    (fold_left nadd (map Nutrients.cal items) (Nutrients.cal acc)).
Proof.
  revert acc. induction items as [|x items IH]; intros acc; simpl.
  - now destruct acc.
  - now rewrite IH.
Qed.

Lemma avg_nonempty (items : list (Nutrients.t num)) :
  items <> [] ->
  Nutrients.avg items =
  let n := of_int (Z.of_nat (List.length items)) in
  ret (Nutrients.mk (nquot (nsum (map Nutrients.c items)) n)
                    (nquot (nsum (map Nutrients.p items)) n)
                    (nquot (nsum (map Nutrients.f items)) n)
                    (nquot (nsum (map Nutrients.cal items)) n)).
Proof.
  intros Hl. unfold Nutrients.avg, Nutrients.total.
  rewrite (truediv_nonzero _ _ (is_zero_length _ Hl)).
  now rewrite fold_add_fields.
Qed.

Section ExactAddition.
Hypothesis nadd_comm : forall x y : num, nadd x y = nadd y x.
Hypothesis nadd_assoc : forall x y z : num,
    nadd x (nadd y z) = nadd (nadd x y) z.

Lemma add_swap (acc x y : Nutrients.t num) :
  Nutrients.add (Nutrients.add acc x) y =
  Nutrients.add (Nutrients.add acc y) x.
Proof.
  unfold Nutrients.add; simpl. f_equal;
    rewrite <- !nadd_assoc; f_equal; apply nadd_comm.
Qed.

Lemma total_permutation (l l' : list (Nutrients.t num)) :
  Permutation l l' ->
  forall acc, fold_left Nutrients.add l acc = fold_left Nutrients.add l' acc.
Proof.
  induction 1 as [| x l l' _ IH | x y l | l l' l'' _ IH1 _ IH2];
    intros acc; simpl.
  - reflexivity.
  - apply IH.
  - now rewrite add_swap.
  - now rewrite IH1.
Qed.

Lemma avg_permutation (l l' : list (Nutrients.t num)) :
  Permutation l l' -> Nutrients.avg l = Nutrients.avg l'.
Proof.
  intros P. unfold Nutrients.avg, Nutrients.total.
  now rewrite (total_permutation _ _ P), (Permutation_length P).
Qed.
End ExactAddition.

Lemma avg_empty : Nutrients.avg (num := num) [] = raise ZeroDivisionError.
Proof.
  unfold Nutrients.avg. apply truediv_zero. now rewrite is_zero_of_int.
Qed.
End NutrientsFacts.

(** C8. For a non-empty list of [Nutrients], [avg] returns, in each field,
    the sum of that field over the list divided by the length of the list;
    when addition of numbers is commutative and associative (exact
    arithmetic) the result does not depend on the order of the list; on the
    empty list [avg] raises [ZeroDivisionError]. *)
Theorem avg_is_sum_over_length :
  forall (num : Type) (N : PyNum num),
    (forall items : list (Nutrients.t num),
        items <> [] ->
        Nutrients.avg items =
        ret (Nutrients.mk
               (nquot (nsum (map Nutrients.c items))
                      (of_int (Z.of_nat (List.length items))))
               (nquot (nsum (map Nutrients.p items))
                      (of_int (Z.of_nat (List.length items))))
               (nquot (nsum (map Nutrients.f items))
                      (of_int (Z.of_nat (List.length items))))
               (nquot (nsum (map Nutrients.cal items))
                      (of_int (Z.of_nat (List.length items))))))
    /\ ((forall x y : num, nadd x y = nadd y x) ->
        (forall x y z : num, nadd x (nadd y z) = nadd (nadd x y) z) ->
        forall l l' : list (Nutrients.t num),
          l <> [] -> Permutation l l' -> Nutrients.avg l = Nutrients.avg l')
    /\ Nutrients.avg (num := num) [] = raise ZeroDivisionError.
Proof.
  intros num N. split; [|split].
  - intros items Hl. now rewrite (avg_nonempty items Hl).
  - intros Hc Ha l l' _ P. now apply avg_permutation.
  - apply avg_empty.
Qed.

(** ** Exact arithmetic: addition in [Exact.pynum] is commutative and
    associative *)

Lemma fl_eq (a b : Q) : (a == b)%Q -> Exact.fl a = Exact.fl b.
Proof. intros E. unfold Exact.fl. f_equal. now apply Qred_complete. Qed.

Lemma padd_comm (x y : Exact.pynum) : Exact.padd x y = Exact.padd y x.
Proof.
  destruct x as [a | a], y as [b | b]; cbn [Exact.padd Exact.to_Q];
    try (f_equal; apply Z.add_comm); apply fl_eq; ring.
Qed.

Lemma padd_assoc (x y z : Exact.pynum) :
  Exact.padd x (Exact.padd y z) = Exact.padd (Exact.padd x y) z.
Proof.
  destruct x as [a | a], y as [b | b], z as [c | c];
    cbn [Exact.padd Exact.to_Q Exact.fl];
    try (f_equal; apply Z.add_assoc); apply fl_eq;
    rewrite ?Qred_correct, ?inject_Z_plus; ring.
Qed.

(** The average of (10, 0, 0, 40) and (0, 10, 0, 40) is (5, 5, 0, 40), in
    either order. *)
Lemma avg_is_sum_over_length_witness :
  let a := Nutrients.mk (Exact.PyInt 10) (Exact.PyInt 0) (Exact.PyInt 0)
                        (Exact.PyInt 40) in
  let b := Nutrients.mk (Exact.PyInt 0) (Exact.PyInt 10) (Exact.PyInt 0)
                        (Exact.PyInt 40) in
  Nutrients.avg [a; b] =
  ret (Nutrients.mk (Exact.PyFloat 5) (Exact.PyFloat 5) (Exact.PyFloat 0)
                    (Exact.PyFloat 40))
  /\ Nutrients.avg [a; b] = Nutrients.avg [b; a].
Proof.
  intros a b.
  destruct (avg_is_sum_over_length Exact.pynum _) as [H1 [H2 _]].
  split.
  - rewrite H1; [reflexivity | discriminate].
  - apply H2; [exact padd_comm | exact padd_assoc | discriminate
              | apply perm_swap].
Defined.

(** ** Strings *)

Module StrFacts.
Import Str StrSpec.

Lemma isspace_lower_char (c : ascii) : isspace (lower_char c) = isspace c.
Proof. destruct c as [[] [] [] [] [] [] [] []]; reflexivity. Qed.

Lemma lower_char_idem (c : ascii) : lower_char (lower_char c) = lower_char c.
Proof. destruct c as [[] [] [] [] [] [] [] []]; reflexivity. Qed.

Lemma lower_idem (s : string) : lower (lower s) = lower s.
Proof.
  induction s as [|c s IH]; simpl; [|rewrite lower_char_idem, IH]; reflexivity.
Qed.

Lemma lower_app (a b : string) : lower (a ++ b) = lower a ++ lower b.
Proof. induction a as [|c a IH]; simpl; [|rewrite IH]; reflexivity. Qed.

Lemma lstrip_lower (s : string) : lstrip (lower s) = lower (lstrip s).
Proof.
  induction s as [|c s IH]; simpl; [reflexivity|].
  rewrite isspace_lower_char. destruct (isspace c); [exact IH | reflexivity].
Qed.

Lemma rstrip_lower (s : string) : rstrip (lower s) = lower (rstrip s).
Proof.
  induction s as [|c s IH]; simpl; [reflexivity|].
  rewrite IH, isspace_lower_char.
  destruct (rstrip s); simpl; [destruct (isspace c)|]; reflexivity.
Qed.

Lemma strip_lower (s : string) : strip (lower s) = lower (strip s).
Proof. unfold strip. now rewrite lstrip_lower, rstrip_lower. Qed.

Lemma no_lead_lstrip (s : string) : no_lead (lstrip s).
Proof.
  induction s as [|c s IH]; simpl; [exact I|].
  destruct (isspace c) eqn:E; [exact IH | exact E].
Qed.

Lemma lstrip_no_lead (s : string) : no_lead s -> lstrip s = s.
Proof. destruct s as [|c s]; simpl; [|intros ->]; reflexivity. Qed.

Lemma no_lead_rstrip (s : string) : no_lead s -> no_lead (rstrip s).
Proof.
  destruct s as [|c s]; simpl; [trivial|]. intros E.
  destruct (rstrip s); [rewrite E|]; exact E.
Qed.

Lemma rstrip_idem (s : string) : rstrip (rstrip s) = rstrip s.
Proof.
  induction s as [|c s IH]; simpl; [reflexivity|].
  destruct (rstrip s) as [|d r] eqn:E.
  - destruct (isspace c) eqn:Ec; simpl; [|rewrite Ec]; reflexivity.
  - change (rstrip (String c (String d r))) with
      (match rstrip (String d r) with
       | EmptyString => if isspace c then EmptyString else String c EmptyString
       | r' => String c r'
       end).
    now rewrite IH.
Qed.

Lemma strip_idem (s : string) : strip (strip s) = strip s.
Proof.
  unfold strip.
  rewrite (lstrip_no_lead (rstrip (lstrip s))).
  - apply rstrip_idem.
  - apply no_lead_rstrip, no_lead_lstrip.
Qed.

(** [s.strip().lower()] is a fixed point of [strip] then [lower]. *)
Lemma normal_idem (s : string) :
  lower (strip (lower (strip s))) = lower (strip s).
Proof. now rewrite strip_lower, strip_idem, lower_idem. Qed.

Lemma is_lower_lower (s : string) : is_lower (lower s).
Proof. apply lower_idem. Qed.

Lemma is_lower_app (a b : string) :
  is_lower (a ++ b) <-> is_lower a /\ is_lower b.
Proof.
  unfold is_lower. induction a as [|c a IH]; simpl.
  - tauto.
  - split.
    + intros E. injection E as Ec Er. apply IH in Er as [Ea Eb].
      now rewrite Ec, Ea.
    + intros [E Eb]. injection E as Ec Ea. rewrite Ec. f_equal.
      apply IH. now split.
Qed.

Lemma is_lower_drop (n : nat) (s : string) : is_lower s -> is_lower (drop n s).
Proof.
  revert s. induction n as [|n IH]; intros [|c s] E; simpl; trivial.
  apply IH. unfold is_lower in *. simpl in E. now injection E.
Qed.

Lemma length_app (a b : string) :
  String.length (a ++ b) = String.length a + String.length b.
Proof. induction a as [|c a IH]; simpl; [|rewrite IH]; reflexivity. Qed.

Lemma take_app (a b : string) : take (String.length a) (a ++ b) = a.
Proof. induction a as [|c a IH]; simpl; [now destruct b | now rewrite IH]. Qed.

Lemma drop_app (a b : string) : drop (String.length a) (a ++ b) = b.
Proof. induction a as [|c a IH]; simpl; [reflexivity | exact IH]. Qed.

Lemma app_assoc (a b c : string) : (a ++ b) ++ c = a ++ (b ++ c).
Proof. induction a as [|x a IH]; simpl; [|rewrite IH]; reflexivity. Qed.

Lemma app_nil_r (a : string) : a ++ "" = a.
Proof. induction a as [|x a IH]; simpl; [|rewrite IH]; reflexivity. Qed.

Lemma startswith_app (s p : string) :
  startswith s p = true -> s = p ++ drop (String.length p) s.
Proof.
  revert s. induction p as [|c p IH]; intros s E; simpl.
  - reflexivity.
  - destruct s as [|d s]; simpl in E; [discriminate|].
    apply andb_true_iff in E as [Ec Es].
    apply Ascii.eqb_eq in Ec as ->. simpl. f_equal. now apply IH.
Qed.

Lemma startswith_prefix (p r : string) : startswith (p ++ r) p = true.
Proof.
  induction p as [|c p IH]; simpl; [reflexivity|].
  now rewrite Ascii.eqb_refl, IH.
Qed.

End StrFacts.

(** ** The matcher: what a successful match looks like *)

Module ReFacts.
Import Str StrFacts Re ReSpec.

Lemma star_sound {R} (p : ascii -> bool) (s : string)
      (k : string -> option R) (x : R) :
  star p s k = Some x ->
  exists u rest, s = u ++ rest /\ all_in p u /\ k rest = Some x.
Proof.
  induction s as [|c s IH]; simpl; intros E.
  - exists "", "". now repeat split.
  - destruct (p c) eqn:Ep.
    + destruct (star p s k) as [y|] eqn:Es.
      * injection E as ->. destruct (IH eq_refl) as (u & rest & -> & Hu & Hk).
        exists (String c u), rest. now repeat split.
      * exists "", (String c s). now repeat split.
    + exists "", (String c s). now repeat split.
Qed.

Lemma take_consumed (u rest : string) :
  take (String.length (u ++ rest) - String.length rest) (u ++ rest) = u.
Proof.
  rewrite length_app.
  replace (String.length u + String.length rest - String.length rest)%nat
    with (String.length u) by lia.
  apply take_app.
Qed.

Theorem exec_sound {R} (r : regex) :
  forall (s : string) (m : captures) (k : string -> captures -> option R)
         (x : R),
    exec r s m k = Some x ->
    exists u rest m',
      s = u ++ rest /\ matches r u rest m m' /\ k rest m' = Some x.
Proof.
  induction r as [| l | p | r1 IH1 r2 IH2 | r1 IH1 r2 IH2 | r1 IH1 | p | p
                 | i r1 IH1 |]; intros s m k x E; simpl in E.
  - exists "", s, m. repeat split; [constructor | exact E].
  - destruct (startswith s l) eqn:Es; [|discriminate].
    exists l, (drop (String.length l) s), m.
    repeat split; [now apply startswith_app | constructor | exact E].
  - destruct s as [|c s]; [discriminate|].
    destruct (p c) eqn:Ep; [|discriminate].
    exists (String c ""), s, m. repeat split; [now constructor | exact E].
  - apply IH1 in E as (u1 & rest1 & m1 & -> & H1 & E).
    apply IH2 in E as (u2 & rest & m2 & -> & H2 & E).
    exists (u1 ++ u2), rest, m2.
    repeat split; [now rewrite app_assoc | econstructor; eauto | exact E].
  - destruct (exec r1 s m k) as [y|] eqn:E1.
    + injection E as ->. apply IH1 in E1 as (u & rest & m' & -> & H1 & E).
      exists u, rest, m'. repeat split; [now apply M_AltL | exact E].
    + apply IH2 in E as (u & rest & m' & -> & H2 & E).
      exists u, rest, m'. repeat split; [now apply M_AltR | exact E].
  - destruct (exec r1 s m k) as [y|] eqn:E1.
    + injection E as ->. apply IH1 in E1 as (u & rest & m' & -> & H1 & E).
      exists u, rest, m'. repeat split; [now apply M_OptSome | exact E].
    + exists "", s, m. repeat split; [apply M_OptNone | exact E].
  - apply star_sound in E as (u & rest & -> & Hu & E).
    exists u, rest, m. repeat split; [now constructor | exact E].
  - destruct s as [|c s]; [discriminate|].
    destruct (p c) eqn:Ep; [|discriminate].
    apply star_sound in E as (u & rest & -> & Hu & E).
    exists (String c u), rest, m. repeat split; [now constructor | exact E].
  - apply IH1 in E as (u & rest & m' & -> & H1 & E).
    rewrite take_consumed in E.
    exists u, rest, ((i, u) :: m'). repeat split; [now constructor | exact E].
  - destruct s as [|c [|d s]]; try discriminate.
    + exists "", "", m. repeat split; [constructor | exact E].
    + destruct (Ascii.eqb_spec c "010"%char) as [->|]; [|discriminate].
      exists "", (String "010" ""), m. repeat split; [constructor | exact E].
Qed.

(** Greedy repetition succeeds on the longest run when what follows
    accepts it. *)
Lemma star_longest {R} (p : ascii -> bool) (u rest : string)
      (k : string -> option R) (x : R) :
  all_in p u ->
  match rest with String c _ => p c = false | EmptyString => True end ->
  k rest = Some x ->
  star p (u ++ rest) k = Some x.
Proof.
  intros Hu Hr Hk. induction u as [|c u IH]; simpl.
  - destruct rest as [|c rest]; simpl; [exact Hk | now rewrite Hr].
  - destruct Hu as [Hc Hu]. now rewrite Hc, (IH Hu).
Qed.

End ReFacts.

(** ** [parse_quantity] *)

Section ParseFacts.
Context {num : Type} `{PyNum num}.
Import Str StrFacts Re ReSpec ReFacts.

Ltac inv_matches :=
  repeat match goal with
    | H : matches (Cat _ _) _ _ _ _ |- _ => inversion H; subst; clear H
    | H : matches (Group _ _) _ _ _ _ |- _ => inversion H; subst; clear H
    | H : matches (Opt _) _ _ _ _ |- _ => inversion H; subst; clear H
    | H : matches (Alt _ _) _ _ _ _ |- _ => inversion H; subst; clear H
    | H : matches (Lit _) _ _ _ _ |- _ => inversion H; subst; clear H
    | H : matches (Star _) _ _ _ _ |- _ => inversion H; subst; clear H
    | H : matches (Plus _) _ _ _ _ |- _ => inversion H; subst; clear H
    | H : matches Eol _ _ _ _ |- _ => inversion H; subst; clear H
    end.

Lemma regroup (a b c d e r : string) :
  (a ++ b ++ c ++ d ++ e ++ "") ++ r = a ++ b ++ c ++ d ++ e ++ r.
Proof. now rewrite !app_assoc. Qed.

(** The groups of a match of [quantity_re]: group 1 and group 3 took part,
    group 2 is absent, "g" or "cup", and the text is the groups in
    order, with whitespace between and at most a newline after. *)
Lemma quantity_re_groups (t : string) (m : captures) :
  re_match quantity_re t = Some m ->
  exists g1 ws1 un ws2 g3 tl,
    t = g1 ++ ws1 ++ un ++ ws2 ++ g3 ++ tl
    /\ group 1 m = Some g1
    /\ group 3 m = Some g3
    /\ ((un = "" /\ group 2 m = None)
        \/ (un = "g" /\ group 2 m = Some "g")
        \/ (un = "cup" /\ group 2 m = Some "cup")).
Proof.
  unfold re_match, quantity_re. intros E.
  apply exec_sound in E as (u & rest & m' & -> & Hm & E).
  injection E as ->.
  inv_matches;
    rewrite regroup;
    eexists _, _, _, _, _, _;
    (split; [reflexivity |]); simpl; intuition.
Qed.

Lemma parse_quantity_normal (s : string) :
  parse_quantity (num := num) (lower (strip s)) = parse_quantity s.
Proof. unfold parse_quantity. now rewrite normal_idem. Qed.

Lemma parse_quantity_unit (s : string) :
  let '(_, unit, _) := parse_quantity (num := num) s in
  unit = None \/ unit = Some "g" \/ unit = Some "cup".
Proof.
  unfold parse_quantity.
  destruct (startswith _ _); [now left|].
  destruct (re_match _ _) as [m|] eqn:E; [|now left].
  apply quantity_re_groups in E
    as (g1 & ws1 & un & ws2 & g3 & tl & _ & _ & _ & Hu).
  destruct Hu as [[_ ->] | [[_ ->] | [_ ->]]]; auto.
Qed.

Lemma parse_quantity_lower (s : string) :
  let '(_, _, item_text) := parse_quantity (num := num) s in
  is_lower item_text.
Proof.
  unfold parse_quantity.
  pose proof (is_lower_lower (strip s)) as L.
  destruct (startswith _ _); [now apply is_lower_drop|].
  destruct (re_match _ _) as [m|] eqn:E; [|exact L].
  apply quantity_re_groups in E
    as (g1 & ws1 & un & ws2 & g3 & tl & Et & _ & E3 & _).
  unfold group_text. rewrite E3. rewrite Et in L.
  do 4 (apply is_lower_app in L as [_ L]).
  now apply is_lower_app in L as [L _].
Qed.

Lemma star_run {R} (p : ascii -> bool) (u rest : string)
      (k : string -> option R) (x : R) :
  all_in p u -> not_first p rest -> k rest = Some x ->
  star p (u ++ rest) k = Some x.
Proof. apply star_longest. Qed.

(** The part of [quantity_re] after the number, on whitespace and then
    text that begins with neither whitespace nor a unit. *)
Lemma quantity_tail_word (ws : string) (c : ascii) (r : string)
      (m : captures) :
  all_in isspace ws ->
  isspace c = false ->
  all_in dot (String c r) ->
  startswith (String c r) "g" = false ->
  startswith (String c r) "cup" = false ->
  exec (Cat (Star isspace)
       (Cat (Opt (Group 2 (Alt (Lit "g") (Lit "cup"))))
       (Cat (Star isspace)
       (Cat (Group 3 (Plus dot)) Eol))))
       (ws ++ String c r) m (fun _ m' => Some m')
  = Some ((3, String c r) :: m).
Proof.
  intros Hws Hc Hdot Hg Hcup.
  cbn [exec]. apply star_run; [exact Hws | exact Hc |].
  rewrite Hg, Hcup.
  change (String c r) with ("" ++ String c r) at 1.
  apply star_run; [exact I | exact Hc |].
  destruct Hdot as [Hd Hr]. rewrite Hd.
  rewrite <- (app_nil_r r) at 1.
  apply star_run; [exact Hr | exact I |].
  replace (String.length (String c r) - String.length "")%nat
    with (String.length (String c r)) by (simpl; lia).
  rewrite <- (app_nil_r (String c r)) at 2.
  now rewrite take_app.
Qed.

Lemma startswith_point (s : string) :
  not_first is_point s -> startswith s "." = false.
Proof.
  destruct s as [|c s]; [reflexivity|].
  cbn [not_first startswith]. unfold is_point.
  intros E. now rewrite Ascii.eqb_sym, E.
Qed.

(** Group 1 of [quantity_re] on a number and what follows it. *)
Lemma quantity_number {R} (c0 : ascii) (ds fr rest : string)
      (K : string -> captures -> option R) (x : R) :
  isdigit c0 = true -> all_in isdigit ds -> fraction fr ->
  not_first isdigit rest ->
  (fr = "" -> not_first is_point rest) ->
  K rest [(1, String c0 ds ++ fr)] = Some x ->
  exec (Group 1 (Cat (Plus isdigit)
                     (Opt (Cat (Lit ".") (Plus isdigit)))))
       ((String c0 ds ++ fr) ++ rest) [] K = Some x.
Proof.
  intros H0 Hds Hfr Hrest Hpt HK.
  cbn [exec].
  set (s := (String c0 ds ++ fr) ++ rest).
  assert (Ek : K rest [(1, take (String.length s - String.length rest) s)]
               = Some x).
  { subst s. now rewrite take_consumed. }
  assert (Es : s = String c0 (ds ++ fr ++ rest)).
  { subst s. simpl. now rewrite app_assoc. }
  clearbody s. clear HK. rewrite Es at 1. rewrite H0.
  apply star_run; [exact Hds | |].
  - destruct Hfr as [-> | (c1 & ds2 & -> & _)]; [exact Hrest | reflexivity].
  - destruct Hfr as [-> | (c1 & ds2 & -> & H1 & H2)].
    + cbn [append]. rewrite (startswith_point _ (Hpt eq_refl)). exact Ek.
    + cbn [append startswith String.length drop]. simpl Ascii.eqb. cbn [andb].
      rewrite H1. now rewrite (star_run isdigit ds2 rest _ x H2 Hrest Ek).
Qed.

Lemma space_not_digit (c : ascii) : isspace c = true -> isdigit c = false.
Proof. destruct c as [[] [] [] [] [] [] [] []]; vm_compute; congruence. Qed.

Lemma space_not_point (c : ascii) : isspace c = true -> is_point c = false.
Proof. destruct c as [[] [] [] [] [] [] [] []]; vm_compute; congruence. Qed.

Lemma digit_not_h (c : ascii) : isdigit c = true -> Ascii.eqb "h" c = false.
Proof. destruct c as [[] [] [] [] [] [] [] []]; vm_compute; congruence. Qed.

(** A number, whitespace, and then text that begins with neither
    whitespace nor "g" nor "cup": the whole text after the whitespace
    is the remainder, and there is no unit. *)
Lemma parse_number_word (s : string) (c0 : ascii) (ds fr ws : string)
      (c : ascii) (r : string) :
  lower (strip s) = (String c0 ds ++ fr) ++ ws ++ String c r ->
  isdigit c0 = true -> all_in isdigit ds -> fraction fr ->
  all_in isspace ws ->
  isspace c = false ->
  (ws = "" -> isdigit c = false /\ is_point c = false) ->
  all_in dot (String c r) ->
  startswith (String c r) "g" = false ->
  startswith (String c r) "cup" = false ->
  parse_quantity (num := num) s
  = (float_digits (String c0 ds ++ fr), None, String c r).
Proof.
  intros Et H0 Hds Hfr Hws Hc Hadj Hdot Hg Hcup.
  unfold parse_quantity. rewrite Et.
  assert (Eh : startswith ((String c0 ds ++ fr) ++ ws ++ String c r)
                          "half " = false).
  { cbn [append startswith]. now rewrite (digit_not_h _ H0). }
  rewrite Eh.
  assert (Em : re_match quantity_re
                 ((String c0 ds ++ fr) ++ ws ++ String c r)
               = Some [(3, String c r); (1, String c0 ds ++ fr)]).
  { unfold re_match, quantity_re.
    change (exec (Cat ?g ?rest) ?s ?m ?k)
      with (exec g s m (fun s' m' => exec rest s' m' k)).
    apply quantity_number; trivial.
    - destruct ws as [|w ws]; [now apply Hadj|].
      apply space_not_digit, Hws.
    - intros _. destruct ws as [|w ws]; [now apply Hadj|].
      apply space_not_point, Hws.
    - now apply quantity_tail_word. }
  rewrite Em. reflexivity.
Qed.
End ParseFacts.

(** ** What a computation returns, messages aside *)

Lemma outcome_bind {A B} (m m' : M A) (k k' : A -> M B) :
  outcome m = outcome m' ->
  (forall a, outcome (k a) = outcome (k' a)) ->
  outcome (bind m k) = outcome (bind m' k').
Proof.
  unfold outcome, result_of.
  destruct m as [w [a | e]], m' as [w' [a' | e']]; simpl;
    intros E Hk; try discriminate.
  - injection E as <-. specialize (Hk a).
    destruct (k a) as [w1 r1], (k' a) as [w2 r2]. exact Hk.
  - injection E as ->. reflexivity.
Qed.

(** ** [NutritionDB]: [match], [get] and [exists] *)

Section DBFacts.
Context {num : Type} `{PyNum num}.
Import NutritionDB.

Lemma lookup_keys {V} (d : Dict.t (K := string) (V := V)) (k : string) :
  In k (Dict.keys d) <-> exists v, Dict.lookup String.eqb k d = Some v.
Proof.
  induction d as [|[k' v'] d IH]; simpl.
  - split; [contradiction | intros [v E]; discriminate].
  - destruct (String.eqb_spec k k') as [->|Hne].
    + split; [intros _; now exists v' | now left].
    + rewrite <- IH. split; [intros [E|E]; [congruence | exact E] | now right].
Qed.

Lemma mem_keys {V} (d : Dict.t (K := string) (V := V)) (k : string) :
  Dict.mem String.eqb k d = true <-> In k (Dict.keys d).
Proof.
  rewrite lookup_keys. unfold Dict.mem.
  destruct (Dict.lookup String.eqb k d) as [v|].
  - split; [intros _; now exists v | reflexivity].
  - split; [discriminate | intros [v E]; discriminate].
Qed.

(** The loop of [match]: the state it ends in. *)
Lemma best_match_state (tw : list string) (names : list string)
      (st : option string * Q) :
  let st' := fold_left (match_step tw) names st in
  (snd st <= snd st')%Q
  /\ (forall n, In n names -> (score tw (word_set n) <= snd st')%Q)
  /\ (st' = st
      \/ exists n, In n names /\ st' = (Some n, score tw (word_set n))).
Proof.
  revert st. induction names as [|n names IH]; intros st; simpl.
  - split; [apply Qle_refl | split; [contradiction | now left]].
  - specialize (IH (match_step tw st n)).
    destruct IH as (Hle & Hall & Hst).
    assert (Hstep : (snd st <= snd (match_step tw st n))%Q
                    /\ (score tw (word_set n)
                        <= snd (match_step tw st n))%Q).
    { unfold match_step, Qgtb.
      destruct (Qle_bool (score tw (word_set n)) (snd st)) eqn:E; simpl.
      - split; [apply Qle_refl | now apply Qle_bool_iff].
      - split; [|apply Qle_refl].
        apply Qlt_le_weak, Qnot_le_lt. intros L.
        apply Qle_bool_iff in L. congruence. }
    destruct Hstep as [H1 H2].
    split; [eapply Qle_trans; eauto|].
    split.
    + intros m [<- | Hin]; [eapply Qle_trans; eauto | now apply Hall].
    + destruct Hst as [-> | (m & Hin & ->)].
      * unfold match_step.
        destruct (Qgtb _ _); [right; exists n | left]; auto.
      * right. exists m. auto.
Qed.

Lemma match_in_keys (items : t num) (text name : string) :
  match_ items text = Some name -> In name (Dict.keys items).
Proof.
  unfold match_.
  destruct (Dict.mem _ _ _) eqn:Em.
  - intros E. injection E as <-. now apply mem_keys.
  - unfold best_match.
    pose proof (best_match_state
                  (word_set (Str.strip (Str.lower text)))
                  (Dict.keys items) (None, 0%Q)) as (_ & _ & Hst).
    simpl in Hst.
    destruct (fold_left _ _ _) as [best sc].
    destruct (Qgtb sc (1 # 2)); [|discriminate].
    intros ->. destruct Hst as [E | (n & Hin & E)]; [discriminate|].
    now injection E as <- _.
Qed.

(** A name that [match] returns has an entry. *)
Lemma match_lookup (items : t num) (text name : string) :
  match_ items text = Some name ->
  exists item, Dict.lookup String.eqb name items = Some item.
Proof. intros E. now apply lookup_keys, (match_in_keys _ text). Qed.

Lemma unit_is_spec (unit : option string) (u : string) :
  unit_is unit u = true <-> unit = Some u.
Proof.
  destruct unit as [v|]; simpl; [|split; discriminate].
  rewrite String.eqb_eq. split; [now intros -> | now intros [= ->]].
Qed.

Lemma agree_test_spec (unit : option string) (item : FoodRecord num) :
  agree_test unit item = true <-> units_agree unit item.
Proof.
  unfold agree_test, units_agree.
  rewrite !orb_true_iff, andb_true_iff, !unit_is_spec, String.eqb_eq.
  destruct unit; simpl; intuition congruence.
Qed.

Lemma ratio_of_agree (menu_text : string) (qty : num)
      (unit : option string) (item : FoodRecord num) :
  agree_test unit item = true ->
  ratio_of menu_text qty unit item = ndiv qty (serving_amt item).
Proof.
  unfold agree_test, ratio_of.
  destruct (unit_is unit "g" && _); [reflexivity|].
  destruct (unit_is unit (serving_unit item)); [reflexivity|].
  destruct (is_none unit); [reflexivity | discriminate].
Qed.

Lemma ratio_of_mismatch (menu_text : string) (qty : num)
      (unit : option string) (item : FoodRecord num) :
  agree_test unit item = false ->
  ratio_of menu_text qty unit item =
  ([LogWarning ("Unit mismatch for '" ++ menu_text ++ "': expected '"
                ++ serving_unit item ++ "', got '" ++ unit_str unit
                ++ "'")], Ok qty).
Proof.
  unfold agree_test, ratio_of.
  destruct (unit_is unit "g" && _); [discriminate|].
  destruct (unit_is unit (serving_unit item)); [discriminate|].
  destruct (is_none unit); [discriminate | reflexivity].
Qed.

(** [get] once the remainder is matched to a named record. *)
Lemma get_found (items : t num) (menu_text : string) (qty : num)
      (unit : option string) (item_text name : string)
      (item : FoodRecord num) :
  parse_quantity menu_text = (qty, unit, item_text) ->
  match_ items item_text = Some name ->
  name <> "" ->
  Dict.lookup String.eqb name items = Some item ->
  get items menu_text =
  bind (ratio_of menu_text qty unit item) (fun ratio => ret (scaled item ratio)).
Proof.
  intros Ep Em Hn El. unfold get. rewrite Ep, Em.
  destruct name as [|a name]; [contradiction|]. simpl. now rewrite El.
Qed.

Lemma get_not_found (items : t num) (menu_text : string) :
  (let '(_, _, item_text) := parse_quantity (num := num) menu_text in
   match_ items item_text = None \/ match_ items item_text = Some "") ->
  get items menu_text = raise (ValueError ("Item not found: " ++ menu_text)).
Proof.
  unfold get. destruct (parse_quantity menu_text) as [[qty unit] item_text].
  now intros [-> | ->].
Qed.

Lemma exists_spec (items : t num) (menu_text : string) :
  exists_ items menu_text =
  let '(_, _, item_text) := parse_quantity (num := num) menu_text in
  match match_ items item_text with Some _ => true | None => false end.
Proof.
  unfold exists_. destruct (parse_quantity menu_text) as [[qty unit] r].
  now destruct (match_ items r).
Qed.

Lemma score_positive (tw nw : list string) :
  (0 < score tw nw)%Q -> tw <> [] /\ nw <> [].
Proof.
  unfold score. destruct nw as [|w nw]; [intros L; now inversion L|].
  destruct tw as [|v tw]; [intros L; now inversion L|].
  intros _. split; discriminate.
Qed.

Lemma Qgtb_spec (a b : Q) : Qgtb a b = true <-> (b < a)%Q.
Proof.
  unfold Qgtb. rewrite negb_true_iff. split.
  - intros E. apply Qnot_le_lt. intros L. apply Qle_bool_iff in L.
    congruence.
  - intros L. destruct (Qle_bool a b) eqn:E; [|reflexivity].
    apply Qle_bool_iff in E. exfalso. now apply (Qlt_not_le _ _ L).
Qed.

Lemma half_positive (q : Q) : (1 # 2 < q)%Q -> (0 < q)%Q.
Proof. intros L. eapply Qlt_trans; [|exact L]. reflexivity. Qed.

(** With such a name, [match] returns a name, and not the empty one. *)
Lemma match_has_match (items : t num) (text : string) :
  has_match items text ->
  exists name, match_ items text = Some name /\ name <> "".
Proof.
  intros (n & Hin & Hsc). unfold match_.
  set (tx := Str.strip (Str.lower text)) in *.
  destruct (Dict.mem String.eqb tx items) eqn:Em.
  - exists tx. split; [reflexivity|]. intros E.
    apply half_positive, score_positive in Hsc as [Htw _].
    apply Htw. now rewrite E.
  - unfold best_match.
    pose proof (best_match_state (word_set tx) (Dict.keys items)
                                 (None, 0%Q)) as (_ & Hall & Hst).
    simpl in Hall, Hst.
    destruct (fold_left _ _ _) as [best sc]. simpl in Hall.
    assert (Hgt : (1 # 2 < sc)%Q).
    { eapply Qlt_le_trans; [exact Hsc | now apply Hall]. }
    apply Qgtb_spec in Hgt as Eg. rewrite Eg.
    destruct Hst as [E | (m & _ & E)].
    + injection E as _ ->. now inversion Hgt.
    + injection E as -> ->. exists m. split; [reflexivity|].
      intros ->. apply half_positive, score_positive in Hgt as [_ Hnw].
      now apply Hnw.
Qed.
End DBFacts.

(** C1 (amended). When the parsed remainder is matched to a record of
    non-empty name, [get] multiplies the four fields of the record by one
    ratio.  If the requested unit and the record's unit are both grams, or
    are equal, or no unit was parsed, and the serving amount is not zero, the
    ratio is the requested amount divided by the serving amount.  On a unit
    mismatch the ratio is the requested amount itself.  A record with
    serving amount 100 g and carbs 20, asked for as "50g", gives carbs 10. *)
Theorem get_scales_by_ratio :
  (forall (num : Type) (N : PyNum num) (items : NutritionDB.t num)
          (menu_text : string) (qty : num) (unit : option string)
          (item_text name : string),
      parse_quantity menu_text = (qty, unit, item_text) ->
      NutritionDB.match_ items item_text = Some name ->
      name <> "" ->
      exists item,
        Dict.lookup String.eqb name items = Some item
        /\ (units_agree unit item ->
            is_zero (serving_amt item) = false ->
            NutritionDB.get items menu_text =
            ret (Nutrients.mk
                   (nmul (item_c item) (nquot qty (serving_amt item)))
                   (nmul (item_p item) (nquot qty (serving_amt item)))
                   (nmul (item_f item) (nquot qty (serving_amt item)))
                   (nmul (item_cal item) (nquot qty (serving_amt item)))))
        /\ (~ units_agree unit item ->
            result_of (NutritionDB.get items menu_text) =
            Ok (Nutrients.mk (nmul (item_c item) qty) (nmul (item_p item) qty)
                             (nmul (item_f item) qty)
                             (nmul (item_cal item) qty))))
  /\ (forall p f cal : Exact.pynum,
         exists v,
           NutritionDB.get
             [("rice", mkFood (Exact.PyFloat 20) p f (Exact.PyFloat 100)
                              "g" cal)]
             "50g rice" = ret v
           /\ Nutrients.c v = Exact.PyFloat 10).
Proof.
  split.
  - intros num N items menu_text qty unit item_text name Ep Em Hn.
    destruct (match_lookup _ _ _ Em) as [item El].
    exists item. split; [exact El|].
    rewrite (get_found _ _ _ _ _ _ _ Ep Em Hn El). split.
    + intros Ha Hz. apply agree_test_spec in Ha.
      now rewrite (ratio_of_agree _ _ _ _ Ha), (ndiv_nonzero _ _ Hz),
        bind_ret_l.
    + intros Ha.
      assert (Et : agree_test unit item = false).
      { destruct (agree_test unit item) eqn:E; [|reflexivity].
        now apply agree_test_spec in E. }
      now rewrite (ratio_of_mismatch _ _ _ _ Et).
  - intros p f cal. eexists. split; [vm_compute; reflexivity | reflexivity].
Qed.

(** 110 g of a food given per 100 g: every field times 110/100. *)
Lemma get_scales_by_ratio_witness :
  NutritionDB.get
    [("chicken breast",
      mkFood (Exact.PyFloat 0) (Exact.PyFloat 31) (Exact.PyFloat (18 # 5))
             (Exact.PyFloat 100) "g" (Exact.PyFloat 165))]
    "110g Chicken Breast"
  = ret (Nutrients.mk (Exact.PyFloat 0) (Exact.PyFloat (341 # 10))
                      (Exact.PyFloat (99 # 25)) (Exact.PyFloat (363 # 2))).
Proof.
  set (db := [("chicken breast",
               mkFood (Exact.PyFloat 0) (Exact.PyFloat 31)
                      (Exact.PyFloat (18 # 5)) (Exact.PyFloat 100) "g"
                      (Exact.PyFloat 165))]).
  assert (Ep : parse_quantity "110g Chicken Breast"
               = (Exact.PyFloat 110, Some "g", "chicken breast"))
    by reflexivity.
  assert (Em : NutritionDB.match_ db "chicken breast" = Some "chicken breast")
    by reflexivity.
  destruct (proj1 get_scales_by_ratio Exact.pynum _ db _ _ _ _ _ Ep Em)
    as (item & El & Hag & _).
  - discriminate.
  - injection El as <-. apply Hag; [left; split; reflexivity | reflexivity].
Defined.

(** A record with serving amount 0 and a request in grams: the remainder
    matches the record and [get] raises [ZeroDivisionError].  A record of
    empty name and an empty request: [match] returns the name and [get]
    raises "Item not found". *)
Lemma get_scales_by_ratio_counterexample :
  let water := [("water", mkFood (Exact.PyFloat 0) (Exact.PyFloat 0)
                                 (Exact.PyFloat 0) (Exact.PyFloat 0) "g"
                                 (Exact.PyFloat 0))] in
  let blank := [("", mkFood (Exact.PyFloat 1) (Exact.PyFloat 1)
                            (Exact.PyFloat 1) (Exact.PyFloat 100) "g"
                            (Exact.PyFloat 17))] in
  (parse_quantity "50g water" = (Exact.PyFloat 50, Some "g", "water")
   /\ NutritionDB.match_ water "water" = Some "water"
   /\ NutritionDB.get water "50g water" = raise ZeroDivisionError)
  /\ (parse_quantity "" = (Exact.PyInt 1, None, "")
      /\ NutritionDB.match_ blank "" = Some ""
      /\ NutritionDB.get blank "" = raise (ValueError "Item not found: ")).
Proof. vm_compute. repeat split. Qed.

(** C6 (amended). For a menu text whose remainder has a table entry with
    score above 0.5, [exists] is true and [get] does not raise "Item not
    found", so [exists] is true if and only if [get] raises no
    [ValueError].  [get] returns a value, except that it raises
    [ZeroDivisionError] when the matched record has serving amount 0 and
    the units agree or no unit was given. *)
Theorem exists_iff_get_finds :
  forall (num : Type) (N : PyNum num) (items : NutritionDB.t num)
         (x : string) (qty : num) (unit : option string)
         (item_text : string),
    parse_quantity x = (qty, unit, item_text) ->
    has_match items item_text ->
    (NutritionDB.exists_ items x = true <->
     forall msg, result_of (NutritionDB.get items x) <> Raise (ValueError msg))
    /\ NutritionDB.exists_ items x = true
    /\ exists name item,
        NutritionDB.match_ items item_text = Some name
        /\ Dict.lookup String.eqb name items = Some item
        /\ (units_agree unit item /\ is_zero (serving_amt item) = true ->
            result_of (NutritionDB.get items x) = Raise ZeroDivisionError)
        /\ (~ (units_agree unit item /\ is_zero (serving_amt item) = true) ->
            exists v, result_of (NutritionDB.get items x) = Ok v).
Proof.
  intros num N items x qty unit item_text Ep Hm.
  destruct (match_has_match _ _ Hm) as (name & Em & Hn).
  destruct (match_lookup _ _ _ Em) as [item El].
  pose proof (get_found _ _ _ _ _ _ _ Ep Em Hn El) as Eg.
  assert (Ex : NutritionDB.exists_ items x = true).
  { rewrite exists_spec, Ep. now rewrite Em. }
  assert (Hres : (units_agree unit item /\ is_zero (serving_amt item) = true
                  -> result_of (NutritionDB.get items x)
                     = Raise ZeroDivisionError)
                 /\ (~ (units_agree unit item
                        /\ is_zero (serving_amt item) = true)
                     -> exists v, result_of (NutritionDB.get items x) = Ok v)).
  { rewrite Eg. destruct (agree_test unit item) eqn:Ea.
    - rewrite (ratio_of_agree _ _ _ _ Ea).
      destruct (is_zero (serving_amt item)) eqn:Ez.
      + rewrite (ndiv_zero _ _ Ez). split; [reflexivity|].
        intros Hno. exfalso. apply Hno. split; [|reflexivity].
        now apply agree_test_spec.
      + rewrite (ndiv_nonzero _ _ Ez), bind_ret_l.
        split; [intros [_ E]; discriminate | intros _; eexists; reflexivity].
    - rewrite (ratio_of_mismatch _ _ _ _ Ea). split.
      + intros [Ha _]. apply agree_test_spec in Ha. congruence.
      + intros _. eexists. reflexivity. }
  split; [|split; [exact Ex|]].
  - split; [|intros _; exact Ex].
    intros _ msg E. destruct Hres as [Hz Hok].
    destruct (agree_test unit item) eqn:Ea,
             (is_zero (serving_amt item)) eqn:Ez.
    + rewrite Hz in E; [discriminate|].
      split; [now apply agree_test_spec | reflexivity].
    + destruct Hok as [v Ev]; [intros [_ E']; discriminate|]. congruence.
    + destruct Hok as [v Ev]; [|congruence].
      intros [Ha _]. apply agree_test_spec in Ha. congruence.
    + destruct Hok as [v Ev]; [intros [_ E']; discriminate|]. congruence.
  - exists name, item. now repeat split.
Qed.

(** "110g Chicken Breast" against a table with "chicken breast": found by
    both methods. *)
Lemma exists_iff_get_finds_witness :
  let db := [("chicken breast",
              mkFood (Exact.PyFloat 0) (Exact.PyFloat 31)
                     (Exact.PyFloat (18 # 5)) (Exact.PyFloat 100) "g"
                     (Exact.PyFloat 165))] in
  NutritionDB.exists_ db "110g Chicken Breast" = true
  /\ forall msg,
      result_of (NutritionDB.get db "110g Chicken Breast")
      <> Raise (ValueError msg).
Proof.
  intros db.
  assert (Ep : parse_quantity "110g Chicken Breast"
               = (Exact.PyFloat 110, Some "g", "chicken breast"))
    by reflexivity.
  assert (Hm : has_match db "chicken breast").
  { exists "chicken breast". split; [now left | reflexivity]. }
  destruct (exists_iff_get_finds Exact.pynum _ db _ _ _ _ Ep Hm)
    as (Hiff & Ex & _).
  split; [exact Ex | now apply Hiff].
Defined.

(** A record with serving amount 0: the remainder "water" scores 1 against
    the stored name, [exists] is true, and [get] raises. *)
Lemma exists_iff_get_finds_counterexample :
  let water := [("water", mkFood (Exact.PyFloat 0) (Exact.PyFloat 0)
                                 (Exact.PyFloat 0) (Exact.PyFloat 0) "g"
                                 (Exact.PyFloat 0))] in
  parse_quantity "50g water" = (Exact.PyFloat 50, Some "g", "water")
  /\ Qeq (score (word_set "water") (word_set "water")) 1
  /\ NutritionDB.exists_ water "50g water" = true
  /\ NutritionDB.get water "50g water" = raise ZeroDivisionError.
Proof. vm_compute. repeat split. Qed.

(** ** [get] and [exists] on a normalised text *)

Section Insensitive.
Context {num : Type} `{PyNum num}.
Import NutritionDB.

Lemma ratio_of_outcome (t1 t2 : string) (qty : num) (unit : option string)
      (item : FoodRecord num) :
  outcome (ratio_of t1 qty unit item) = outcome (ratio_of t2 qty unit item).
Proof.
  destruct (agree_test unit item) eqn:Ea.
  - now rewrite !(ratio_of_agree _ _ _ _ Ea).
  - now rewrite !(ratio_of_mismatch _ _ _ _ Ea).
Qed.

Lemma get_outcome_normal (items : t num) (s : string) :
  outcome (get items s) = outcome (get items (Str.lower (Str.strip s))).
Proof.
  unfold get. rewrite parse_quantity_normal.
  destruct (parse_quantity s) as [[qty unit] item_text].
  destruct (match_ items item_text) as [[|a name]|]; try reflexivity.
  cbn [truthy negb].
  destruct (Dict.lookup _ _ _) as [item|]; [|reflexivity].
  apply outcome_bind; [apply ratio_of_outcome | reflexivity].
Qed.

Lemma get_log_normal (items : t num) (s : string) :
  List.length (log_of (get items s))
  = List.length (log_of (get items (Str.lower (Str.strip s)))).
Proof.
  unfold get. rewrite parse_quantity_normal.
  destruct (parse_quantity s) as [[qty unit] item_text].
  destruct (match_ items item_text) as [[|a name]|]; try reflexivity.
  cbn [truthy negb].
  destruct (Dict.lookup _ _ _) as [item|]; [|reflexivity].
  destruct (agree_test unit item) eqn:Ea.
  - now rewrite !(ratio_of_agree _ _ _ _ Ea).
  - now rewrite !(ratio_of_mismatch _ _ _ _ Ea).
Qed.

Lemma exists_normal (items : t num) (s : string) :
  exists_ items s = exists_ items (Str.lower (Str.strip s)).
Proof. unfold exists_. now rewrite parse_quantity_normal. Qed.
End Insensitive.

(** C9. [parse_quantity] gives the same triple on [s] and on [s] trimmed and
    lowercased, and the remainder it returns is lowercase.  So [exists]
    answers the same on both, and [get] returns the same value or raises the
    same class of exception on both, with as many log records (the messages
    quote the text as it was given). *)
Theorem parse_quantity_case_insensitive :
  forall (num : Type) (N : PyNum num) (s : string),
    parse_quantity (num := num) s
    = parse_quantity (Str.lower (Str.strip s))
    /\ (let '(_, _, item_text) := parse_quantity (num := num) s in
        Str.is_lower item_text)
    /\ forall items : NutritionDB.t num,
        NutritionDB.exists_ items s
        = NutritionDB.exists_ items (Str.lower (Str.strip s))
        /\ outcome (NutritionDB.get items s)
           = outcome (NutritionDB.get items (Str.lower (Str.strip s)))
        /\ List.length (log_of (NutritionDB.get items s))
           = List.length
               (log_of (NutritionDB.get items (Str.lower (Str.strip s)))).
Proof.
  intros num N s. split; [|split].
  - symmetry. apply parse_quantity_normal.
  - apply parse_quantity_lower.
  - intros items. split; [apply exists_normal|].
    split; [apply get_outcome_normal | apply get_log_normal].
Qed.

(** C2. The unit [parse_quantity] returns is absent, "g" or "cup", and
    "110g chicken" gives (110, "g", "chicken").  But the pattern asks for no
    boundary after the unit, so a word that only begins with "g" or "cup"
    is cut in two: "2 grapes" gives (2, "g", "rapes"), not the word whole,
    and "2 cups rice" gives (2, "cup", "s rice"), not "rice".  With grapes
    in the table, "grapes" and "2 g grapes" are found and "2 grapes" is
    not. *)
Theorem parse_quantity_cuts_word :
  forall (num : Type) (N : PyNum num),
    (forall s : string,
        let '(_, unit, _) := parse_quantity (num := num) s in
        unit = None \/ unit = Some "g" \/ unit = Some "cup")
    /\ parse_quantity (num := num) "110g chicken"
       = (float_digits "110", Some "g", "chicken")
    /\ parse_quantity (num := num) "2 grapes"
       = (float_digits "2", Some "g", "rapes")
    /\ parse_quantity (num := num) "2 grapes"
       <> (float_digits "2", None, "grapes")
    /\ parse_quantity (num := num) "2 cups rice"
       = (float_digits "2", Some "cup", "s rice")
    /\ parse_quantity (num := num) "2 cups rice"
       <> (float_digits "2", Some "cup", "rice")
    /\ forall item : FoodRecord num,
        NutritionDB.exists_ [("grapes", item)] "grapes" = true
        /\ NutritionDB.exists_ [("grapes", item)] "2 g grapes" = true
        /\ NutritionDB.exists_ [("grapes", item)] "2 grapes" = false.
Proof.
  intros num N. split; [apply parse_quantity_unit|].
  split; [reflexivity|]. split; [reflexivity|].
  split; [intros E; discriminate E|]. split; [reflexivity|].
  split; [intros E; discriminate E|].
  intros item. split; [reflexivity | split; reflexivity].
Qed.

(** ** Dicts *)

Section DictFacts.
Context {K V : Type} (eqb : K -> K -> bool).
Hypothesis eqb_spec : forall x y, reflect (x = y) (eqb x y).

Lemma lookup_set_same (k : K) (v : V) (d : Dict.t) :
  Dict.lookup eqb k (Dict.set eqb k v d) = Some v.
Proof.
  induction d as [|[k' v'] d IH]; simpl.
  - now destruct (eqb_spec k k).
  - destruct (eqb_spec k k') as [->|Hne]; simpl.
    + now destruct (eqb_spec k' k').
    + now destruct (eqb_spec k k').
Qed.

Lemma lookup_set_other (k k' : K) (v : V) (d : Dict.t) :
  k <> k' -> Dict.lookup eqb k (Dict.set eqb k' v d) = Dict.lookup eqb k d.
Proof.
  intros Hne. induction d as [|[k'' v''] d IH]; simpl.
  - now destruct (eqb_spec k k').
  - destruct (eqb_spec k' k'') as [->|Hne']; simpl.
    + now destruct (eqb_spec k k'').
    + now destruct (eqb_spec k k'').
Qed.

Lemma lookup_in (k : K) (d : Dict.t (V := V)) :
  In k (Dict.keys d) <-> exists v, Dict.lookup eqb k d = Some v.
Proof.
  induction d as [|[k' v'] d IH]; simpl.
  - split; [contradiction | intros [v E]; discriminate].
  - destruct (eqb_spec k k') as [->|Hne].
    + split; [intros _; now exists v' | now left].
    + rewrite <- IH. split; [intros [E|E]; [congruence | exact E] | now right].
Qed.

Lemma lookup_none (k : K) (d : Dict.t (V := V)) :
  Dict.lookup eqb k d = None <-> ~ In k (Dict.keys d).
Proof.
  rewrite lookup_in. destruct (Dict.lookup eqb k d) as [v|].
  - split; [discriminate | intros Hn; exfalso; apply Hn; now exists v].
  - split; [intros _ [v E]; discriminate | reflexivity].
Qed.

(** Assignment keeps the keys of a dict that has the key, and appends the
    key otherwise. *)
Lemma keys_set (k : K) (v : V) (d : Dict.t) :
  Dict.keys (Dict.set eqb k v d) =
  match Dict.lookup eqb k d with
  | Some _ => Dict.keys d
  | None => (Dict.keys d ++ [k])%list
  end.
Proof.
  induction d as [|[k' v'] d IH]; simpl; [reflexivity|].
  destruct (eqb_spec k k') as [->|Hne]; simpl; [reflexivity|].
  rewrite IH. now destruct (Dict.lookup eqb k d).
Qed.

Lemma NoDup_keys_set (k : K) (v : V) (d : Dict.t) :
  NoDup (Dict.keys d) -> NoDup (Dict.keys (Dict.set eqb k v d)).
Proof.
  intros Hd. rewrite keys_set.
  destruct (Dict.lookup eqb k d) eqn:E; [exact Hd|].
  apply lookup_none in E.
  apply NoDup_rev in Hd. rewrite <- (rev_involutive (_ ++ _)).
  apply NoDup_rev. rewrite rev_app_distr. simpl.
  constructor; [now rewrite <- in_rev | exact Hd].
Qed.
End DictFacts.

(** ** [_load] *)

Section LoadFacts.
Context {num : Type} `{PyNum num}.
Import NutritionDB.

Lemma string_eqb_reflect (x y : string) : reflect (x = y) (String.eqb x y).
Proof. apply String.eqb_spec. Qed.

Lemma load_line_data (items : t num) (line : string) (item : FoodRecord num) :
  is_data_row line ->
  record_of (columns line) = ret item ->
  load_line items line =
  ret (Dict.set String.eqb (row_name line) item items).
Proof.
  intros [Hs Hc] Er. unfold load_line. cbv zeta.
  now rewrite Hs, Hc, Er, bind_ret_l.
Qed.

Lemma load_line_other (items : t num) (line : string) :
  ~ is_data_row line -> load_line items line = ret items.
Proof.
  unfold is_data_row, load_line. intros Hn.
  destruct (skipped line); [reflexivity|].
  destruct (8 <=? _)%nat; [|reflexivity].
  exfalso. now apply Hn.
Qed.

Lemma is_data_row_dec (line : string) : {is_data_row line} + {~ is_data_row line}.
Proof.
  unfold is_data_row.
  destruct (skipped line); [right; now intros [E _]|].
  destruct (8 <=? _)%nat; [left; now split | right; now intros [_ E]].
Qed.

(** When every row parses, the loop returns, keeps the keys distinct, and
    leaves alone the names no row has. *)
Lemma load_lines_ok (lines : list string) :
  rows_parse lines ->
  forall items : t num,
    NoDup (Dict.keys items) ->
    exists items',
      load_lines items lines = ret items'
      /\ NoDup (Dict.keys items')
      /\ forall name,
          (forall line, In line lines -> is_data_row line ->
                        row_name line <> name) ->
          Dict.lookup String.eqb name items'
          = Dict.lookup String.eqb name items.
Proof.
  induction lines as [|line lines IH]; intros Hp items Hnd; simpl.
  - exists items. now repeat split.
  - assert (Hp' : rows_parse lines).
    { intros l Hl. apply Hp. now right. }
    destruct (is_data_row_dec line) as [Hd | Hd].
    + destruct (Hp line (or_introl eq_refl) Hd) as [item Er].
      rewrite (load_line_data _ _ _ Hd Er), bind_ret_l.
      destruct (IH Hp' (Dict.set String.eqb (row_name line) item items))
        as (items' & El & Hnd' & Hlk).
      { now apply NoDup_keys_set; [apply string_eqb_reflect|]. }
      exists items'. split; [exact El | split; [exact Hnd'|]].
      intros name Hno. rewrite Hlk.
      * apply lookup_set_other; [apply string_eqb_reflect|].
        intros E. apply (Hno line); auto.
      * intros l Hl. apply Hno. now right.
    + rewrite (load_line_other _ _ Hd), bind_ret_l.
      destruct (IH Hp' items Hnd) as (items' & El & Hnd' & Hlk).
      exists items'. split; [exact El | split; [exact Hnd'|]].
      intros name Hno. apply Hlk. intros l Hl. apply Hno. now right.
Qed.

Lemma load_lines_app (items : t num) (l1 l2 : list string) :
  load_lines items (l1 ++ l2)%list =
  bind (load_lines items l1) (fun items' => load_lines items' l2).
Proof.
  revert items.
  induction l1 as [|line l1 IH]; intros items; cbn [load_lines app].
  - now rewrite bind_ret_l.
  - rewrite bind_assoc. apply bind_ext. intros a. apply IH.
Qed.

Lemma NoDup_count_one (l : list string) (x : string) :
  NoDup l -> In x l -> count_occ string_dec l x = 1%nat.
Proof.
  intros Hnd Hin. apply (proj1 (NoDup_count_occ string_dec l)) with (x := x) in Hnd.
  apply (count_occ_In string_dec) in Hin. lia.
Qed.
End LoadFacts.

(** C10. When two data rows of the table source have names that are equal
    after lowercasing, and no later row has that name, loading (every
    row's numeric cells being readable) returns a table in which the name
    is stored once, with the record built from the later row. *)
Theorem load_keeps_later_duplicate :
  forall (num : Type) (N : PyNum num) (header separator : string)
         (before between after : list string) (earlier later : string)
         (name : string) (item : FoodRecord num),
    is_data_row earlier -> is_data_row later ->
    row_name earlier = name -> row_name later = name ->
    NutritionDB.record_of (NutritionDB.columns later) = ret item ->
    (forall line, In line after -> is_data_row line -> row_name line <> name) ->
    rows_parse (num := num)
      (before ++ [earlier] ++ between ++ [later] ++ after)%list ->
    exists items,
      NutritionDB._load
        (header :: separator
         :: before ++ [earlier] ++ between ++ [later] ++ after)%list
      = ret items
      /\ Dict.lookup String.eqb name items = Some item
      /\ count_occ string_dec (Dict.keys items) name = 1%nat.
Proof.
  intros num N header separator before between after earlier later name item
         He Hl Ene Enl Er Hafter Hp.
  unfold NutritionDB._load. cbn [skipn].
  replace (before ++ [earlier] ++ between ++ [later] ++ after)%list
    with ((before ++ [earlier] ++ between) ++ later :: after)%list in *
    by (now rewrite <- !List.app_assoc).
  rewrite load_lines_app.
  destruct (load_lines_ok (before ++ [earlier] ++ between)%list) with (items := @nil (string * FoodRecord num))
    as (items1 & E1 & Hnd1 & _).
  { intros l Hin. apply Hp. apply in_or_app. now left. }
  { constructor. }
  rewrite E1, bind_ret_l. cbn [NutritionDB.load_lines].
  rewrite (load_line_data _ _ _ Hl Er), bind_ret_l, Enl.
  destruct (load_lines_ok after) with
    (items := Dict.set String.eqb name item items1)
    as (items2 & E2 & Hnd2 & Hlk).
  { intros l Hin. apply Hp. apply in_or_app. right. now right. }
  { now apply NoDup_keys_set; [apply string_eqb_reflect|]. }
  exists items2. split; [exact E2|].
  assert (El : Dict.lookup String.eqb name items2 = Some item).
  { rewrite (Hlk name Hafter).
    apply lookup_set_same, string_eqb_reflect. }
  split; [exact El|].
  apply NoDup_count_one; [exact Hnd2|].
  apply (lookup_in String.eqb string_eqb_reflect). now exists item.
Qed.

(** A table with "Rice" then "rice": the second row is the one stored. *)
Lemma load_keeps_later_duplicate_witness :
  exists items,
    NutritionDB._load
      [ "| # | Name | Carbs | Protein | Fat | Amount | Unit | Calories |" ++ nl;
        "|---|------|-------|---------|-----|--------|------|----------|" ++ nl;
        "| 1 | Rice | 20 | 2 | 1 | 100 | g | 100 |" ++ nl;
        "| 2 | rice | 45 | 5 | 2 | 1 | cup | 216 |" ++ nl ]
    = ret items
    /\ Dict.lookup String.eqb "rice" items
       = Some (mkFood (Exact.PyFloat 45) (Exact.PyFloat 5) (Exact.PyFloat 2)
                      (Exact.PyFloat 1) "cup" (Exact.PyFloat 216))
    /\ count_occ string_dec (Dict.keys items) "rice" = 1%nat.
Proof.
  apply (load_keeps_later_duplicate Exact.pynum _ _ _ [] [] []
           ("| 1 | Rice | 20 | 2 | 1 | 100 | g | 100 |" ++ nl)
           ("| 2 | rice | 45 | 5 | 2 | 1 | cup | 216 |" ++ nl)).
  - split; reflexivity.
  - split; reflexivity.
  - reflexivity.
  - reflexivity.
  - reflexivity.
  - intros line [].
  - intros line [<- | [<- | []]] _; eexists; reflexivity.
Defined.

(** ** [calculate] *)

Section CalculateFacts.
Context {num : Type} `{PyNum num}.

Lemma calculate_before_extra (db : NutritionDB.t num) (menu : Menu num)
      (day : string) :
  calculate db menu day =
  totals <- before_extra db menu day ;;
  ret (Nutrients.add totals (extra_term (extra menu))).
Proof.
  unfold calculate, before_extra, before_carbs.
  rewrite !bind_assoc. apply bind_ext. intros t0.
  rewrite ?bind_assoc. apply bind_ext. intros g.
  now rewrite ?bind_assoc.
Qed.

Lemma before_extra_with_extra (db : NutritionDB.t num) (menu : Menu num)
      (day : string) (e : Nutrients.t num) :
  before_extra db (with_extra menu e) day = before_extra db menu day.
Proof. reflexivity. Qed.

Lemma KCAL_values :
  KCAL_PER_G "c" = 4%Z /\ KCAL_PER_G "p" = 4%Z /\ KCAL_PER_G "f" = 9%Z.
Proof. repeat split. Qed.
End CalculateFacts.

(** C4. [calculate] adds the [extra] adjustment once, to a total that does
    not depend on it: the carbs, protein and fat of [extra] are added as
    they are, and the calories added are the calories of [extra] plus
    carbs x 4 + protein x 4 + fat x 9 of those same grams. *)
Theorem calculate_adds_extra_once :
  forall (num : Type) (N : PyNum num) (db : NutritionDB.t num)
         (menu : Menu num) (day : string),
    calculate db menu day =
    (totals <- before_extra db menu day ;;
     ret (Nutrients.mk
            (nadd (Nutrients.c totals) (Nutrients.c (extra menu)))
            (nadd (Nutrients.p totals) (Nutrients.p (extra menu)))
            (nadd (Nutrients.f totals) (Nutrients.f (extra menu)))
            (nadd (Nutrients.cal totals)
                  (nadd (Nutrients.cal (extra menu))
                        (nadd (nadd (nmul (Nutrients.c (extra menu))
                                          (of_int 4))
                                    (nmul (Nutrients.p (extra menu))
                                          (of_int 4)))
                              (nmul (Nutrients.f (extra menu))
                                    (of_int 9)))))))
    /\ forall e : Nutrients.t num,
        before_extra db (with_extra menu e) day = before_extra db menu day.
Proof.
  intros num N db menu day. split.
  - apply calculate_before_extra.
  - intros e. apply before_extra_with_extra.
Qed.

Section CarbsFacts.
Context {num : Type} `{PyNum num}.



End CarbsFacts.




(** ** The options of [calculate], by choice group *)

Section OptionsFacts.
Context {num : Type} `{PyNum num}.

Lemma group_options_fill (db : NutritionDB.t num)
      (opts : list (list string * nat * nat)) (grouped : grouped_t) :
  group_options db opts grouped =
  es <- resolve_options db opts ;; ret (fill es grouped).
Proof.
  revert grouped.
  induction opts as [|[[group n] id] opts IH]; intros grouped;
    cbn [group_options resolve_options mapM].
  - now rewrite bind_ret_l.
  - unfold get_nutrients. rewrite !bind_assoc.
    apply bind_ext. intros vs. rewrite !bind_assoc.
    apply bind_ext. intros v. rewrite bind_ret_l, IH.
    fold (resolve_options db opts). rewrite !bind_assoc.
    apply bind_ext. intros es. now rewrite !bind_ret_l.
Qed.

Lemma nat_eqb_reflect (x y : nat) : reflect (x = y) (Nat.eqb x y).
Proof. apply Nat.eqb_spec. Qed.

Lemma existsb_eqb (i : nat) (l : list nat) :
  existsb (Nat.eqb i) l = true <-> In i l.
Proof.
  rewrite existsb_exists. split.
  - intros (x & Hx & E). apply Nat.eqb_eq in E. now subst.
  - intros Hi. exists i. split; [exact Hi | apply Nat.eqb_refl].
Qed.

Lemma ids_snoc (es : list (@resolved num)) (e : @resolved num) :
  ids_in_order (es ++ [e]) =
  if existsb (Nat.eqb (r_id e)) (ids_in_order es) then ids_in_order es
  else (ids_in_order es ++ [r_id e])%list.
Proof. unfold ids_in_order. now rewrite fold_left_app. Qed.

Lemma ids_spec (es : list (@resolved num)) (i : nat) :
  In i (ids_in_order es) <-> exists e, In e es /\ r_id e = i.
Proof.
  induction es as [|e es IH] using rev_ind.
  - simpl. split; [contradiction | intros (e & [] & _)].
  - rewrite ids_snoc.
    destruct (existsb _ _) eqn:Ex.
    + rewrite IH. split.
      * intros (x & Hx & E). exists x. split; [|exact E].
        apply in_or_app. now left.
      * intros (x & Hx & E). apply in_app_or in Hx as [Hx | [<- | []]].
        -- now exists x.
        -- apply IH. rewrite <- E. now apply existsb_eqb.
    + rewrite in_app_iff, IH. split.
      * intros [(x & Hx & E) | [<- | []]].
        -- exists x. split; [apply in_or_app; now left | exact E].
        -- exists e. split; [apply in_or_app; right; now left | reflexivity].
      * intros (x & Hx & E). apply in_app_or in Hx as [Hx | [<- | []]].
        -- left. now exists x.
        -- right. now left.
Qed.

Lemma ids_NoDup (es : list (@resolved num)) : NoDup (ids_in_order es).
Proof.
  induction es as [|e es IH] using rev_ind; [constructor|].
  rewrite ids_snoc. destruct (existsb _ _) eqn:Ex; [exact IH|].
  apply NoDup_rev in IH. rewrite <- (rev_involutive (_ ++ _)).
  apply NoDup_rev. rewrite rev_app_distr. simpl.
  constructor; [|exact IH].
  rewrite <- in_rev. intros Hin. apply existsb_eqb in Hin. congruence.
Qed.

Lemma tagged_snoc (i : nat) (es : list (@resolved num)) (e : @resolved num) :
  tagged i (es ++ [e]) =
  (tagged i es ++ if Nat.eqb (r_id e) i then [e] else [])%list.
Proof. unfold tagged. rewrite filter_app. simpl. now destruct (Nat.eqb _ _). Qed.

Lemma tagged_nil (i : nat) (es : list (@resolved num)) :
  tagged i es = [] <-> ~ In i (ids_in_order es).
Proof.
  rewrite ids_spec. unfold tagged. split.
  - intros E (e & He & Ei).
    assert (Hin : In e (filter (fun e => Nat.eqb (r_id e) i) es)).
    { apply filter_In. split; [exact He | now apply Nat.eqb_eq]. }
    now rewrite E in Hin.
  - intros Hn. destruct (filter _ es) as [|e l] eqn:E; [reflexivity|].
    exfalso. apply Hn. exists e.
    assert (Hin : In e (filter (fun e => Nat.eqb (r_id e) i) es))
      by (rewrite E; now left).
    apply filter_In in Hin as [He Hi]. split; [exact He|].
    now apply Nat.eqb_eq.
Qed.

Lemma lookup_map_present {V} (f : nat -> V) (l : list nat) (i : nat) :
  In i l ->
  Dict.lookup Nat.eqb i (map (fun id => (id, f id)) l) = Some (f i).
Proof.
  induction l as [|k l IH]; simpl; [contradiction|].
  destruct (Nat.eqb_spec i k) as [->|Hne]; [reflexivity|].
  intros [E | Hin]; [congruence | now apply IH].
Qed.

Lemma lookup_map_absent {V} (f : nat -> V) (l : list nat) (i : nat) :
  ~ In i l ->
  Dict.lookup Nat.eqb i (map (fun id => (id, f id)) l) = None.
Proof.
  induction l as [|k l IH]; simpl; [reflexivity|].
  destruct (Nat.eqb_spec i k) as [->|Hne]; [intros Hn; exfalso; auto|].
  intros Hn. apply IH. intros Hin. apply Hn. now right.
Qed.

Lemma set_map_present {V} (f : nat -> V) (l : list nat) (i : nat) (x : V) :
  NoDup l -> In i l ->
  Dict.set Nat.eqb i x (map (fun id => (id, f id)) l) =
  map (fun id => (id, if Nat.eqb id i then x else f id)) l.
Proof.
  induction l as [|k l IH]; simpl; [contradiction|].
  intros Hnd Hin. inversion Hnd as [|k' l' Hk Hl]; subst.
  destruct (Nat.eqb_spec i k) as [->|Hne].
  - rewrite Nat.eqb_refl. f_equal. apply map_ext_in. intros a Ha.
    destruct (Nat.eqb_spec a k) as [->|]; [contradiction | reflexivity].
  - destruct (Nat.eqb_spec k i) as [->|_]; [contradiction|].
    f_equal. apply IH; [exact Hl|]. destruct Hin; [congruence | assumption].
Qed.

Lemma set_absent {V} (d : Dict.t (K := nat) (V := V)) (i : nat) (x : V) :
  Dict.lookup Nat.eqb i d = None ->
  Dict.set Nat.eqb i x d = (d ++ [(i, x)])%list.
Proof.
  induction d as [|[k v] d IH]; simpl; [reflexivity|].
  destruct (Nat.eqb i k); [discriminate|]. intros E. now rewrite IH.
Qed.

(** The second loop builds the dict the specification describes. *)
Lemma fill_grouped_of (es : list (@resolved num)) : fill es [] = grouped_of es.
Proof.
  induction es as [|e es IH] using rev_ind; [reflexivity|].
  unfold fill in *. rewrite fold_left_app, IH. cbn [fold_left].
  unfold grouped_add, grouped_of. rewrite ids_snoc.
  destruct (existsb (Nat.eqb (r_id e)) (ids_in_order es)) eqn:Ex.
  - apply existsb_eqb in Ex.
    rewrite (lookup_map_present _ _ _ Ex).
    rewrite (set_map_present _ _ _ _ (ids_NoDup es) Ex).
    apply map_ext_in. intros a Ha. f_equal.
    unfold count_of, values_of. fold (tagged a es) (tagged a (es ++ [e])).
    rewrite tagged_snoc.
    destruct (Nat.eqb_spec a (r_id e)) as [->|Hne].
    + rewrite Nat.eqb_refl. fold (tagged (r_id e) es).
      rewrite map_app. f_equal.
      destruct (tagged (r_id e) es) eqn:Et; [|reflexivity].
      now apply tagged_nil in Et.
    + destruct (Nat.eqb_spec (r_id e) a) as [E|_]; [congruence|].
      now rewrite List.app_nil_r.
  - assert (Hn : ~ In (r_id e) (ids_in_order es)).
    { intros Hin. apply existsb_eqb in Hin. congruence. }
    rewrite (lookup_map_absent _ _ _ Hn).
    rewrite set_absent by (now apply lookup_map_absent).
    rewrite map_app. cbn [map]. f_equal.
    + apply map_ext_in. intros a Ha. f_equal.
      unfold count_of, values_of. fold (tagged a es) (tagged a (es ++ [e])).
      rewrite tagged_snoc.
      destruct (Nat.eqb_spec (r_id e) a) as [E|_]; [congruence|].
      now rewrite List.app_nil_r.
    + unfold count_of, values_of.
      fold (tagged (r_id e) (es ++ [e])).
      rewrite tagged_snoc, Nat.eqb_refl.
      apply tagged_nil in Hn. rewrite Hn. reflexivity.
Qed.

(** Every id the loop visits has at least one value, so the average of a
    group is defined. *)
Lemma values_of_nonempty (es : list (@resolved num)) (i : nat) :
  In i (ids_in_order es) -> values_of i es <> [].
Proof.
  intros Hin E. unfold values_of in E. apply map_eq_nil in E.
  now apply tagged_nil in E.
Qed.

(** The third loop, on the dict the second loop built: no average fails,
    and each group adds its mean times its count. *)
Lemma add_grouped_of (ids : list nat) (es : list (@resolved num))
      (totals : Nutrients.t num) :
  (forall i, In i ids -> In i (ids_in_order es)) ->
  add_grouped
    (map (fun id => (id, (count_of id es, values_of id es))) ids) totals
  = ret (add_choice_groups ids es totals).
Proof.
  revert totals. induction ids as [|id ids IH]; intros totals Hin;
    cbn [map add_grouped add_choice_groups fold_left]; [reflexivity|].
  rewrite (avg_nonempty _ (values_of_nonempty es id (Hin id (or_introl eq_refl)))).
  cbv zeta. rewrite bind_ret_l.
  apply IH. intros i Hi. apply Hin. now right.
Qed.

(** The two loops of [calculate] over the options do what the
    specification says. *)
Lemma options_refine (db : NutritionDB.t num)
      (opts : list (list string * nat * nat)) (totals : Nutrients.t num) :
  (grouped <- group_options db opts [] ;; add_grouped grouped totals)
  = (es <- resolve_options db opts ;;
     ret (add_choice_groups (ids_in_order es) es totals)).
Proof.
  rewrite group_options_fill, bind_assoc.
  apply bind_ext. intros es.
  rewrite bind_ret_l, fill_grouped_of. apply add_grouped_of. auto.
Qed.

(** [calculate], with its two loops over the options replaced by what they
    compute. *)
Lemma calculate_by_groups (db : NutritionDB.t num) (menu : Menu num)
      (day : string) :
  calculate db menu day =
  (totals <- add_fixed db (fixed menu) Nutrients.zero ;;
   es <- resolve_options db (options menu) ;;
   totals <- add_carbs db menu day
               (add_choice_groups (ids_in_order es) es totals) ;;
   ret (Nutrients.add totals (extra_term (extra menu)))).
Proof.
  unfold calculate. apply bind_ext. intros totals.
  rewrite <- bind_assoc, options_refine, bind_assoc.
  apply bind_ext. intros es. now rewrite bind_ret_l.
Qed.

(** [resolve_options] drops no option-group and keeps their order. *)
Lemma resolve_all (db : NutritionDB.t num)
      (opts : list (list string * nat * nat)) (w : list event)
      (es : list (@resolved num)) :
  resolve_options db opts = (w, Ok es) ->
  Forall2 (resolves db) opts es.
Proof.
  intros E. unfold resolve_options in E. apply mapM_ok_inv in E.
  induction E as [|[[g n] id] e opts es (w' & Ee) _ IH]; constructor;
    [|exact IH].
  apply bind_ok_inv in Ee as (w1 & vs & w2 & Ev & Ee & _).
  apply bind_ok_inv in Ee as (w3 & v & w4 & Ea & Ee & _).
  injection Ee as _ <-. unfold resolves, r_value, r_count, r_id.
  cbn [fst snd]. split; [|now split].
  exists (w1 ++ w3)%list. unfold get_nutrients, bind. now rewrite Ev, Ea.
Qed.
End OptionsFacts.

(** C3. [calculate] resolves every option-group of the menu to the average
    of its member items, none left out, and for each choice-group id, once,
    in order of first appearance, adds to the total the mean of the values
    of all the option-groups tagged with that id, multiplied field by field
    by the required count of the group.  Every option-group is among the
    ones averaged for its id: no subset is selected. *)
Theorem calculate_averages_all_options :
  forall (num : Type) (N : PyNum num) (db : NutritionDB.t num)
         (menu : Menu num) (day : string),
    calculate db menu day =
    (totals <- add_fixed db (fixed menu) Nutrients.zero ;;
     es <- resolve_options db (options menu) ;;
     totals <- add_carbs db menu day
                 (add_choice_groups (ids_in_order es) es totals) ;;
     ret (Nutrients.add totals (extra_term (extra menu))))
    /\ (forall (w : list event) (es : list (@resolved num)),
           resolve_options db (options menu) = (w, Ok es) ->
           Forall2 (resolves db) (options menu) es)
    /\ forall es : list (@resolved num),
        NoDup (ids_in_order es)
        /\ (forall id : nat,
               group_term id es =
               Nutrients.mk
                 (nmul (nquot (nsum (map Nutrients.c (values_of id es)))
                              (of_int (Z.of_nat (List.length (values_of id es)))))
                       (of_int (Z.of_nat (count_of id es))))
                 (nmul (nquot (nsum (map Nutrients.p (values_of id es)))
                              (of_int (Z.of_nat (List.length (values_of id es)))))
                       (of_int (Z.of_nat (count_of id es))))
                 (nmul (nquot (nsum (map Nutrients.f (values_of id es)))
                              (of_int (Z.of_nat (List.length (values_of id es)))))
                       (of_int (Z.of_nat (count_of id es))))
                 (nmul (nquot (nsum (map Nutrients.cal (values_of id es)))
                              (of_int (Z.of_nat (List.length (values_of id es)))))
                       (of_int (Z.of_nat (count_of id es)))))
        /\ forall e : @resolved num,
            In e es ->
            In (r_id e) (ids_in_order es)
            /\ In (r_value e) (values_of (r_id e) es).
Proof.
  intros num N db menu day. split; [|split].
  - apply calculate_by_groups.
  - intros w es. apply resolve_all.
  - intros es. split; [apply ids_NoDup|]. split; [reflexivity|].
    intros e He. split.
    + apply ids_spec. now exists e.
    + unfold values_of. apply in_map, filter_In.
      split; [exact He | apply Nat.eqb_refl].
Qed.

(** "Choose 2" of oats and rice: the day's total is twice the average of the
    two, (60 + 80) / 2 * 2 = 140 g of carbs, not the sum of two picked
    options and not the average alone. *)
Lemma calculate_averages_all_options_witness :
  let db := [("oats", mkFood (Exact.PyFloat 60) (Exact.PyFloat 10)
                             (Exact.PyFloat 5) (Exact.PyFloat 100) "g"
                             (Exact.PyFloat 350));
             ("rice", mkFood (Exact.PyFloat 80) (Exact.PyFloat 7)
                             (Exact.PyFloat 1) (Exact.PyFloat 100) "g"
                             (Exact.PyFloat 360));
             ("egg", mkFood (Exact.PyFloat 1) (Exact.PyFloat 6)
                            (Exact.PyFloat 5) (Exact.PyFloat 1) "egg"
                            (Exact.PyFloat 70))] in
  let menu := mkMenu Nutrients.zero [] None []
                     [(["100g oats"], 2, 1); (["1 egg"], 1, 2);
                      (["100g rice"], 2, 1)]%nat
                     [(1, 2); (2, 1)]%nat in
  let oats := Nutrients.mk (Exact.PyFloat 60) (Exact.PyFloat 10)
                           (Exact.PyFloat 5) (Exact.PyFloat 350) in
  let egg := Nutrients.mk (Exact.PyFloat 1) (Exact.PyFloat 6)
                          (Exact.PyFloat 5) (Exact.PyFloat 70) in
  let rice := Nutrients.mk (Exact.PyFloat 80) (Exact.PyFloat 7)
                           (Exact.PyFloat 1) (Exact.PyFloat 360) in
  calculate db menu "rest"
  = ret (Nutrients.mk (Exact.PyFloat 141) (Exact.PyFloat 23)
                      (Exact.PyFloat 11) (Exact.PyFloat 780))
  /\ Forall2 (resolves db) (options menu)
             [(oats, 2, 1); (egg, 1, 2); (rice, 2, 1)]%nat
  /\ group_term 1 [(oats, 2, 1); (egg, 1, 2); (rice, 2, 1)]%nat
     = Nutrients.mk (Exact.PyFloat 140) (Exact.PyFloat 17)
                    (Exact.PyFloat 6) (Exact.PyFloat 710)
  /\ In rice (values_of 1 [(oats, 2, 1); (egg, 1, 2); (rice, 2, 1)]%nat).
Proof.
  intros db menu oats egg rice.
  destruct (calculate_averages_all_options Exact.pynum _ db menu "rest")
    as (Hc & Hres & Hall).
  split; [rewrite Hc; reflexivity|].
  split; [apply (Hres []); reflexivity|].
  destruct (Hall [(oats, 2, 1); (egg, 1, 2); (rice, 2, 1)]%nat)
    as (_ & Hterm & Hin).
  split; [rewrite Hterm; reflexivity|].
  apply (Hin (rice, 2, 1)%nat). right. right. now left.
Defined.

(** ** [check_menu] and [main] *)

Section MainFacts.
Context {num : Type} `{PyNum num}.

Lemma check_groups_log (menu : Menu num) (groups : list (nat * nat)) :
  log_of (check_groups menu groups) = [].
Proof.
  induction groups as [|[id n] groups IH]; cbn [check_groups]; [reflexivity|].
  now destruct (_ <? _)%nat.
Qed.

(** [check_menu] only returns or raises a [ValueError]; it logs nothing. *)
Lemma check_menu_cases (db : NutritionDB.t num) (menu : Menu num) :
  check_menu db menu = ret tt
  \/ exists msg, check_menu db menu = raise (ValueError msg).
Proof.
  unfold check_menu. destruct (missing_items db menu) as [|m ms].
  - induction (choose_groups menu) as [|[id n] groups IH];
      cbn [check_groups]; [now left|].
    destruct (_ <? _)%nat; [right; eexists; reflexivity | exact IH].
  - right. eexists. reflexivity.
Qed.

Lemma check_menu_missing (db : NutritionDB.t num) (menu : Menu num) :
  missing_items db menu <> [] ->
  check_menu db menu
  = raise (ValueError (missing_message (missing_items db menu))).
Proof.
  unfold check_menu. now destruct (missing_items db menu).
Qed.

(** [main] when [check_menu] raises: the message is logged as an error and
    the process exits with status 1; nothing else happened. *)
Lemma main_validation_fails (lines : list string) (menu : Menu num)
      (db : NutritionDB.t num) (msg : string) :
  NutritionDB._load lines = ret db ->
  check_menu db menu = raise (ValueError msg) ->
  main lines menu = ([LogError msg], Exit 1).
Proof.
  intros El Ec. unfold main, main_try.
  now rewrite El, bind_ret_l, Ec.
Qed.
End MainFacts.

(** C7. [check_menu] tests every item of [all_items] with [exists].  When
    some are missing, the run ends after logging one error that lists all of
    them, one per line, and exits with status 1.  Whenever [check_menu]
    raises, that logged error is the only effect of [main]: no total was
    computed, no warning, report or file was produced. *)
Theorem validation_before_aggregation :
  forall (num : Type) (N : PyNum num) (lines : list string)
         (menu : Menu num) (db : NutritionDB.t num),
    NutritionDB._load lines = ret db ->
    (forall x, In x (missing_items db menu) <->
               In x (all_items menu) /\ NutritionDB.exists_ db x = false)
    /\ (missing_items db menu <> [] ->
        main lines menu =
        ([LogError ("Not found in nutrition_facts.md:" ++ nl
                    ++ Str.join nl (map (fun m => "   - " ++ m)
                                        (missing_items db menu)))],
         Exit 1))
    /\ (forall e, result_of (check_menu db menu) = Raise e ->
                  exists msg, e = ValueError msg
                              /\ main lines menu = ([LogError msg], Exit 1)).
Proof.
  intros num N lines menu db El. split; [|split].
  - intros x. unfold missing_items. rewrite filter_In, negb_true_iff.
    reflexivity.
  - intros Hm.
    apply (main_validation_fails _ _ _ _ El (check_menu_missing _ _ Hm)).
  - intros e Er.
    destruct (check_menu_cases db menu) as [Ec | [msg Ec]].
    + rewrite Ec in Er. discriminate.
    + rewrite Ec in Er. injection Er as <-.
      exists msg. split; [reflexivity|].
      now apply (main_validation_fails _ _ _ _ El).
Qed.

(** A menu with two items the table does not have: one error names both. *)
Lemma validation_before_aggregation_witness :
  let lines :=
    [ "| # | Name | Carbs | Protein | Fat | Amount | Unit | Calories |" ++ nl;
      "|---|------|-------|---------|-----|--------|------|----------|" ++ nl;
      "| 1 | Rice | 20 | 2 | 1 | 100 | g | 100 |" ++ nl ] in
  let menu := mkMenu Nutrients.zero [] None
                     [["2 unicorn steaks"]; ["100g rice"]; ["dragon"]]
                     [] [] in
  main (num := Exact.pynum) lines menu =
  ([LogError ("Not found in nutrition_facts.md:" ++ nl
              ++ "   - 2 unicorn steaks" ++ nl ++ "   - dragon")],
   Exit 1).
Proof.
  intros lines menu.
  assert (El : NutritionDB._load lines
               = ret [("rice", mkFood (Exact.PyFloat 20) (Exact.PyFloat 2)
                                      (Exact.PyFloat 1) (Exact.PyFloat 100)
                                      "g" (Exact.PyFloat 100))])
    by reflexivity.
  destruct (validation_before_aggregation Exact.pynum _ lines menu _ El)
    as (_ & Hm & _).
  rewrite Hm; [reflexivity | discriminate].
Defined.

(* ================================================================== *)
(** * Further properties of the code *)

(** ** [strip] leaves no whitespace at the end *)

Module StripFacts.
Import Str StrSpec StrFacts.

Lemma rstrip_no_trail (s a : string) (c : ascii) :
  rstrip s = a ++ String c "" -> isspace c = false.
Proof.
  revert a. induction s as [|x s IH]; intros a; simpl.
  - destruct a; discriminate.
  - destruct (rstrip s) as [|d r] eqn:E.
    + destruct (isspace x) eqn:Ex.
      * destruct a; discriminate.
      * destruct a as [|y a]; simpl; intros Ea.
        -- now injection Ea as <-.
        -- injection Ea as _ Ea. destruct a; discriminate.
    + destruct a as [|y a]; simpl; intros Ea; [discriminate|].
      injection Ea as _ Ea. now apply (IH a).
Qed.

Lemma strip_no_trail (s a : string) (c : ascii) :
  strip s = a ++ String c "" -> isspace c = false.
Proof. unfold strip. apply rstrip_no_trail. Qed.

(** The text [parse_quantity] works on does not end in whitespace. *)
Lemma normal_no_trail (s a : string) (c : ascii) :
  lower (strip s) = a ++ String c "" -> isspace c = false.
Proof. rewrite <- strip_lower. apply strip_no_trail. Qed.

Lemma lower_nil (s : string) : lower s = "" <-> s = "".
Proof. destruct s; simpl; split; intros E; (discriminate || reflexivity). Qed.

(** A non-empty string is some text and a last character. *)
Lemma last_char (s : string) :
  s <> "" -> exists a c, s = a ++ String c "".
Proof.
  induction s as [|x s IH]; [contradiction|]. intros _.
  destruct s as [|y s].
  - now exists "", x.
  - destruct IH as (a & c & E); [discriminate|].
    exists (String x a), c. simpl. now rewrite <- E.
Qed.
End StripFacts.

(** ** More on [parse_quantity] *)

Section ParseMore.
Context {num : Type} `{PyNum num}.
Import Str StrSpec StrFacts Re ReSpec ReFacts StripFacts.

Ltac inv_all :=
  repeat match goal with
    | H : matches (Cat _ _) _ _ _ _ |- _ => inversion H; subst; clear H
    | H : matches (Group _ _) _ _ _ _ |- _ => inversion H; subst; clear H
    | H : matches (Opt _) _ _ _ _ |- _ => inversion H; subst; clear H
    | H : matches (Alt _ _) _ _ _ _ |- _ => inversion H; subst; clear H
    | H : matches (Lit _) _ _ _ _ |- _ => inversion H; subst; clear H
    | H : matches (Star _) _ _ _ _ |- _ => inversion H; subst; clear H
    | H : matches (Plus _) _ _ _ _ |- _ => inversion H; subst; clear H
    | H : matches Eol _ _ _ _ |- _ => inversion H; subst; clear H
    end.

(** A match of [quantity_re] in full: the number, whitespace, the unit if
    any, whitespace, the remainder, and at most a final newline. *)
Lemma quantity_re_shape (t : string) (m : captures) :
  re_match quantity_re t = Some m ->
  exists c0 ds fr ws1 un ws2 c r tl,
    t = (String c0 ds ++ fr) ++ ws1 ++ un ++ ws2 ++ String c r ++ tl
    /\ isdigit c0 = true /\ all_in isdigit ds /\ fraction fr
    /\ all_in isspace ws1 /\ all_in isspace ws2
    /\ all_in dot (String c r)
    /\ (tl = "" \/ tl = nl)
    /\ group 1 m = Some (String c0 ds ++ fr)
    /\ group 3 m = Some (String c r)
    /\ ((un = "" /\ group 2 m = None)
        \/ (un = "g" /\ group 2 m = Some "g")
        \/ (un = "cup" /\ group 2 m = Some "cup")).
Proof.
  unfold re_match, quantity_re. intros E.
  apply exec_sound in E as (u & rest & m' & -> & Hm & E).
  injection E as ->.
  inv_all; rewrite regroup;
    eexists _, _, _, _, _, _, _, _, _;
    (split; [reflexivity |]);
    repeat match goal with
      | |- _ /\ _ => split
      end;
    try assumption; try reflexivity; try (simpl; now auto);
    try (right; eexists _, _; repeat split; (reflexivity || assumption));
    try (now left); try (now right);
    try (right; now left); try (right; now right).
Qed.

Lemma digit_facts (d : ascii) :
  isdigit d = true ->
  isspace d = false /\ dot d = true
  /\ Ascii.eqb "." d = false /\ Ascii.eqb "g" d = false
  /\ Ascii.eqb "c" d = false /\ Ascii.eqb "h" d = false.
Proof.
  destruct d as [[] [] [] [] [] [] [] []]; vm_compute; intros E;
    (discriminate E || now repeat split).
Qed.

(** Greedy repetition gives back its last character when what follows
    needs one. *)
Lemma star_give_back {R} (p : ascii -> bool) (u : string) (c : ascii)
      (k : string -> option R) (x : R) :
  all_in p u -> p c = true ->
  k "" = None -> k (String c "") = Some x ->
  star p (u ++ String c "") k = Some x.
Proof.
  intros Hu Hc Hn Hk. induction u as [|a u IH]; simpl.
  - now rewrite Hc, Hn.
  - destruct Hu as [Ha Hu]. now rewrite Ha, (IH Hu).
Qed.

(** The text [parse_quantity] works on, when the pattern matches it: no
    newline can follow the remainder. *)
Lemma quantity_re_normal (s : string) (m : captures) :
  re_match quantity_re (lower (strip s)) = Some m ->
  exists c0 ds fr ws1 un ws2 c r,
    lower (strip s) = (String c0 ds ++ fr) ++ ws1 ++ un ++ ws2 ++ String c r
    /\ isdigit c0 = true /\ all_in isdigit ds /\ fraction fr
    /\ all_in isspace ws1 /\ all_in isspace ws2
    /\ all_in dot (String c r)
    /\ group 1 m = Some (String c0 ds ++ fr)
    /\ group 3 m = Some (String c r)
    /\ ((un = "" /\ group 2 m = None)
        \/ (un = "g" /\ group 2 m = Some "g")
        \/ (un = "cup" /\ group 2 m = Some "cup")).
Proof.
  intros E. apply quantity_re_shape in E
    as (c0 & ds & fr & ws1 & un & ws2 & c & r & tl & Et & H0 & Hds & Hfr
        & Hw1 & Hw2 & Hdot & Htl & E1 & E3 & Hu).
  exists c0, ds, fr, ws1, un, ws2, c, r.
  destruct Htl as [-> | ->].
  - rewrite app_nil_r in Et. repeat (split; [assumption|]). assumption.
  - exfalso.
    assert (En : lower (strip s)
                 = ((String c0 ds ++ fr) ++ ws1 ++ un ++ ws2 ++ String c r)
                   ++ nl).
    { rewrite Et. now rewrite !app_assoc. }
    apply normal_no_trail in En. discriminate En.
Qed.

Lemma parse_blank_iff (s : string) :
  let '(_, _, item_text) := parse_quantity (num := num) s in
  item_text = "" <-> strip s = "".
Proof.
  unfold parse_quantity.
  destruct (startswith (lower (strip s)) "half ") eqn:Eh.
  - apply startswith_app in Eh. simpl String.length in Eh.
    split.
    + intros E. rewrite E in Eh.
      change ("half " ++ "") with ("half" ++ String " " "") in Eh.
      apply normal_no_trail in Eh. discriminate Eh.
    + intros E. rewrite E in Eh. discriminate Eh.
  - destruct (re_match quantity_re (lower (strip s))) as [m|] eqn:Em.
    + apply quantity_re_normal in Em
        as (c0 & ds & fr & ws1 & un & ws2 & c & r & Et & _ & _ & _ & _ & _
            & _ & _ & E3 & _).
      unfold group_text. rewrite E3. split; [discriminate|].
      intros E. rewrite E in Et. discriminate Et.
    + apply lower_nil.
Qed.

Lemma parse_single_digit (s : string) (d : ascii) :
  lower (strip s) = String d "" -> isdigit d = true ->
  parse_quantity (num := num) s = (of_int 1, None, String d "").
Proof.
  intros Et Hd. unfold parse_quantity. rewrite Et.
  destruct (digit_facts d Hd) as (Hs & Hdot & Hp & Hg & Hc & Hh).
  cbn [startswith]. rewrite Hh. cbn [andb].
  unfold re_match, quantity_re. cbn [exec star]. rewrite Hd.
  cbn [exec star startswith String.length Str.drop]. reflexivity.
Qed.

Lemma parse_bare_number (s : string) (c0 : ascii) (ds : string) (d : ascii) :
  lower (strip s) = String c0 ds ++ String d "" ->
  isdigit c0 = true -> all_in isdigit ds -> isdigit d = true ->
  parse_quantity (num := num) s
  = (float_digits (String c0 ds), None, String d "").
Proof.
  intros Et H0 Hds Hd. unfold parse_quantity. rewrite Et.
  destruct (digit_facts d Hd) as (Hs & Hdot & Hp & Hg & Hc & _).
  destruct (digit_facts c0 H0) as (_ & _ & _ & _ & _ & Hh).
  cbn [append startswith]. rewrite Hh. cbn [andb].
  assert (Em : re_match quantity_re (String c0 (ds ++ String d ""))
               = Some [(3, String d ""); (1, String c0 ds)]).
  { unfold re_match, quantity_re. cbn [exec]. rewrite H0.
    apply star_give_back; [exact Hds | exact Hd | reflexivity |].
    cbn [exec star startswith String.length Str.drop].
    rewrite Hp. cbn [andb]. rewrite Hs, Hg, Hc. cbn [andb].
    rewrite Hdot. cbn [star exec String.length Nat.sub].
    change (String c0 (ds ++ String d ""))
      with (String c0 ds ++ String d "").
    rewrite length_app. cbn [String.length].
    replace (String.length ds + 1 - 0)%nat
      with (String.length (String c0 ds)) by (simpl; lia).
    rewrite take_app. reflexivity. }
  rewrite Em. reflexivity.
Qed.

(** A number followed only by a unit token: the token is the food name. *)
Lemma parse_number_unit_only (s : string) (c0 : ascii) (ds fr ws u : string) :
  lower (strip s) = (String c0 ds ++ fr) ++ ws ++ u ->
  isdigit c0 = true -> all_in isdigit ds -> fraction fr ->
  all_in isspace ws ->
  u = "g" \/ u = "cup" ->
  parse_quantity (num := num) s
  = (float_digits (String c0 ds ++ fr), None, u).
Proof.
  intros Et H0 Hds Hfr Hws Hu. unfold parse_quantity. rewrite Et.
  destruct (digit_facts c0 H0) as (_ & _ & _ & _ & _ & Hh).
  assert (Eh : startswith ((String c0 ds ++ fr) ++ ws ++ u) "half " = false).
  { cbn [append startswith]. now rewrite Hh. }
  rewrite Eh.
  assert (Em : re_match quantity_re ((String c0 ds ++ fr) ++ ws ++ u)
               = Some [(3, u); (1, String c0 ds ++ fr)]).
  { unfold re_match, quantity_re.
    change (exec (Cat ?g ?rest) ?t ?m ?k)
      with (exec g t m (fun s' m' => exec rest s' m' k)).
    apply quantity_number; trivial.
    - destruct ws as [|w ws]; [destruct Hu as [-> | ->]; reflexivity|].
      apply space_not_digit, Hws.
    - intros _. destruct ws as [|w ws];
        [destruct Hu as [-> | ->]; reflexivity|].
      apply space_not_point, Hws.
    - cbn [exec]. apply star_run; [exact Hws | |].
      + destruct Hu as [-> | ->]; reflexivity.
      + destruct Hu as [-> | ->]; reflexivity. }
  rewrite Em. reflexivity.
Qed.

Lemma parse_unit_shape (s : string) (qty : num) (u item_text : string) :
  parse_quantity s = (qty, Some u, item_text) ->
  exists c0 ds fr ws1 ws2,
    lower (strip s) = (String c0 ds ++ fr) ++ ws1 ++ u ++ ws2 ++ item_text
    /\ isdigit c0 = true /\ all_in isdigit ds /\ fraction fr
    /\ all_in isspace ws1 /\ all_in isspace ws2
    /\ qty = float_digits (String c0 ds ++ fr)
    /\ (u = "g" \/ u = "cup")
    /\ item_text <> "" /\ all_in dot item_text.
Proof.
  unfold parse_quantity.
  destruct (startswith _ _); [discriminate|].
  destruct (re_match _ _) as [m|] eqn:Em; [|discriminate].
  apply quantity_re_normal in Em
    as (c0 & ds & fr & ws1 & un & ws2 & c & r & Et & H0 & Hds & Hfr & Hw1
        & Hw2 & Hdot & E1 & E3 & Hu).
  unfold group_text. rewrite E1, E3. intros E. injection E as <- Eu <-.
  exists c0, ds, fr, ws1, ws2.
  assert (Hun : un = u /\ (u = "g" \/ u = "cup")).
  { destruct Hu as [[_ E2] | [[-> E2] | [-> E2]]]; rewrite E2 in Eu;
      [discriminate | injection Eu as <- | injection Eu as <-]; auto. }
  destruct Hun as [-> Hug].
  repeat (split; [assumption || reflexivity || discriminate|]).
  exact Hdot.
Qed.
End ParseMore.

(** X1. The food name [parse_quantity] returns is empty exactly when the
    text is blank (empty or only whitespace). *)
Theorem parse_quantity_blank_name :
  forall (num : Type) (N : PyNum num) (s : string),
    let '(_, _, item_text) := parse_quantity (num := num) s in
    item_text = "" <-> Str.strip s = "".
Proof. intros num N s. apply parse_blank_iff. Qed.

(** X2. A text that is only digits loses its last digit to the food name: a
    single digit is the food name of amount 1, and two or more digits give
    the number written by all but the last digit, with the last digit as the
    food name. *)
Theorem parse_quantity_bare_number :
  forall (num : Type) (N : PyNum num) (s : string),
    (forall d : ascii,
        Str.lower (Str.strip s) = String d "" -> Str.isdigit d = true ->
        parse_quantity (num := num) s = (of_int 1, None, String d ""))
    /\ (forall (c0 : ascii) (ds : string) (d : ascii),
           Str.lower (Str.strip s) = String c0 ds ++ String d "" ->
           Str.isdigit c0 = true -> ReSpec.all_in Str.isdigit ds ->
           Str.isdigit d = true ->
           parse_quantity (num := num) s
           = (float_digits (String c0 ds), None, String d "")).
Proof.
  intros num N s. split.
  - apply parse_single_digit.
  - apply parse_bare_number.
Qed.

(** "200" is read as 20 of "0", and "5" as 1 of "5". *)
Lemma parse_quantity_bare_number_witness :
  parse_quantity "200" = (Exact.PyFloat 20, None, "0")
  /\ parse_quantity "5" = (Exact.PyInt 1, None, "5").
Proof.
  split.
  - change (parse_quantity (num := Exact.pynum) "200"
            = (float_digits (String "2" "0"), None, String "0" "")).
    apply (proj2 (parse_quantity_bare_number Exact.pynum _ "200")
             "2"%char "0" "0"%char); try reflexivity.
    split; [reflexivity | exact I].
  - change (parse_quantity (num := Exact.pynum) "5"
            = (of_int 1, None, String "5" "")).
    apply (proj1 (parse_quantity_bare_number Exact.pynum _ "5") "5"%char);
      reflexivity.
Defined.

(** X3. When a number is followed by nothing but "g" or "cup", no unit is
    returned: the token is the food name. *)
Theorem parse_quantity_unit_alone :
  forall (num : Type) (N : PyNum num) (s : string) (c0 : ascii)
         (ds fr ws u : string),
    Str.lower (Str.strip s) = (String c0 ds ++ fr) ++ ws ++ u ->
    Str.isdigit c0 = true -> ReSpec.all_in Str.isdigit ds ->
    ReSpec.fraction fr ->
    ReSpec.all_in Str.isspace ws ->
    u = "g" \/ u = "cup" ->
    parse_quantity (num := num) s
    = (float_digits (String c0 ds ++ fr), None, u).
Proof. intros num N. apply parse_number_unit_only. Qed.

(** "50g" is 50 of "g". *)
Lemma parse_quantity_unit_alone_witness :
  parse_quantity "50g" = (Exact.PyFloat 50, None, "g").
Proof.
  change (parse_quantity (num := Exact.pynum) "50g"
          = (float_digits (String "5" "0" ++ ""), None, "g")).
  apply (parse_quantity_unit_alone Exact.pynum _ "50g" "5"%char "0" "" "" "g").
  - reflexivity.
  - reflexivity.
  - split; [reflexivity | exact I].
  - left. reflexivity.
  - exact I.
  - left. reflexivity.
Defined.

(** X4. When [parse_quantity] returns a unit, the trimmed, lowercased text is
    a number (digits, with an optional point and digits), whitespace, the
    unit "g" or "cup", whitespace, and the food name; the amount is [float]
    of the number, and the food name is not empty and has no newline. *)
Theorem parse_quantity_unit_shape :
  forall (num : Type) (N : PyNum num) (s : string) (qty : num)
         (u item_text : string),
    parse_quantity s = (qty, Some u, item_text) ->
    exists (c0 : ascii) (ds fr ws1 ws2 : string),
      Str.lower (Str.strip s)
      = (String c0 ds ++ fr) ++ ws1 ++ u ++ ws2 ++ item_text
      /\ Str.isdigit c0 = true /\ ReSpec.all_in Str.isdigit ds
      /\ ReSpec.fraction fr
      /\ ReSpec.all_in Str.isspace ws1 /\ ReSpec.all_in Str.isspace ws2
      /\ qty = float_digits (String c0 ds ++ fr)
      /\ (u = "g" \/ u = "cup")
      /\ item_text <> "" /\ ReSpec.all_in Re.dot item_text.
Proof. intros num N. apply parse_unit_shape. Qed.

(** "1.5 Cup Oats". *)
Lemma parse_quantity_unit_shape_witness :
  exists (c0 : ascii) (ds fr ws1 ws2 : string),
    "1.5 cup oats" = (String c0 ds ++ fr) ++ ws1 ++ "cup" ++ ws2 ++ "oats"
    /\ Exact.PyFloat (3 # 2) = float_digits (String c0 ds ++ fr).
Proof.
  assert (Ep : parse_quantity " 1.5 Cup Oats"
               = (Exact.PyFloat (3 # 2), Some "cup", "oats")) by reflexivity.
  destruct (parse_quantity_unit_shape Exact.pynum _ _ _ _ _ Ep)
    as (c0 & ds & fr & ws1 & ws2 & Et & _ & _ & _ & _ & _ & Eq & _).
  exists c0, ds, fr, ws1, ws2. split; [exact Et | exact Eq].
Defined.

(** X23. When the text, trimmed and lowercased, is a number, optional
    whitespace, and then text on one line that begins with neither "g" nor
    "cup" (and, where no whitespace separates them, with neither a digit nor
    a point), [parse_quantity] returns no unit and keeps that text whole as
    the food name. *)
Theorem parse_quantity_keeps_other_words :
  forall (num : Type) (N : PyNum num) (s : string) (c0 : ascii)
         (ds fr ws : string) (c : ascii) (r : string),
    Str.lower (Str.strip s) = (String c0 ds ++ fr) ++ ws ++ String c r ->
    Str.isdigit c0 = true -> ReSpec.all_in Str.isdigit ds ->
    ReSpec.fraction fr ->
    ReSpec.all_in Str.isspace ws ->
    Str.isspace c = false ->
    (ws = "" -> Str.isdigit c = false /\ ReSpec.is_point c = false) ->
    ReSpec.all_in Re.dot (String c r) ->
    Str.startswith (String c r) "g" = false ->
    Str.startswith (String c r) "cup" = false ->
    parse_quantity (num := num) s
    = (float_digits (String c0 ds ++ fr), None, String c r).
Proof. intros num N. apply parse_number_word. Qed.

(** "3 Eggs": the word after the number is kept whole. *)
Lemma parse_quantity_keeps_other_words_witness :
  parse_quantity "  3 Eggs " = (Exact.PyFloat 3, None, "eggs").
Proof.
  change (parse_quantity (num := Exact.pynum) "  3 Eggs "
          = (float_digits (String "3" "" ++ ""), None, String "e" "ggs")).
  apply (parse_quantity_keeps_other_words Exact.pynum _
           "  3 Eggs " "3"%char "" "" " " "e"%char "ggs").
  - reflexivity.
  - reflexivity.
  - exact I.
  - left. reflexivity.
  - split; [reflexivity | exact I].
  - reflexivity.
  - discriminate.
  - repeat split.
  - reflexivity.
  - reflexivity.
Defined.

(** ** More on [match], [get] and [exists] *)

Section MatchMore.
Context {num : Type} `{PyNum num}.
Import NutritionDB.

Lemma Qgtb_false (a b : Q) : Qgtb a b = false <-> (a <= b)%Q.
Proof.
  unfold Qgtb. rewrite negb_false_iff. apply Qle_bool_iff.
Qed.

(** The loop of [match], with the place of the winner: the state is
    unchanged and no name scores above it, or the winner is the first name
    that reaches the highest score. *)
Lemma best_match_first (tw : list string) (names : list string)
      (st : option string * Q) :
  let sc := fun n => score tw (word_set n) in
  (fold_left (match_step tw) names st = st
   /\ forall n, In n names -> (sc n <= snd st)%Q)
  \/ exists pre n post,
      names = (pre ++ n :: post)%list
      /\ fold_left (match_step tw) names st = (Some n, sc n)
      /\ (snd st < sc n)%Q
      /\ (forall k, In k pre -> (sc k < sc n)%Q)
      /\ (forall k, In k post -> (sc k <= sc n)%Q).
Proof.
  intros sc. revert st.
  induction names as [|a names IH]; intros st; cbn [fold_left].
  - left. split; [reflexivity | contradiction].
  - assert (Es : match_step tw st a
                 = if Qgtb (sc a) (snd st) then (Some a, sc a) else st)
      by reflexivity.
    rewrite Es. clear Es.
    destruct (Qgtb (sc a) (snd st)) eqn:Eg.
    + apply Qgtb_spec in Eg.
      destruct (IH (Some a, sc a)) as [[E Hall] | (pre & n & post & En & E & Hlt & Hpre & Hpost)].
      * right. exists [], a, names. cbn [snd] in Hall.
        repeat split; auto. intros k [].
      * right. exists (a :: pre), n, post. cbn [snd] in Hlt.
        repeat split; auto.
        -- now rewrite En.
        -- eapply Qlt_trans; eauto.
        -- intros k [<- | Hk]; auto.
    + apply Qgtb_false in Eg.
      destruct (IH st) as [[E Hall] | (pre & n & post & En & E & Hlt & Hpre & Hpost)].
      * left. split; [exact E|]. intros n [<- | Hn]; auto.
      * right. exists (a :: pre), n, post.
        repeat split; auto.
        -- now rewrite En.
        -- intros k [<- | Hk]; auto. eapply Qle_lt_trans; eauto.
Qed.

Lemma match_none (items : t num) (text : string) :
  match_ items text = None <->
  ~ In (Str.strip (Str.lower text)) (Dict.keys items)
  /\ forall name, In name (Dict.keys items) ->
                  (score (word_set (Str.strip (Str.lower text)))
                         (word_set name) <= 1 # 2)%Q.
Proof.
  unfold match_. set (tx := Str.strip (Str.lower text)).
  destruct (Dict.mem String.eqb tx items) eqn:Em.
  - apply mem_keys in Em. split; [discriminate | intros [Hn _]; contradiction].
  - assert (Hnk : ~ In tx (Dict.keys items)).
    { intros Hin. apply mem_keys in Hin. congruence. }
    unfold best_match.
    pose proof (best_match_state (word_set tx) (Dict.keys items)
                                 (None, 0%Q)) as (_ & Hall & Hst).
    simpl in Hall, Hst.
    destruct (fold_left _ _ _) as [best sc]. simpl in Hall.
    destruct (Qgtb sc (1 # 2)) eqn:Eg.
    + apply Qgtb_spec in Eg.
      destruct Hst as [E | (n & Hin & E)].
      * injection E as _ ->. now inversion Eg.
      * injection E as -> ->. split; [discriminate|].
        intros [_ Hle]. exfalso.
        apply (Qlt_not_le _ _ Eg). now apply Hle.
    + apply Qgtb_false in Eg. split; [|reflexivity].
      intros _. split; [exact Hnk|].
      intros name Hin. eapply Qle_trans; [now apply Hall | exact Eg].
Qed.

Lemma match_fuzzy_first (items : t num) (text name : string) :
  ~ In (Str.strip (Str.lower text)) (Dict.keys items) ->
  match_ items text = Some name ->
  let sc := fun n => score (word_set (Str.strip (Str.lower text)))
                           (word_set n) in
  exists pre post,
    Dict.keys items = (pre ++ name :: post)%list
    /\ (1 # 2 < sc name)%Q
    /\ (forall k, In k pre -> (sc k < sc name)%Q)
    /\ (forall k, In k post -> (sc k <= sc name)%Q).
Proof.
  intros Hnk. unfold match_. set (tx := Str.strip (Str.lower text)) in *.
  destruct (Dict.mem String.eqb tx items) eqn:Em.
  { apply mem_keys in Em. contradiction. }
  unfold best_match.
  destruct (best_match_first (word_set tx) (Dict.keys items) (None, 0%Q))
    as [[E _] | (pre & n & post & En & E & _ & Hpre & Hpost)]; rewrite E.
  - now destruct (Qgtb 0 (1 # 2)).
  - destruct (Qgtb _ _) eqn:Eg; [|discriminate].
    intros Es. injection Es as <-. cbv zeta.
    exists pre, post. apply Qgtb_spec in Eg. now repeat split.
Qed.

Lemma str_mem_In (w : string) (l : list string) :
  str_mem w l = true <-> In w l.
Proof.
  unfold str_mem. rewrite existsb_exists. split.
  - intros (x & Hx & E). apply String.eqb_eq in E. now subst.
  - intros Hw. exists w. split; [exact Hw | apply String.eqb_refl].
Qed.

(** When every word of the name is a word of the text, the overlap is the
    number of words of the name. *)
Lemma overlap_all (tw nw : list string) :
  NoDup tw -> NoDup nw -> incl nw tw ->
  overlap tw nw = List.length nw.
Proof.
  intros Ht Hn Hi. unfold overlap.
  apply Permutation_length, NoDup_Permutation; [now apply NoDup_filter | exact Hn |].
  intros x. rewrite filter_In, str_mem_In. split; [tauto|].
  intros Hx. split; [now apply Hi | exact Hx].
Qed.

Lemma score_all (tw nw : list string) :
  NoDup tw -> NoDup nw -> incl nw tw -> nw <> [] ->
  (score tw nw == 1)%Q.
Proof.
  intros Ht Hn Hi Hne. unfold score.
  destruct nw as [|w nw]; [contradiction|].
  rewrite (overlap_all _ _ Ht Hn Hi).
  unfold Qeq. cbn [Qnum Qden List.length].
  rewrite <- (positive_nat_Z (Pos.of_nat (S (List.length nw)))).
  rewrite Nat2Pos.id by discriminate. lia.
Qed.

Lemma word_set_NoDup (s : string) : NoDup (word_set s).
Proof. apply NoDup_nodup. Qed.

Lemma word_set_In (s w : string) : In w (word_set s) <-> In w (Str.split s).
Proof. apply nodup_In. Qed.

(** A stored name all of whose words occur in the text is a match. *)
Lemma all_words_has_match (items : t num) (text name : string) :
  In name (Dict.keys items) ->
  Str.split name <> [] ->
  (forall w, In w (Str.split name) ->
             In w (Str.split (Str.strip (Str.lower text)))) ->
  has_match items text.
Proof.
  intros Hin Hne Hall. exists name. split; [exact Hin|].
  assert (Hs : (score (word_set (Str.strip (Str.lower text)))
                      (word_set name) == 1)%Q).
  { apply score_all; try apply word_set_NoDup.
    - intros w Hw. apply word_set_In. apply Hall. now apply word_set_In.
    - intros E. apply Hne.
      destruct (Str.split name) as [|w l] eqn:Es; [reflexivity|].
      assert (Hw : In w (word_set name)).
      { apply word_set_In. rewrite Es. now left. }
      now rewrite E in Hw. }
  rewrite Hs. reflexivity.
Qed.

(** [get] logs nothing unless it reaches the unit mismatch. *)
Lemma get_log (items : t num) (menu_text : string) (qty : num)
      (unit : option string) (item_text name : string)
      (item : FoodRecord num) :
  parse_quantity menu_text = (qty, unit, item_text) ->
  match_ items item_text = Some name ->
  name <> "" ->
  Dict.lookup String.eqb name items = Some item ->
  log_of (get items menu_text) =
  if agree_test unit item then []
  else [LogWarning ("Unit mismatch for '" ++ menu_text ++ "': expected '"
                    ++ serving_unit item ++ "', got '" ++ unit_str unit
                    ++ "'")].
Proof.
  intros Ep Em Hn El. rewrite (get_found _ _ _ _ _ _ _ Ep Em Hn El).
  destruct (agree_test unit item) eqn:Ea.
  - rewrite (ratio_of_agree _ _ _ _ Ea). unfold ndiv.
    now destruct (is_zero _).
  - now rewrite (ratio_of_mismatch _ _ _ _ Ea).
Qed.

(** How [get] can end once the name is found. *)
Lemma get_found_result (items : t num) (menu_text : string) (qty : num)
      (unit : option string) (item_text name : string)
      (item : FoodRecord num) :
  parse_quantity menu_text = (qty, unit, item_text) ->
  match_ items item_text = Some name ->
  name <> "" ->
  Dict.lookup String.eqb name items = Some item ->
  (exists v, result_of (get items menu_text) = Ok v)
  \/ result_of (get items menu_text) = Raise ZeroDivisionError.
Proof.
  intros Ep Em Hn El. rewrite (get_found _ _ _ _ _ _ _ Ep Em Hn El).
  destruct (agree_test unit item) eqn:Ea.
  - rewrite (ratio_of_agree _ _ _ _ Ea). unfold ndiv.
    destruct (is_zero _); [now right | left; eexists; reflexivity].
  - rewrite (ratio_of_mismatch _ _ _ _ Ea). left. eexists. reflexivity.
Qed.

(** The ways [get] can end. *)
Lemma get_result_cases (items : t num) (menu_text : string) :
  (exists v, result_of (get items menu_text) = Ok v)
  \/ result_of (get items menu_text) = Raise ZeroDivisionError
  \/ get items menu_text
     = raise (ValueError ("Item not found: " ++ menu_text)).
Proof.
  destruct (parse_quantity (num := num) menu_text) as [[qty unit] r] eqn:Ep.
  destruct (match_ items r) as [name|] eqn:Em.
  - destruct name as [|a name].
    + right. right. apply get_not_found. rewrite Ep. now right.
    + destruct (match_lookup _ _ _ Em) as [item El].
      destruct (get_found_result _ _ _ _ _ _ _ Ep Em ltac:(discriminate) El)
        as [Hv | Hz]; auto.
  - right. right. apply get_not_found. rewrite Ep. now left.
Qed.
End MatchMore.

(** X5. [match] returns no name exactly when the trimmed, lowercased text is
    not a stored name and no stored name has a word-overlap score above
    0.5 with it. *)
Theorem match_none_iff :
  forall (num : Type) (N : PyNum num) (items : NutritionDB.t num)
         (text : string),
    NutritionDB.match_ items text = None <->
    ~ In (Str.strip (Str.lower text)) (Dict.keys items)
    /\ forall name, In name (Dict.keys items) ->
                    (score (word_set (Str.strip (Str.lower text)))
                           (word_set name) <= 1 # 2)%Q.
Proof. intros num N. apply match_none. Qed.

(** X6. When the text is not itself a stored name, the name [match] returns
    scores above 0.5, no stored name scores higher, and every name stored
    before it scores strictly lower: among equal best scores the first in
    table order wins. *)
Theorem match_keeps_first_best :
  forall (num : Type) (N : PyNum num) (items : NutritionDB.t num)
         (text name : string),
    ~ In (Str.strip (Str.lower text)) (Dict.keys items) ->
    NutritionDB.match_ items text = Some name ->
    exists pre post,
      Dict.keys items = (pre ++ name :: post)%list
      /\ (1 # 2 < score (word_set (Str.strip (Str.lower text)))
                        (word_set name))%Q
      /\ (forall k, In k pre ->
                    (score (word_set (Str.strip (Str.lower text)))
                           (word_set k)
                     < score (word_set (Str.strip (Str.lower text)))
                             (word_set name))%Q)
      /\ (forall k, In k post ->
                    (score (word_set (Str.strip (Str.lower text)))
                           (word_set k)
                     <= score (word_set (Str.strip (Str.lower text)))
                              (word_set name))%Q).
Proof.
  intros num N items text name Hnk Em.
  apply (match_fuzzy_first items text name Hnk Em).
Qed.

(** "white brown rice" scores 1 with both "brown rice" and "white rice":
    the one stored first is returned. *)
Lemma match_keeps_first_best_witness :
  let rec := mkFood (Exact.PyFloat 23) (Exact.PyFloat 3) (Exact.PyFloat 1)
                    (Exact.PyFloat 100) "g" (Exact.PyFloat 111) in
  let db := [("brown rice", rec); ("white rice", rec)] in
  NutritionDB.match_ db "White Brown Rice" = Some "brown rice"
  /\ exists pre post,
      Dict.keys db = (pre ++ "brown rice" :: post)%list
      /\ forall k, In k post ->
                   (score (word_set "white brown rice") (word_set k)
                    <= score (word_set "white brown rice")
                             (word_set "brown rice"))%Q.
Proof.
  intros rec db.
  assert (Em : NutritionDB.match_ db "White Brown Rice" = Some "brown rice")
    by reflexivity.
  split; [exact Em|].
  destruct (match_keeps_first_best Exact.pynum _ db "White Brown Rice"
              "brown rice") as (pre & post & Ek & _ & _ & Hpost).
  - intros [E | [E | []]]; discriminate E.
  - exact Em.
  - exists pre, post. split; [exact Ek | exact Hpost].
Defined.

(** X7. If every word of a stored, non-blank name occurs among the words of
    the trimmed, lowercased text, [match] returns a name, and not the empty
    one. *)
Theorem match_finds_all_words :
  forall (num : Type) (N : PyNum num) (items : NutritionDB.t num)
         (text name : string),
    In name (Dict.keys items) ->
    Str.split name <> [] ->
    (forall w, In w (Str.split name) ->
               In w (Str.split (Str.strip (Str.lower text)))) ->
    exists found,
      NutritionDB.match_ items text = Some found /\ found <> "".
Proof.
  intros num N items text name Hin Hne Hall.
  apply match_has_match. now apply (all_words_has_match items text name).
Qed.

(** "grilled chicken breast strips" contains both words of "chicken
    breast". *)
Lemma match_finds_all_words_witness :
  let db := [("chicken breast",
              mkFood (Exact.PyFloat 0) (Exact.PyFloat 31)
                     (Exact.PyFloat (18 # 5)) (Exact.PyFloat 100) "g"
                     (Exact.PyFloat 165))] in
  exists found,
    NutritionDB.match_ db "Grilled chicken breast strips" = Some found
    /\ found <> "".
Proof.
  intros db.
  apply (match_finds_all_words Exact.pynum _ db
           "Grilled chicken breast strips" "chicken breast").
  - now left.
  - discriminate.
  - intros w [<- | [<- | []]]; vm_compute; tauto.
Defined.

(** X8. [get] ends in one of three ways: it returns a value, it raises
    [ZeroDivisionError], or it raises [ValueError] with the message "Item
    not found: " and the text as given, having logged nothing.  It never
    raises [KeyError]. *)
Theorem get_ends :
  forall (num : Type) (N : PyNum num) (items : NutritionDB.t num)
         (menu_text : string),
    (exists v, result_of (NutritionDB.get items menu_text) = Ok v)
    \/ result_of (NutritionDB.get items menu_text) = Raise ZeroDivisionError
    \/ NutritionDB.get items menu_text
       = raise (ValueError ("Item not found: " ++ menu_text)).
Proof. intros num N. apply get_result_cases. Qed.

(** X9. In a table with no empty name, [exists] is false exactly when [get]
    raises "Item not found". *)
Theorem exists_false_iff_not_found :
  forall (num : Type) (N : PyNum num) (items : NutritionDB.t num)
         (menu_text : string),
    ~ In "" (Dict.keys items) ->
    (NutritionDB.exists_ items menu_text = false <->
     NutritionDB.get items menu_text
     = raise (ValueError ("Item not found: " ++ menu_text))).
Proof.
  intros num N items menu_text Hne. rewrite exists_spec.
  destruct (parse_quantity (num := num) menu_text) as [[qty unit] r] eqn:Ep.
  destruct (NutritionDB.match_ items r) as [name|] eqn:Em.
  - destruct name as [|a name].
    + exfalso. apply Hne. now apply (match_in_keys items r).
    + destruct (match_lookup _ _ _ Em) as [item El].
      split; [discriminate|]. intros E.
      destruct (get_found_result _ _ _ _ _ _ _ Ep Em ltac:(discriminate) El)
        as [[v Hv] | Hz]; rewrite E in *; discriminate.
  - split; [|reflexivity]. intros _.
    apply get_not_found. rewrite Ep. now left.
Qed.

(** "dragon" is in no table of rice. *)
Lemma exists_false_iff_not_found_witness :
  let db := [("rice", mkFood (Exact.PyFloat 20) (Exact.PyFloat 2)
                             (Exact.PyFloat 1) (Exact.PyFloat 100) "g"
                             (Exact.PyFloat 100))] in
  NutritionDB.get db "2 Dragon"
  = raise (ValueError "Item not found: 2 Dragon").
Proof.
  intros db.
  apply (exists_false_iff_not_found Exact.pynum _ db "2 Dragon").
  - intros [E | []]. discriminate E.
  - reflexivity.
Defined.

(** X10. When [get] finds a record, it logs nothing if the units agree (both
    grams, equal, or no unit given) and otherwise logs exactly one warning,
    naming the text, the record's unit and the unit given. *)
Theorem get_warns_on_mismatch :
  forall (num : Type) (N : PyNum num) (items : NutritionDB.t num)
         (menu_text : string) (qty : num) (unit : option string)
         (item_text name : string) (item : FoodRecord num),
    parse_quantity menu_text = (qty, unit, item_text) ->
    NutritionDB.match_ items item_text = Some name ->
    name <> "" ->
    Dict.lookup String.eqb name items = Some item ->
    (units_agree unit item ->
     log_of (NutritionDB.get items menu_text) = [])
    /\ (~ units_agree unit item ->
        exists u,
          unit = Some u
          /\ log_of (NutritionDB.get items menu_text)
             = [LogWarning ("Unit mismatch for '" ++ menu_text
                            ++ "': expected '" ++ serving_unit item
                            ++ "', got '" ++ u ++ "'")]).
Proof.
  intros num N items menu_text qty unit item_text name item Ep Em Hn El.
  rewrite (get_log _ _ _ _ _ _ _ Ep Em Hn El). split.
  - intros Ha. apply agree_test_spec in Ha. now rewrite Ha.
  - intros Ha. destruct (agree_test unit item) eqn:Ea.
    + now apply agree_test_spec in Ea.
    + destruct unit as [u|]; [now exists u|].
      exfalso. apply Ha. right. now right.
Qed.

(** Two cups of a food given per 100 g: one warning. *)
Lemma get_warns_on_mismatch_witness :
  let db := [("rice", mkFood (Exact.PyFloat 20) (Exact.PyFloat 2)
                             (Exact.PyFloat 1) (Exact.PyFloat 100) "g"
                             (Exact.PyFloat 100))] in
  log_of (NutritionDB.get db "2 cup rice")
  = [LogWarning "Unit mismatch for '2 cup rice': expected 'g', got 'cup'"]
  /\ log_of (NutritionDB.get db "50g rice") = [].
Proof.
  intros db.
  assert (Ep1 : parse_quantity "2 cup rice"
                = (Exact.PyFloat 2, Some "cup", "rice")) by reflexivity.
  assert (Ep2 : parse_quantity "50g rice"
                = (Exact.PyFloat 50, Some "g", "rice")) by reflexivity.
  assert (Em : NutritionDB.match_ db "rice" = Some "rice") by reflexivity.
  assert (El : Dict.lookup String.eqb "rice" db
               = Some (mkFood (Exact.PyFloat 20) (Exact.PyFloat 2)
                              (Exact.PyFloat 1) (Exact.PyFloat 100) "g"
                              (Exact.PyFloat 100))) by reflexivity.
  split.
  - destruct (proj2 (get_warns_on_mismatch Exact.pynum _ db _ _ _ _ _ _
                       Ep1 Em ltac:(discriminate) El)) as (u & Eu & Elog).
    + intros [[E _] | [E | E]]; discriminate E.
    + injection Eu as <-. exact Elog.
  - apply (proj1 (get_warns_on_mismatch Exact.pynum _ db _ _ _ _ _ _
                    Ep2 Em ltac:(discriminate) El)).
    left. split; reflexivity.
Defined.

(** ** More on [_load] *)

Section LoadMore.
Context {num : Type} `{PyNum num}.
Import NutritionDB.

Lemma not_data_row (line : string) :
  Str.strip line = "" \/ Str.contains "|" line = false
  \/ (List.length (columns line) < 8)%nat ->
  ~ is_data_row line.
Proof.
  unfold is_data_row, skipped. intros [E | [E | E]] [Hs Hc].
  - now rewrite E in Hs.
  - rewrite E in Hs. now destruct (Str.strip line).
  - apply Nat.leb_le in Hc. lia.
Qed.

(** A line that is blank, has no "|" or has fewer than 8 columns can be
    taken out of the source. *)
Lemma load_skips (header separator : string) (before after : list string)
      (line : string) :
  ~ is_data_row line ->
  _load (num := num) (header :: separator :: before ++ line :: after)%list
  = _load (header :: separator :: before ++ after)%list.
Proof.
  intros Hn. unfold _load. cbn [skipn].
  rewrite !load_lines_app. apply bind_ext. intros items.
  cbn [load_lines]. now rewrite (load_line_other _ _ Hn), bind_ret_l.
Qed.

Lemma row_name_canonical (line : string) :
  Str.strip (Str.lower (row_name line)) = row_name line.
Proof.
  unfold row_name, col, columns.
  change EmptyString with (Str.strip EmptyString) at 1 2.
  rewrite !map_nth.
  now rewrite StrFacts.lower_idem, StrFacts.strip_lower, StrFacts.strip_idem.
Qed.

Lemma to_float_cases (s : string) :
  (exists x, pyfloat s = Some x /\ to_float s = ret x)
  \/ (pyfloat (num := num) s = None
      /\ exists msg, to_float (num := num) s = raise (ValueError msg)).
Proof.
  unfold to_float. destruct (pyfloat s) as [x|].
  - left. now exists x.
  - right. split; [reflexivity | eexists; reflexivity].
Qed.

(** The five [float] calls of a row: all succeed, or the first cell that
    is not a number raises. *)
Lemma record_of_cases (cols : list string) :
  (exists item, record_of (num := num) cols = ret item)
  \/ exists i msg,
      In i [2; 3; 4; 5; 7]%nat
      /\ pyfloat (num := num) (col i cols) = None
      /\ record_of (num := num) cols = raise (ValueError msg).
Proof.
  unfold record_of.
  destruct (to_float_cases (col 2 cols)) as [(c & _ & ->) | (E & msg & ->)];
    [rewrite bind_ret_l | right; exists 2%nat, msg; simpl; auto].
  destruct (to_float_cases (col 3 cols)) as [(p & _ & ->) | (E & msg & ->)];
    [rewrite bind_ret_l | right; exists 3%nat, msg; simpl; auto].
  destruct (to_float_cases (col 4 cols)) as [(f & _ & ->) | (E & msg & ->)];
    [rewrite bind_ret_l | right; exists 4%nat, msg; simpl; auto].
  destruct (to_float_cases (col 5 cols)) as [(a & _ & ->) | (E & msg & ->)];
    [rewrite bind_ret_l | right; exists 5%nat, msg; simpl; auto 6].
  destruct (to_float_cases (col 7 cols)) as [(k & _ & ->) | (E & msg & ->)];
    [rewrite bind_ret_l | right; exists 7%nat, msg; simpl; auto 7].
  left. eexists. reflexivity.
Qed.

Lemma load_lines_cases (lines : list string) :
  forall items : t num,
    (exists items', load_lines items lines = ret items')
    \/ exists line i msg,
        In line lines /\ is_data_row line
        /\ In i [2; 3; 4; 5; 7]%nat
        /\ pyfloat (num := num) (col i (columns line)) = None
        /\ load_lines items lines = raise (ValueError msg).
Proof.
  induction lines as [|line lines IH]; intros items; cbn [load_lines].
  - left. now exists items.
  - destruct (is_data_row_dec line) as [Hd | Hd].
    + destruct (record_of_cases (columns line))
        as [[item Er] | (i & msg & Hi & Ep & Er)].
      * rewrite (load_line_data _ _ _ Hd Er), bind_ret_l.
        destruct (IH (Dict.set String.eqb (row_name line) item items))
          as [Hok | (l & i & msg & Hl & Hdl & Hi & Ep & E)]; [now left|].
        right. exists l, i, msg.
        split; [now right|]. now repeat (split; [assumption|]).
      * right. exists line, i, msg.
        split; [now left|]. repeat (split; [assumption|]).
        unfold load_line. destruct Hd as [Hs Hc]. cbv zeta.
        now rewrite Hs, Hc, Er.
    + rewrite (load_line_other _ _ Hd), bind_ret_l.
      destruct (IH items)
        as [Hok | (l & i & msg & Hl & Hdl & Hi & Ep & E)]; [now left|].
      right. exists l, i, msg.
      split; [now right|]. now repeat (split; [assumption|]).
Qed.

(** What the loop of [_load] keeps when it returns. *)
Lemma load_lines_preserves (P : t num -> Prop) :
  (forall items line item,
      P items -> P (Dict.set String.eqb (row_name line) item items)) ->
  forall lines items w items',
    load_lines items lines = (w, Ok items') -> P items -> P items'.
Proof.
  intros Hset. induction lines as [|line lines IH];
    intros items w items'; cbn [load_lines].
  - intros E. now injection E as _ <-.
  - intros E HP. apply bind_ok_inv in E as (w1 & items1 & w2 & E1 & E2 & _).
    apply (IH _ _ _ E2).
    destruct (is_data_row_dec line) as [Hd | Hd].
    + destruct (record_of_cases (columns line))
        as [[item Er] | (i & msg & _ & _ & Er)].
      * rewrite (load_line_data _ _ _ Hd Er) in E1.
        injection E1 as _ <-. now apply Hset.
      * unfold load_line in E1. destruct Hd as [Hs Hc]. cbv zeta in E1.
        rewrite Hs, Hc, Er in E1. discriminate E1.
    + rewrite (load_line_other _ _ Hd) in E1. now injection E1 as _ <-.
Qed.

Lemma loaded_keys (lines : list string) (w : list event) (items : t num) :
  _load lines = (w, Ok items) ->
  NoDup (Dict.keys items)
  /\ forall k, In k (Dict.keys items) -> Str.strip (Str.lower k) = k.
Proof.
  unfold _load. intros E. split.
  - refine (load_lines_preserves (fun d => NoDup (Dict.keys d)) _
              _ _ _ _ E _); [|constructor].
    intros d line item Hd.
    now apply NoDup_keys_set; [apply string_eqb_reflect|].
  - refine (load_lines_preserves
              (fun d => forall k, In k (Dict.keys d) ->
                                  Str.strip (Str.lower k) = k) _
              _ _ _ _ E _); [|intros k []].
    intros d line item Hd k.
    rewrite (keys_set String.eqb string_eqb_reflect).
    destruct (Dict.lookup _ _ _); [apply Hd|].
    rewrite in_app_iff. intros [Hk | [<- | []]];
      [now apply Hd | apply row_name_canonical].
Qed.
End LoadMore.

(** X11. A line after the header that is blank, or has no "|", or has fewer
    than 8 columns, is skipped without a trace: the table loaded is the one
    loaded without that line. *)
Theorem load_skips_malformed_rows :
  forall (num : Type) (N : PyNum num) (header separator : string)
         (before after : list string) (line : string),
    Str.strip line = "" \/ Str.contains "|" line = false
    \/ (List.length (NutritionDB.columns line) < 8)%nat ->
    NutritionDB._load (num := num)
      (header :: separator :: before ++ line :: after)%list
    = NutritionDB._load (header :: separator :: before ++ after)%list.
Proof.
  intros num N header separator before after line Hl.
  apply load_skips. now apply not_data_row.
Qed.

(** A row of seven columns between two good rows. *)
Lemma load_skips_malformed_rows_witness :
  NutritionDB._load (num := Exact.pynum)
    [ "| # | Name | Carbs | Protein | Fat | Amount | Unit | Calories |" ++ nl;
      "|---|------|-------|---------|-----|--------|------|----------|" ++ nl;
      "| 1 | Rice | 20 | 2 | 1 | 100 | g | 100 |" ++ nl;
      "| 2 | Oats | 60 | 10 | 5 | 100 | g |" ++ nl;
      "| 3 | Egg | 1 | 6 | 5 | 1 | egg | 70 |" ++ nl ]
  = NutritionDB._load
      [ "| # | Name | Carbs | Protein | Fat | Amount | Unit | Calories |" ++ nl;
        "|---|------|-------|---------|-----|--------|------|----------|" ++ nl;
        "| 1 | Rice | 20 | 2 | 1 | 100 | g | 100 |" ++ nl;
        "| 3 | Egg | 1 | 6 | 5 | 1 | egg | 70 |" ++ nl ].
Proof.
  apply (load_skips_malformed_rows Exact.pynum _ _ _
           ["| 1 | Rice | 20 | 2 | 1 | 100 | g | 100 |" ++ nl]
           ["| 3 | Egg | 1 | 6 | 5 | 1 | egg | 70 |" ++ nl]
           ("| 2 | Oats | 60 | 10 | 5 | 100 | g |" ++ nl)).
  right. right. vm_compute. lia.
Defined.

(** X12. In a table that [_load] returned, the names are distinct, each is
    trimmed and lowercase, and [match] on a stored name returns that
    name. *)
Theorem loaded_names_match_themselves :
  forall (num : Type) (N : PyNum num) (lines : list string)
         (items : NutritionDB.t num),
    result_of (NutritionDB._load lines) = Ok items ->
    NoDup (Dict.keys items)
    /\ forall name,
        In name (Dict.keys items) ->
        Str.strip (Str.lower name) = name
        /\ NutritionDB.match_ items name = Some name.
Proof.
  intros num N lines items E.
  destruct (NutritionDB._load lines) as [w r] eqn:El. simpl in E. subst r.
  destruct (loaded_keys _ _ _ El) as [Hnd Hcan].
  split; [exact Hnd|]. intros name Hin.
  pose proof (Hcan name Hin) as Ec. split; [exact Ec|].
  unfold NutritionDB.match_. rewrite Ec.
  apply mem_keys in Hin. now rewrite Hin.
Qed.

(** "  Brown   Rice " is stored as "brown   rice" and found under it. *)
Lemma loaded_names_match_themselves_witness :
  exists items : NutritionDB.t Exact.pynum,
    Dict.keys items = ["brown   rice"]
    /\ NutritionDB.match_ items "brown   rice" = Some "brown   rice".
Proof.
  set (lines := [ "| # | Name | C | P | F | Amount | Unit | Calories |" ++ nl;
                  "|---|---|---|---|---|---|---|---|" ++ nl;
                  "| 1 |   Brown   Rice  | 23 | 3 | 1 | 100 | g | 111 |" ++ nl ]).
  set (items := [("brown   rice",
                  mkFood (Exact.PyFloat 23) (Exact.PyFloat 3)
                         (Exact.PyFloat 1) (Exact.PyFloat 100) "g"
                         (Exact.PyFloat 111))]).
  assert (El : result_of (NutritionDB._load lines) = Ok items) by reflexivity.
  destruct (loaded_names_match_themselves Exact.pynum _ lines items El)
    as [_ Hall].
  exists items. split; [reflexivity|].
  apply Hall. now left.
Defined.


(** ** What the aggregation can log and raise *)

Section Effects.
Context {num : Type} `{PyNum num}.

Lemma log_bind {A B} (m : M A) (k : A -> M B) :
  log_of (bind m k) =
  (log_of m ++ match result_of m with
               | Ok a => log_of (k a)
               | Raise _ => []
               end)%list.
Proof.
  destruct m as [w [a | e]]; simpl.
  - now destruct (k a).
  - now rewrite List.app_nil_r.
Qed.

Lemma result_bind {A B} (m : M A) (k : A -> M B) :
  result_of (bind m k) =
  match result_of m with
  | Ok a => result_of (k a)
  | Raise e => Raise e
  end.
Proof.
  destruct m as [w [a | e]]; simpl; [|reflexivity]. now destruct (k a).
Qed.

Lemma tame_bind {A B} (m : M A) (k : A -> M B) :
  tame m -> (forall a, tame (k a)) -> tame (bind m k).
Proof.
  intros [Hl Hr] Hk. split.
  - rewrite log_bind. apply Forall_app. split; [exact Hl|].
    destruct (result_of m); [apply Hk | constructor].
  - intros key. rewrite result_bind.
    destruct (result_of m) as [a | e] eqn:E; [apply Hk|].
    intros Ee. injection Ee as ->. now apply (Hr key).
Qed.

Lemma tame_ret {A} (a : A) : tame (ret a).
Proof. split; [constructor | discriminate]. Qed.

Lemma tame_ndiv (x y : num) : tame (ndiv x y).
Proof.
  unfold ndiv. destruct (is_zero y); [|apply tame_ret].
  split; [constructor | discriminate].
Qed.

Lemma tame_truediv (x : Nutrients.t num) (n : num) :
  tame (Nutrients.truediv x n).
Proof.
  unfold Nutrients.truediv.
  repeat (apply tame_bind; [apply tame_ndiv | intros ?]). apply tame_ret.
Qed.

Lemma tame_avg (l : list (Nutrients.t num)) : tame (Nutrients.avg l).
Proof. apply tame_truediv. Qed.

Lemma tame_get (items : NutritionDB.t num) (menu_text : string) :
  tame (NutritionDB.get items menu_text).
Proof.
  split.
  - destruct (parse_quantity (num := num) menu_text) as [[qty unit] r] eqn:Ep.
    destruct (NutritionDB.match_ items r) as [[|a name]|] eqn:Em.
    + rewrite get_not_found; [constructor | rewrite Ep; now right].
    + destruct (match_lookup _ _ _ Em) as [item El].
      rewrite (get_log _ _ _ _ _ _ _ Ep Em ltac:(discriminate) El).
      destruct (agree_test unit item); repeat constructor.
    + rewrite get_not_found; [constructor | rewrite Ep; now left].
  - intros key.
    destruct (get_result_cases items menu_text) as [[v E] | [E | E]];
      rewrite E; discriminate.
Qed.

Lemma tame_mapM {A B} (f : A -> M B) (l : list A) :
  (forall x, tame (f x)) -> tame (mapM f l).
Proof.
  intros Hf. induction l as [|x l IH]; cbn [mapM]; [apply tame_ret|].
  apply tame_bind; [apply Hf | intros y].
  apply tame_bind; [exact IH | intros ys]. apply tame_ret.
Qed.

Lemma tame_get_nutrients (db : NutritionDB.t num) (group : list string) :
  tame (get_nutrients db group).
Proof.
  unfold get_nutrients.
  apply tame_bind; [apply tame_mapM, tame_get | intros vs; apply tame_avg].
Qed.

Lemma tame_add_fixed (db : NutritionDB.t num) (groups : list (list string)) :
  forall totals, tame (add_fixed db groups totals).
Proof.
  induction groups as [|g groups IH]; intros totals; cbn [add_fixed];
    [apply tame_ret|].
  apply tame_bind; [apply tame_get_nutrients | intros v; apply IH].
Qed.

Lemma tame_group_options (db : NutritionDB.t num)
      (opts : list (list string * nat * nat)) :
  forall grouped, tame (group_options db opts grouped).
Proof.
  induction opts as [|[[g n] id] opts IH]; intros grouped;
    cbn [group_options]; [apply tame_ret|].
  apply tame_bind; [apply tame_get_nutrients | intros v; apply IH].
Qed.

Lemma tame_add_grouped (grouped : grouped_t) :
  forall totals : Nutrients.t num, tame (add_grouped grouped totals).
Proof.
  induction grouped as [|[id [n choices]] grouped IH]; intros totals;
    cbn [add_grouped]; [apply tame_ret|].
  apply tame_bind; [apply tame_avg | intros a; apply IH].
Qed.

Lemma tame_add_carbs (db : NutritionDB.t num) (menu : Menu num)
      (day : string) (totals : Nutrients.t num) :
  tame (add_carbs db menu day totals).
Proof.
  unfold add_carbs. destruct (str_truthy _); [|apply tame_ret].
  destruct (Dict.lookup _ _ _) as [grams|]; [|apply tame_ret].
  destruct (is_zero grams); [apply tame_ret|].
  apply tame_bind; [apply tame_get | intros v; apply tame_ret].
Qed.

Lemma tame_calculate (db : NutritionDB.t num) (menu : Menu num)
      (day : string) :
  tame (calculate db menu day).
Proof.
  unfold calculate.
  apply tame_bind; [apply tame_add_fixed | intros t0].
  apply tame_bind; [apply tame_group_options | intros g].
  apply tame_bind; [apply tame_add_grouped | intros t1].
  apply tame_bind; [apply tame_add_carbs | intros t2]. apply tame_ret.
Qed.

(** The macro calories [format_row] divides by. *)
Lemma format_row_cases (day : string) (totals : Nutrients.t num) :
  let total_cal :=
    nadd (nadd (nmul (Nutrients.p totals) (of_int 4))
               (nmul (Nutrients.c totals) (of_int 4)))
         (nmul (Nutrients.f totals) (of_int 9)) in
  (is_zero total_cal = true ->
   format_row day totals = raise ZeroDivisionError)
  /\ (is_zero total_cal = false ->
      exists row, format_row day totals = ret row).
Proof.
  intros total_cal. unfold format_row. cbv zeta.
  change (kcal "c") with (of_int (num := num) 4).
  change (kcal "p") with (of_int (num := num) 4).
  change (kcal "f") with (of_int (num := num) 9).
  fold total_cal. split; intros Ez.
  - now rewrite (ndiv_zero _ _ Ez).
  - rewrite !(ndiv_nonzero _ _ Ez), !bind_ret_l. eexists. reflexivity.
Qed.

Lemma tame_format_row (day : string) (totals : Nutrients.t num) :
  tame (format_row day totals).
Proof.
  destruct (format_row_cases day totals) as [Hz Hok].
  destruct (is_zero _) eqn:Ez.
  - rewrite (Hz eq_refl). split; [constructor | discriminate].
  - destruct (Hok eq_refl) as [row ->]. apply tame_ret.
Qed.

Lemma tame_day_rows (db : NutritionDB.t num) (menu : Menu num)
      (days : list string) :
  tame (day_rows db menu days).
Proof.
  induction days as [|day days IH]; cbn [day_rows]; [apply tame_ret|].
  apply tame_bind; [apply tame_calculate | intros t].
  apply tame_bind; [apply tame_format_row | intros row].
  apply tame_bind; [exact IH | intros rows]. apply tame_ret.
Qed.

Lemma day_rows_length (db : NutritionDB.t num) (menu : Menu num)
      (days : list string) :
  forall w rows,
    day_rows db menu days = (w, Ok rows) ->
    List.length rows = List.length days.
Proof.
  induction days as [|day days IH]; intros w rows; cbn [day_rows].
  - intros E. now injection E as _ <-.
  - intros E.
    apply bind_ok_inv in E as (w1 & t & w2 & _ & E & _).
    apply bind_ok_inv in E as (w3 & row & w4 & _ & E & _).
    apply bind_ok_inv in E as (w5 & rows' & w6 & E5 & E & _).
    injection E as _ <-. simpl. f_equal. now apply (IH w5).
Qed.

(** [_load] and [check_menu] log nothing and raise only [ValueError]. *)
Lemma quiet_load (lines : list string) :
  quiet (NutritionDB._load (num := num) lines).
Proof.
  unfold NutritionDB._load.
  destruct (load_lines_cases (skipn 2 lines) (@nil (string * FoodRecord num)))
    as [[items E] | (line & i & msg & _ & _ & _ & _ & E)]; rewrite E.
  - split; [reflexivity | discriminate].
  - split; [reflexivity|]. intros e Ee. injection Ee as <-. now exists msg.
Qed.

Lemma quiet_check_menu (db : NutritionDB.t num) (menu : Menu num) :
  quiet (check_menu db menu).
Proof.
  destruct (check_menu_cases db menu) as [E | [msg E]]; rewrite E.
  - split; [reflexivity | discriminate].
  - split; [reflexivity|]. intros e Ee. injection Ee as <-. now exists msg.
Qed.

Lemma quiet_tame {A} (m : M A) : quiet m -> tame m.
Proof.
  intros [Hl Hr]. split; [rewrite Hl; constructor|].
  intros key E. destruct (Hr _ E) as [msg Em]. discriminate Em.
Qed.

Lemma tame_main_rows (lines : list string) (menu : Menu num) :
  tame (main_rows lines menu).
Proof.
  unfold main_rows.
  apply tame_bind; [apply quiet_tame, quiet_load | intros db].
  apply tame_bind; [apply quiet_tame, quiet_check_menu | intros _].
  apply tame_day_rows.
Qed.

Lemma main_rows_length (lines : list string) (menu : Menu num)
      (w : list event) (rows : list string) :
  main_rows lines menu = (w, Ok rows) -> List.length rows = 3%nat.
Proof.
  unfold main_rows. intros E.
  apply bind_ok_inv in E as (w1 & db & w2 & _ & E & _).
  apply bind_ok_inv in E as (w3 & u & w4 & _ & E & _).
  now apply day_rows_length in E.
Qed.

Lemma main_try_rows (lines : list string) (menu : Menu num) :
  main_try lines menu =
  bind (main_rows lines menu)
       (fun rows =>
          let output :=
            Str.join nl
              ("| Day | Calories | Carbs | Protein | Fat |"
               :: "|-----|----------|-------|---------|-----|" :: rows) in
          bind (emit (LogInfo output))
               (fun _ => emit (FileWrite "out.md" (output ++ nl)))).
Proof.
  unfold main_try, main_rows. rewrite bind_assoc.
  apply bind_ext. intros db. now rewrite bind_assoc.
Qed.

Lemma check_groups_ok (menu : Menu num) (groups : list (nat * nat)) :
  check_groups menu groups = ret tt <->
  forall id n, In (id, n) groups ->
               (n <= List.length (opts_of menu id))%nat.
Proof.
  induction groups as [|[id n] groups IH]; cbn [check_groups].
  - split; [intros _ id n [] | reflexivity].
  - destruct (List.length (opts_of menu id) <? n)%nat eqn:El.
    + apply Nat.ltb_lt in El. split; [discriminate|].
      intros Hall. specialize (Hall id n (or_introl eq_refl)). lia.
    + apply Nat.ltb_ge in El. rewrite IH. split.
      * intros Hall id' n' [E | Hin]; [now injection E as <- <- | auto].
      * intros Hall id' n' Hin. apply Hall. now right.
Qed.

Lemma check_menu_ok (db : NutritionDB.t num) (menu : Menu num) :
  check_menu db menu = ret tt <->
  missing_items db menu = []
  /\ forall id n, In (id, n) (choose_groups menu) ->
                  (n <= List.length (opts_of menu id))%nat.
Proof.
  unfold check_menu. destruct (missing_items db menu) as [|m ms].
  - rewrite check_groups_ok. tauto.
  - split; [discriminate | intros [E _]; discriminate].
Qed.

Lemma missing_nil (db : NutritionDB.t num) (menu : Menu num) :
  missing_items db menu = [] ->
  forall x, In x (all_items menu) -> NutritionDB.exists_ db x = true.
Proof.
  unfold missing_items. intros E x Hx.
  destruct (NutritionDB.exists_ db x) eqn:Ex; [reflexivity|].
  assert (Hin : In x (filter (fun item => negb (NutritionDB.exists_ db item))
                             (all_items menu))).
  { apply filter_In. split; [exact Hx | now rewrite Ex]. }
  now rewrite E in Hin.
Qed.

Lemma ozd_bind {A B} (m : M A) (k : A -> M B) :
  only_zero_division m -> (forall a, only_zero_division (k a)) ->
  only_zero_division (bind m k).
Proof.
  intros Hm Hk e. rewrite result_bind.
  destruct (result_of m) as [a | e'] eqn:E; [apply Hk|].
  intros Ee. injection Ee as <-. now apply Hm.
Qed.

Lemma ozd_ret {A} (a : A) : only_zero_division (ret a).
Proof. intros e E. discriminate E. Qed.

Lemma ozd_ndiv (x y : num) : only_zero_division (ndiv x y).
Proof.
  unfold ndiv. destruct (is_zero y); [|apply ozd_ret].
  intros e E. now injection E as <-.
Qed.

Lemma ozd_avg (l : list (Nutrients.t num)) :
  only_zero_division (Nutrients.avg l).
Proof.
  unfold Nutrients.avg, Nutrients.truediv.
  repeat (apply ozd_bind; [apply ozd_ndiv | intros ?]). apply ozd_ret.
Qed.

Lemma ozd_get (db : NutritionDB.t num) (x : string) :
  ~ In "" (Dict.keys db) ->
  NutritionDB.exists_ db x = true ->
  only_zero_division (NutritionDB.get db x).
Proof.
  intros Hne Ex e E.
  destruct (get_result_cases db x) as [[v Ev] | [Ez | Ev]].
  - rewrite Ev in E. discriminate E.
  - rewrite Ez in E. now injection E as <-.
  - exfalso. rewrite exists_spec in Ex.
    destruct (parse_quantity (num := num) x) as [[qty unit] r] eqn:Ep.
    destruct (NutritionDB.match_ db r) as [[|a name]|] eqn:Em;
      [| |discriminate Ex].
    + apply Hne. now apply (match_in_keys db r).
    + destruct (match_lookup _ _ _ Em) as [item El].
      destruct (get_found_result _ _ _ _ _ _ _ Ep Em ltac:(discriminate) El)
        as [[v Hv] | Hz]; rewrite Ev in *; discriminate.
Qed.

Lemma ozd_mapM {A B} (f : A -> M B) (l : list A) :
  (forall x, In x l -> only_zero_division (f x)) ->
  only_zero_division (mapM f l).
Proof.
  induction l as [|x l IH]; intros Hf; cbn [mapM]; [apply ozd_ret|].
  apply ozd_bind; [apply Hf; now left | intros y].
  apply ozd_bind; [|intros ys; apply ozd_ret].
  apply IH. intros z Hz. apply Hf. now right.
Qed.

Lemma ozd_get_nutrients (db : NutritionDB.t num) (group : list string) :
  ~ In "" (Dict.keys db) ->
  (forall x, In x group -> NutritionDB.exists_ db x = true) ->
  only_zero_division (get_nutrients db group).
Proof.
  intros Hne Hx. unfold get_nutrients.
  apply ozd_bind; [|intros vs; apply ozd_avg].
  apply ozd_mapM. intros x Hin. apply ozd_get; auto.
Qed.

Lemma ozd_add_fixed (db : NutritionDB.t num) (groups : list (list string)) :
  ~ In "" (Dict.keys db) ->
  (forall x, In x (List.concat groups) -> NutritionDB.exists_ db x = true) ->
  forall totals, only_zero_division (add_fixed db groups totals).
Proof.
  intros Hne. induction groups as [|g groups IH]; intros Hx totals;
    cbn [add_fixed]; [apply ozd_ret|].
  apply ozd_bind.
  - apply ozd_get_nutrients; [exact Hne|]. intros x Hin.
    apply Hx. simpl. apply in_or_app. now left.
  - intros v. apply IH. intros x Hin. apply Hx. simpl. apply in_or_app.
    now right.
Qed.

Lemma ozd_group_options (db : NutritionDB.t num)
      (opts : list (list string * nat * nat)) :
  ~ In "" (Dict.keys db) ->
  (forall x, In x (List.concat (map (fun o => fst (fst o)) opts)) ->
             NutritionDB.exists_ db x = true) ->
  forall grouped, only_zero_division (group_options db opts grouped).
Proof.
  intros Hne. induction opts as [|[[g n] id] opts IH]; intros Hx grouped;
    cbn [group_options]; [apply ozd_ret|].
  apply ozd_bind.
  - apply ozd_get_nutrients; [exact Hne|]. intros x Hin.
    apply Hx. simpl. apply in_or_app. now left.
  - intros v. apply IH. intros x Hin. apply Hx. simpl. apply in_or_app.
    now right.
Qed.

Lemma ozd_add_grouped (grouped : grouped_t) :
  forall totals : Nutrients.t num,
    only_zero_division (add_grouped grouped totals).
Proof.
  induction grouped as [|[id [n choices]] grouped IH]; intros totals;
    cbn [add_grouped]; [apply ozd_ret|].
  apply ozd_bind; [apply ozd_avg | intros a; apply IH].
Qed.

Lemma ozd_before_carbs (db : NutritionDB.t num) (menu : Menu num) :
  check_menu db menu = ret tt ->
  ~ In "" (Dict.keys db) ->
  only_zero_division (before_carbs db menu).
Proof.
  intros Ec Hne. apply check_menu_ok in Ec as [Em _].
  pose proof (missing_nil _ _ Em) as Hall.
  unfold before_carbs.
  apply ozd_bind.
  - apply ozd_add_fixed; [exact Hne|]. intros x Hin. apply Hall.
    unfold all_items. apply in_or_app. now left.
  - intros t0. apply ozd_bind; [|intros g; apply ozd_add_grouped].
    apply ozd_group_options; [exact Hne|]. intros x Hin. apply Hall.
    unfold all_items. apply in_or_app. right. apply in_or_app. now left.
Qed.
End Effects.


(** X15. Once [check_menu] has passed, on a table with no empty name, the
    lookups of the fixed items and of the options never raise "Item not
    found": that part of [calculate] can only fail with
    [ZeroDivisionError]. *)
Theorem validated_lookups_only_divide :
  forall (num : Type) (N : PyNum num) (db : NutritionDB.t num)
         (menu : Menu num),
    check_menu db menu = ret tt ->
    ~ In "" (Dict.keys db) ->
    forall e, result_of (before_carbs db menu) = Raise e ->
              e = ZeroDivisionError.
Proof. intros num N db menu Ec Hne. now apply ozd_before_carbs. Qed.

(** A validated menu over a table whose only record has serving amount 0. *)
Lemma validated_lookups_only_divide_witness :
  let db := [("water", mkFood (Exact.PyFloat 0) (Exact.PyFloat 0)
                              (Exact.PyFloat 0) (Exact.PyFloat 0) "g"
                              (Exact.PyFloat 0))] in
  let menu := mkMenu Nutrients.zero [] None [["250g water"]] [] [] in
  check_menu db menu = ret tt
  /\ result_of (before_carbs db menu) = Raise ZeroDivisionError.
Proof.
  intros db menu.
  assert (Ec : check_menu db menu = ret tt) by reflexivity.
  split; [exact Ec|].
  destruct (result_of (before_carbs db menu)) as [v | e] eqn:E.
  - vm_compute in E. discriminate E.
  - f_equal.
    apply (validated_lookups_only_divide Exact.pynum _ db menu Ec); [|exact E].
    intros [H | []]. discriminate H.
Defined.

(** X16. For totals whose four fields are in range, [format_row] raises
    [ZeroDivisionError] exactly when the macro calories of the day,
    protein x 4 + carbs x 4 + fat x 9, are zero; otherwise it returns a
    row. *)
Theorem format_row_divides_by_macro_calories :
  forall (num : Type) (N : PyNum num) (day : string)
         (totals : Nutrients.t num),
    nutrients_in_range totals ->
    (is_zero (nadd (nadd (nmul (Nutrients.p totals) (of_int 4))
                         (nmul (Nutrients.c totals) (of_int 4)))
                   (nmul (Nutrients.f totals) (of_int 9))) = true ->
     format_row day totals = raise ZeroDivisionError)
    /\ (is_zero (nadd (nadd (nmul (Nutrients.p totals) (of_int 4))
                            (nmul (Nutrients.c totals) (of_int 4)))
                      (nmul (Nutrients.f totals) (of_int 9))) = false ->
        exists row, format_row day totals = ret row).
Proof. intros num N day totals _. apply format_row_cases. Qed.

(** A day of 500 kcal with no carbs, protein or fat has no row. *)
Lemma format_row_divides_by_macro_calories_witness :
  format_row "rest" (Nutrients.mk (Exact.PyInt 0) (Exact.PyInt 0)
                                  (Exact.PyInt 0) (Exact.PyInt 500))
  = raise ZeroDivisionError.
Proof.
  apply (format_row_divides_by_macro_calories Exact.pynum _ "rest").
  - repeat split; right; [exists 0%Z | exists 0%Z | exists 0%Z | exists 500%Z];
      (split; [apply Z.leb_le; reflexivity | reflexivity]).
  - reflexivity.
Defined.

(** X17. Given the lines of nutrition_facts.md and the menu built from
    menu.yaml, with the numbers of the menu in range, and out.md writable,
    [main] ends in one of three ways.  It returns, and then the log is some
    warnings followed by the report (a header, a separator and three rows)
    logged once and written once to out.md.  Or it exits with status 1
    after some warnings and one logged error.  Or a [ZeroDivisionError]
    leaves it, after warnings only.  Nothing is written unless [main]
    returns. *)
Theorem main_ends :
  forall (num : Type) (N : PyNum num) (lines : list string) (menu : Menu num),
    menu_in_range menu ->
    match main lines menu with
    | (log, Finished) =>
        exists warns rows,
          Forall is_warning warns
          /\ List.length rows = 3%nat
          /\ log = (warns
                    ++ [LogInfo
                          (Str.join nl
                             ("| Day | Calories | Carbs | Protein | Fat |"
                              :: "|-----|----------|-------|---------|-----|"
                              :: rows));
                        FileWrite "out.md"
                          (Str.join nl
                             ("| Day | Calories | Carbs | Protein | Fat |"
                              :: "|-----|----------|-------|---------|-----|"
                              :: rows) ++ nl)])%list
    | (log, Exit status) =>
        status = 1%Z
        /\ exists warns msg,
            Forall is_warning warns /\ log = (warns ++ [LogError msg])%list
    | (log, Uncaught e) =>
        e = ZeroDivisionError /\ Forall is_warning log
    end.
Proof.
  intros num N lines menu _. unfold main. rewrite main_try_rows.
  destruct (tame_main_rows lines menu) as [Hl Hk].
  destruct (main_rows lines menu) as [w [rows | e]] eqn:E; simpl in Hl, Hk.
  - cbn. exists w, rows. split; [exact Hl|]. split; [|reflexivity].
    now apply (main_rows_length lines menu w).
  - cbn. destruct e as [msg | | key].
    + split; [reflexivity|]. now exists w, msg.
    + now split.
    + now destruct (Hk key).
Qed.

(** A menu with a fixed item, a choice with the wrong unit, per-day carbs
    and an extra of 10 g of carbs: three warnings, then the report. *)
Lemma main_ends_witness :
  let lines :=
    [ "| # | Name | Carbs | Protein | Fat | Amount | Unit | Calories |" ++ nl;
      "|---|------|-------|---------|-----|--------|------|----------|" ++ nl;
      "| 1 | Rice | 20 | 2 | 1 | 100 | g | 100 |" ++ nl ] in
  let menu := mkMenu (Nutrients.mk (Exact.PyInt 10) (Exact.PyInt 0)
                                   (Exact.PyInt 0) (Exact.PyInt 5))
                     [("upper", Exact.PyFloat 200)] (Some "rice")
                     [["100g rice"]] [(["1 cup rice"], 1, 1)]%nat
                     [(1, 1)]%nat in
  snd (main lines menu) = Finished
  /\ exists warns rows,
      Forall is_warning warns
      /\ List.length rows = 3%nat
      /\ fst (main lines menu)
         = (warns
            ++ [LogInfo
                  (Str.join nl
                     ("| Day | Calories | Carbs | Protein | Fat |"
                      :: "|-----|----------|-------|---------|-----|"
                      :: rows));
                FileWrite "out.md"
                  (Str.join nl
                     ("| Day | Calories | Carbs | Protein | Fat |"
                      :: "|-----|----------|-------|---------|-----|"
                      :: rows) ++ nl)])%list.
Proof.
  intros lines menu.
  assert (Hr : menu_in_range menu).
  { split; [|split].
    - repeat split; right;
        [exists 10%Z | exists 0%Z | exists 0%Z | exists 5%Z];
        (split; [apply Z.leb_le; reflexivity | reflexivity]).
    - intros day x [E | []]. injection E as _ <-.
      left. exists "200". reflexivity.
    - intros g n id [E | []]. injection E as _ <- _.
      apply Z.leb_le. reflexivity. }
  pose proof (main_ends Exact.pynum _ lines menu Hr) as Hm.
  destruct (main lines menu) as [log [| status | e]] eqn:Em;
    [| vm_compute in Em; discriminate Em | vm_compute in Em; discriminate Em].
  split; [reflexivity | exact Hm].
Defined.

(** ** [Menu._load] *)

Section MenuFacts.

Lemma nat_reflect (x y : nat) : reflect (x = y) (Nat.eqb x y).
Proof. apply Nat.eqb_spec. Qed.

Lemma inv_options (n id : nat) (opts : list option_node) :
  forall st,
    sections_inv st ->
    Dict.lookup Nat.eqb id (ps_groups st) = Some n ->
    sections_inv (fold_left (parse_option n id) opts st)
    /\ ps_groups (fold_left (parse_option n id) opts st) = ps_groups st
    /\ choose_id (fold_left (parse_option n id) opts st) = choose_id st.
Proof.
  induction opts as [|opt opts IH]; intros st Hinv Hl; cbn [fold_left].
  - split; [exact Hinv | split; reflexivity].
  - assert (Hstep : sections_inv (parse_option n id st opt)
                    /\ ps_groups (parse_option n id st opt) = ps_groups st
                    /\ choose_id (parse_option n id st opt) = choose_id st).
    { destruct Hinv as (Hk & Ho & Hf).
      destruct opt as [s | nested |]; cbn [parse_option];
        (split; [|split; reflexivity]).
      - split; [exact Hk | split; [|exact Hf]].
        cbn [ps_options ps_groups]. intros g n' id' Hin.
        apply in_app_or in Hin as [Hin | [E | []]]; [now apply (Ho g)|].
        now injection E as <- <- <-.
      - split; [exact Hk | split; [|exact Hf]].
        cbn [ps_options ps_groups]. intros g n' id' Hin.
        apply in_app_or in Hin as [Hin | [E | []]]; [now apply (Ho g)|].
        now injection E as <- <- <-.
      - now repeat split. }
    destruct Hstep as (Hinv' & Eg & Ec).
    destruct (IH (parse_option n id st opt) Hinv') as (H1 & H2 & H3).
    + now rewrite Eg.
    + split; [exact H1|]. split; congruence.
Qed.

Lemma inv_entry (st : sections_state) (entry : string * list option_node) :
  sections_inv st -> sections_inv (parse_entry st entry).
Proof.
  intros Hinv. destruct entry as [key opts]. unfold parse_entry.
  destruct (Re.re_match choose_re key) as [m|]; [|exact Hinv].
  cbv zeta. set (n := int_of_digits (group_text 1 m)).
  destruct Hinv as (Hk & Ho & Hf).
  assert (Hnew : Dict.lookup Nat.eqb (S (choose_id st)) (ps_groups st) = None).
  { apply (lookup_none Nat.eqb nat_reflect). rewrite Hk.
    rewrite in_seq. lia. }
  apply inv_options.
  - repeat split; cbn [ps_groups ps_options ps_fixed choose_id].
    + rewrite (keys_set Nat.eqb nat_reflect), Hnew, Hk.
      now rewrite seq_S.
    + intros g n' id' Hin. pose proof (Ho g n' id' Hin) as Hl.
      rewrite (lookup_set_other Nat.eqb nat_reflect); [exact Hl|].
      intros ->. congruence.
    + exact Hf.
  - cbn [ps_groups]. apply (lookup_set_same Nat.eqb nat_reflect).
Qed.

Lemma inv_fold {A} (f : sections_state -> A -> sections_state) (l : list A) :
  (forall st a, sections_inv st -> sections_inv (f st a)) ->
  forall st, sections_inv st -> sections_inv (fold_left f l st).
Proof.
  intros Hf. induction l as [|a l IH]; intros st Hinv; cbn [fold_left];
    [exact Hinv|]. apply IH. now apply Hf.
Qed.

Lemma inv_item (st : sections_state) (item : item_node) :
  sections_inv st -> sections_inv (parse_item st item).
Proof.
  intros Hinv. destruct item as [s | entries]; cbn [parse_item].
  - destruct Hinv as (Hk & Ho & Hf). repeat split; auto.
    cbn [ps_fixed]. intros g Hin.
    apply in_app_or in Hin as [Hin | [<- | []]]; [auto | now exists s].
  - apply inv_fold; [apply inv_entry | exact Hinv].
Qed.

Lemma inv_section (st : sections_state) (sec : string * section_node) :
  sections_inv st -> sections_inv (parse_section st sec).
Proof.
  intros Hinv. destruct sec as [name [items |]]; cbn [parse_section];
    destruct (str_mem name RESERVED_KEYS); try exact Hinv.
  apply inv_fold; [apply inv_item | exact Hinv].
Qed.

Lemma parse_sections_inv (data : list (string * section_node)) :
  sections_inv (_parse_sections data).
Proof.
  unfold _parse_sections. apply inv_fold; [apply inv_section|].
  repeat split; cbn; intros; contradiction.
Qed.
End MenuFacts.

(** X18. In the menu [_parse_sections] builds, the choice groups are
    numbered 1, 2, ... in the order met; every option carries the required
    count recorded for its group in [choose_groups]; and every fixed group
    holds exactly one item. *)
Theorem parse_sections_consistent :
  forall data : list (string * section_node),
    Dict.keys (ps_groups (_parse_sections data))
    = seq 1 (choose_id (_parse_sections data))
    /\ (forall g n id,
           In (g, n, id) (ps_options (_parse_sections data)) ->
           Dict.lookup Nat.eqb id (ps_groups (_parse_sections data)) = Some n)
    /\ (forall g, In g (ps_fixed (_parse_sections data)) ->
                  exists s, g = [s]).
Proof. intros data. apply parse_sections_inv. Qed.

Section MenuCounts.
Context {num : Type} `{PyNum num}.

Lemma Forall2_In_r {A B} (R : A -> B -> Prop) (l : list A) (ys : list B)
      (y : B) :
  Forall2 R l ys -> In y ys -> exists x, In x l /\ R x y.
Proof.
  induction 1 as [|x y' l ys Hr _ IH]; [contradiction|].
  intros [<- | Hin].
  - exists x. split; [now left | exact Hr].
  - destruct (IH Hin) as (x' & Hx & Hr'). exists x'. split; [now right | exact Hr'].
Qed.

(** A resolved option keeps the count and the id of the option it comes
    from. *)
Lemma resolve_keeps_tags (db : NutritionDB.t num)
      (opts : list (list string * nat * nat)) (w : list event)
      (es : list (@resolved num)) (e : @resolved num) :
  resolve_options db opts = (w, Ok es) ->
  In e es ->
  exists g, In (g, r_count e, r_id e) opts.
Proof.
  intros E Hin. unfold resolve_options in E.
  apply mapM_ok_inv in E.
  destruct (Forall2_In_r _ _ _ _ E Hin) as ([[g n] id] & Ho & w' & Ee).
  apply bind_ok_inv in Ee as (w1 & vs & w2 & _ & Ee & _).
  apply bind_ok_inv in Ee as (w3 & v & w4 & _ & Ee & _).
  injection Ee as _ <-. now exists g.
Qed.

Lemma count_of_tagged (es : list (@resolved num)) (id : nat) :
  In id (ids_in_order es) ->
  exists e, In e es /\ r_id e = id /\ count_of id es = r_count e.
Proof.
  intros Hin. unfold count_of. fold (tagged id es).
  destruct (tagged id es) as [|e l] eqn:Et.
  - apply tagged_nil in Et. contradiction.
  - assert (He : In e (tagged id es)) by (rewrite Et; now left).
    unfold tagged in He. apply filter_In in He as [He Hid].
    apply Nat.eqb_eq in Hid. now exists e.
Qed.
End MenuCounts.

(** X19. For the menu [Menu] builds from a document, the count by which
    [calculate] multiplies the mean of a choice group is the required count
    stored for that group in [choose_groups]: the day's total is the fixed
    items, then for each group id met among the options the mean of its
    option-groups times [choose_groups[id]], then the per-day carbs and
    [extra]. *)
Theorem loaded_menu_counts :
  forall (num : Type) (N : PyNum num) (doc : document num)
         (db : NutritionDB.t num) (day : string),
    calculate db (Menu_load doc) day =
    (totals <- add_fixed db (fixed (Menu_load doc)) Nutrients.zero ;;
     es <- resolve_options db (options (Menu_load doc)) ;;
     totals <- add_carbs db (Menu_load doc) day
                 (add_required_groups (choose_groups (Menu_load doc))
                                      (ids_in_order es) es totals) ;;
     ret (Nutrients.add totals (extra_term (extra (Menu_load doc))))).
Proof.
  intros num N doc db day. rewrite calculate_by_groups.
  apply bind_ext. intros totals. apply bind_ext_ok. intros w es E.
  assert (Hgen : forall ids,
             (forall id, In id ids -> In id (ids_in_order es)) ->
             forall t,
               add_choice_groups ids es t
               = add_required_groups (choose_groups (Menu_load doc))
                                     ids es t).
  2: { rewrite (Hgen (ids_in_order es)); auto. }
  unfold add_choice_groups, add_required_groups.
  induction ids as [|id ids IH]; intros Hids t; cbn [fold_left];
    [reflexivity|].
  rewrite IH by (intros i Hi; apply Hids; now right).
  do 3 f_equal. unfold group_term. f_equal.
  destruct (count_of_tagged es id (Hids id (or_introl eq_refl)))
    as (e & He & Eid & ->).
  destruct (resolve_keeps_tags db _ w es e E He) as [g Hg].
  cbn [Menu_load options choose_groups] in *. unfold required_count.
  rewrite Eid in Hg.
  now rewrite (proj1 (proj2 (parse_sections_inv (doc_data doc))) g _ _ Hg).
Qed.

(** A "choose 2" block of oats and rice: the day's carbs are
    (60 + 80) / 2 * 2 = 140. *)
Lemma loaded_menu_counts_witness :
  let doc := mkDocument (num := Exact.pynum) [] []
               [("breakfast",
                 SecList [ItemMap [("choose 2",
                                    [OptText "100g oats";
                                     OptText "100g rice"])]])] in
  let db := [("oats", mkFood (Exact.PyFloat 60) (Exact.PyFloat 10)
                             (Exact.PyFloat 5) (Exact.PyFloat 100) "g"
                             (Exact.PyFloat 350));
             ("rice", mkFood (Exact.PyFloat 80) (Exact.PyFloat 7)
                             (Exact.PyFloat 1) (Exact.PyFloat 100) "g"
                             (Exact.PyFloat 360))] in
  required_count (choose_groups (Menu_load doc)) 1 = 2%nat
  /\ calculate db (Menu_load doc) "rest"
     = ret (Nutrients.mk (Exact.PyFloat 140) (Exact.PyFloat 17)
                         (Exact.PyFloat 6) (Exact.PyFloat 710)).
Proof.
  intros doc db. split; [reflexivity|].
  rewrite (loaded_menu_counts Exact.pynum _ doc db "rest"). reflexivity.
Defined.

Section CarbsSection.
Context {num : Type} `{PyNum num}.

Lemma parse_carbs_last (earlier : list (string * list (string * scalar num)))
      (name : string) (amounts : list (string * scalar num)) :
  _parse_carbs (earlier ++ [(name, amounts)])
  = (Some name, day_amounts amounts).
Proof. unfold _parse_carbs. now rewrite fold_left_app. Qed.

Lemma day_amounts_snoc (l : list (string * scalar num)) (day : string)
      (v : scalar num) :
  day_amounts (l ++ [(day, v)])
  = Dict.set String.eqb day (fst (fst (parse_quantity (scalar_str v))))
             (day_amounts l).
Proof. unfold day_amounts. now rewrite fold_left_app. Qed.

Lemma day_amounts_absent (amounts : list (string * scalar num))
      (day : string) :
  ~ In day (map fst amounts) ->
  Dict.lookup String.eqb day (day_amounts amounts) = None.
Proof.
  induction amounts as [|[d v] l IH] using rev_ind; [reflexivity|].
  rewrite map_app, in_app_iff. cbn [map fst In]. intros Hn.
  rewrite day_amounts_snoc.
  rewrite (lookup_set_other String.eqb string_eqb_reflect).
  - apply IH. tauto.
  - intros ->. tauto.
Qed.

Lemma day_amounts_lookup (amounts : list (string * scalar num))
      (day : string) (v : scalar num) :
  NoDup (map fst amounts) -> In (day, v) amounts ->
  Dict.lookup String.eqb day (day_amounts amounts)
  = Some (fst (fst (parse_quantity (scalar_str v)))).
Proof.
  induction amounts as [|[d v'] l IH] using rev_ind; [contradiction|].
  rewrite map_app. cbn [map fst]. intros Hnd Hin.
  rewrite day_amounts_snoc.
  apply NoDup_remove in Hnd as [Hnd Hd]. rewrite List.app_nil_r in Hnd, Hd.
  apply in_app_or in Hin as [Hin | [E | []]].
  - rewrite (lookup_set_other String.eqb string_eqb_reflect).
    + now apply IH.
    + intros Ed. apply Hd. rewrite <- Ed. apply (in_map fst _ _ Hin).
  - injection E as -> ->.
    apply (lookup_set_same String.eqb string_eqb_reflect).
Qed.
End CarbsSection.

(** X20. When the [carbs] section lists several items, [_parse_carbs] keeps
    only the last: [carbs_item] is its name, and [carbs_per_day] gives each
    of its days the amount [parse_quantity] reads from [str] of the day's
    value, and has no other day. *)
Theorem parse_carbs_keeps_last :
  forall (num : Type) (N : PyNum num)
         (earlier : list (string * list (string * scalar num)))
         (name : string) (amounts : list (string * scalar num)),
    fst (_parse_carbs (earlier ++ [(name, amounts)])) = Some name
    /\ (NoDup (map fst amounts) ->
        forall day v,
          In (day, v) amounts ->
          Dict.lookup String.eqb day
            (snd (_parse_carbs (earlier ++ [(name, amounts)])))
          = Some (fst (fst (parse_quantity (scalar_str v)))))
    /\ (forall day,
           ~ In day (map fst amounts) ->
           Dict.lookup String.eqb day
             (snd (_parse_carbs (earlier ++ [(name, amounts)])))
           = None).
Proof.
  intros num N earlier name amounts. rewrite parse_carbs_last.
  split; [reflexivity|]. split.
  - intros Hnd day v. now apply day_amounts_lookup.
  - intros day. apply day_amounts_absent.
Qed.

(** Oats after brown rice: only the days of oats are kept. *)
Lemma parse_carbs_keeps_last_witness :
  let r := _parse_carbs (num := Exact.pynum)
             ([("brown rice", [("upper", ScText "200g")])]
              ++ [("oats", [("lower", ScText "80 g"); ("rest", ScText "40g")])])
  in
  fst r = Some "oats"
  /\ Dict.lookup String.eqb "rest" (snd r) = Some (Exact.PyFloat 40)
  /\ Dict.lookup String.eqb "upper" (snd r) = None.
Proof.
  intros r.
  destruct (parse_carbs_keeps_last Exact.pynum _
              [("brown rice", [("upper", ScText "200g")])] "oats"
              [("lower", ScText "80 g"); ("rest", ScText "40g")])
    as (Hn & Hl & Ha).
  split; [exact Hn|]. split.
  - apply (Hl ltac:(repeat constructor; simpl; intuition discriminate)
              "rest" (ScText "40g")).
    right. now left.
  - apply Ha. simpl. intuition discriminate.
Defined.

(** X21. For a menu whose numbers are in range, [calculate] logs only
    warnings and never raises [KeyError]: it returns, or raises a
    [ValueError] or [ZeroDivisionError]. *)
Theorem calculate_effects :
  forall (num : Type) (N : PyNum num) (db : NutritionDB.t num)
         (menu : Menu num) (day : string),
    menu_in_range menu ->
    Forall is_warning (log_of (calculate db menu day))
    /\ ((exists totals, result_of (calculate db menu day) = Ok totals)
        \/ result_of (calculate db menu day) = Raise ZeroDivisionError
        \/ exists msg, result_of (calculate db menu day)
                       = Raise (ValueError msg)).
Proof.
  intros num N db menu day _.
  destruct (tame_calculate db menu day) as [Hl Hk]. split; [exact Hl|].
  destruct (result_of (calculate db menu day)) as [t | [msg | | key]].
  - left. now exists t.
  - right. right. now exists msg.
  - right. now left.
  - now destruct (Hk key).
Qed.

(** A menu that asks for a cup of rice from a table that has rice by the
    gram. *)
Lemma calculate_effects_witness :
  let db := [("rice", mkFood (Exact.PyFloat 20) (Exact.PyFloat 2)
                             (Exact.PyFloat 1) (Exact.PyFloat 100) "g"
                             (Exact.PyFloat 100))] in
  let menu := mkMenu (Nutrients.mk (Exact.PyInt 10) (Exact.PyInt 0)
                                   (Exact.PyInt 0) (Exact.PyInt 5))
                     [] None [["1 cup rice"]] [] [] in
  Forall is_warning (log_of (calculate db menu "rest"))
  /\ log_of (calculate db menu "rest") <> [].
Proof.
  intros db menu. split; [|vm_compute; discriminate].
  apply (calculate_effects Exact.pynum _ db menu "rest").
  split; [|split].
  - repeat split; right;
      [exists 10%Z | exists 0%Z | exists 0%Z | exists 5%Z];
      (split; [apply Z.leb_le; reflexivity | reflexivity]).
  - intros day x [].
  - intros g n id [].
Defined.

(** X22. [get_nutrients] of an empty group raises [ZeroDivisionError]; of a
    non-empty group whose lookups all return, it returns, with the log of
    the lookups: the average itself cannot fail. *)
Theorem get_nutrients_group :
  forall (num : Type) (N : PyNum num) (db : NutritionDB.t num),
    get_nutrients db [] = raise ZeroDivisionError
    /\ forall (group : list string) (w : list event)
              (vs : list (Nutrients.t num)),
        group <> [] ->
        mapM (NutritionDB.get db) group = (w, Ok vs) ->
        exists v, get_nutrients db group = (w, Ok v).
Proof.
  intros num N db. split.
  - unfold get_nutrients. cbn [mapM]. rewrite bind_ret_l. apply avg_empty.
  - intros group w vs Hne E. unfold get_nutrients. rewrite E.
    assert (Hvs : vs <> []).
    { apply mapM_ok_inv, Forall2_length in E.
      destruct vs; [destruct group; [contradiction | discriminate E]|].
      discriminate. }
    unfold bind. rewrite (avg_nonempty vs Hvs). cbn. rewrite List.app_nil_r.
    eexists. reflexivity.
Qed.
